(** * Basecamp Console: the session, evidence-intake and report core of
    [app.py], embedded in Rocq.

    Conventions of the embedding.
    - A Python [str] is a Rocq [string], read as a sequence of code points
      below 256; the character classes of [re] and [str] are the ones Python
      has on that range.  Text literals of the source that contain characters
      beyond that range are kept as the bytes of the source file; they are
      only passed through to the page writer.
    - The SQLite tables are lists of rows in rowid order; each SQL statement
      of the source is a function on those lists.
    - The file system and the PDF canvas are interfaces ([FileSystem],
      [PageWriter]); the program is written against them.
    - Code that can raise returns a [result]; code with effects runs in the
      monad [M] over the world (database and file system).
    - Lengths on the page are exact integers, in hundredths of a point (the
      source computes them in binary floating point). *)

From Stdlib Require Import ZArith NArith Ascii String List Lia DecimalString.
From Stdlib Require OrdersEx DecimalNat.
From stdpp Require Import base list gmap sets strings sorting.

Open Scope string_scope.
Open Scope list_scope.
Open Scope nat_scope.

(** ** Python text primitives *)

Module Py.

Definition in_range (lo hi : N) (c : ascii) : bool :=
  let n := N_of_ascii c in ((lo <=? n) && (n <=? hi))%N.

(** [str.isspace], also the class [\s] of [re] and what [strip]/[split]
    take for whitespace. *)
Definition isspace (c : ascii) : bool :=
  in_range 9 13 c || in_range 28 32 c || in_range 133 133 c
  || in_range 160 160 c.

(** [str.isalnum]. *)
Definition isalnum (c : ascii) : bool :=
  in_range 48 57 c || in_range 65 90 c || in_range 97 122 c
  || in_range 170 170 c || in_range 178 179 c || in_range 181 181 c
  || in_range 185 186 c || in_range 188 190 c || in_range 192 214 c
  || in_range 216 246 c || in_range 248 255 c.

(** The class [\w] of [re]: alphanumerics and the underscore. *)
Definition isword (c : ascii) : bool := isalnum c || Ascii.eqb c "_".

Definition shift (d : Z) (c : ascii) : ascii :=
  ascii_of_N (Z.to_N (Z.of_N (N_of_ascii c) + d)).

Definition lower_char (c : ascii) : ascii :=
  if in_range 65 90 c || in_range 192 214 c || in_range 216 222 c
  then shift 32 c else c.

(** [str.lower]. *)
Fixpoint lower (s : string) : string :=
  match s with
  | EmptyString => EmptyString
  | String c t => String (lower_char c) (lower t)
  end.

(** [str.upper].  The sharp s becomes two letters; the micro sign and the
    y with diaeresis have their capitals beyond code point 255 and are left
    as they are here. *)
Fixpoint upper (s : string) : string :=
  match s with
  | EmptyString => EmptyString
  | String c t =>
      if in_range 97 122 c || in_range 224 246 c || in_range 248 254 c
      then String (shift (-32) c) (upper t)
      else if in_range 223 223 c then String "S" (String "S" (upper t))
      else String c (upper t)
  end.

Fixpoint lstrip_by (p : ascii -> bool) (s : string) : string :=
  match s with
  | EmptyString => EmptyString
  | String c t => if p c then lstrip_by p t else s
  end.

Fixpoint rstrip_by (p : ascii -> bool) (s : string) : string :=
  match s with
  | EmptyString => EmptyString
  | String c t =>
      match rstrip_by p t with
      | EmptyString => if p c then EmptyString else String c EmptyString
      | r => String c r
      end
  end.

(** [str.strip()]. *)
Definition strip (s : string) : string :=
  rstrip_by isspace (lstrip_by isspace s).

(** [str.lstrip(ch)] for one character. *)
Definition lstrip_char (ch : ascii) (s : string) : string :=
  lstrip_by (Ascii.eqb ch) s.

(** [re.sub(cls+, repl, s)] for a character class [cls]: every maximal run
    of characters of the class is replaced by one [repl]. *)
Fixpoint sub_runs_from (cls : ascii -> bool) (repl : string) (in_run : bool)
    (s : string) : string :=
  match s with
  | EmptyString => EmptyString
  | String c t =>
      if cls c then
        if in_run then sub_runs_from cls repl true t
        else repl +:+ sub_runs_from cls repl true t
      else String c (sub_runs_from cls repl false t)
  end.

Definition re_sub_runs (cls : ascii -> bool) (repl s : string) : string :=
  sub_runs_from cls repl false s.

(** [s[:n]]. *)
Definition slice_to (n : nat) (s : string) : string := String.substring 0 n s.

(** [s[i:]]. *)
Definition slice_from (i : nat) (s : string) : string :=
  String.substring i (String.length s - i) s.

(** [str.rfind(ch)]; [None] stands for -1. *)
Fixpoint rfind (ch : ascii) (s : string) : option nat :=
  match s with
  | EmptyString => None
  | String c t =>
      match rfind ch t with
      | Some i => Some (S i)
      | None => if Ascii.eqb c ch then Some 0 else None
      end
  end.

(** [str.endswith(ch)] for one character. *)
Fixpoint endswith_char (ch : ascii) (s : string) : bool :=
  match s with
  | EmptyString => false
  | String c EmptyString => Ascii.eqb c ch
  | String _ t => endswith_char ch t
  end.

(** [str.split(ch)] for one character. *)
Fixpoint split_char (ch : ascii) (s : string) : list string :=
  match s with
  | EmptyString => [EmptyString]
  | String c t =>
      if Ascii.eqb c ch then EmptyString :: split_char ch t
      else match split_char ch t with
           | h :: r => String c h :: r
           | [] => [String c EmptyString]
           end
  end.

(** [str.split()]: the maximal runs of characters that are not whitespace. *)
Fixpoint split_ws_from (cur : string) (s : string) : list string :=
  match s with
  | EmptyString => if String.eqb cur "" then [] else [cur]
  | String c t =>
      if isspace c then
        if String.eqb cur "" then split_ws_from "" t
        else cur :: split_ws_from "" t
      else split_ws_from (cur +:+ String c EmptyString) t
  end.

Definition split_ws (s : string) : list string := split_ws_from "" s.

(** [sep.join(parts)]. *)
Definition join (sep : string) (parts : list string) : string :=
  String.concat sep parts.

(** [str(n)] for a natural number. *)
Definition str_of_nat (n : nat) : string :=
  NilZero.string_of_uint (Nat.to_uint n).

Fixpoint zeros (k : nat) : string :=
  match k with
  | O => EmptyString
  | S k' => String "0" (zeros k')
  end.

(** [format(n, "0<w>d")]: decimal, padded on the left with zeros up to
    width [w]; a longer number is not cut. *)
Definition format_0d (w n : nat) : string :=
  let s := str_of_nat n in zeros (w - String.length s) +:+ s.

Definition isdigit (c : ascii) : bool := in_range 48 57 c.

Definition digit_val (c : ascii) : nat := N.to_nat (N_of_ascii c) - 48.

(** The value of a string of decimal digits, [None] when some character is
    not a digit or the string is empty. *)
Fixpoint digits_from (acc : nat) (s : string) : option nat :=
  match s with
  | EmptyString => Some acc
  | String c t =>
      if isdigit c then digits_from (10 * acc + digit_val c) t else None
  end.

Definition parse_digits (s : string) : option nat :=
  match s with
  | EmptyString => None
  | _ => digits_from 0 s
  end.

(** Truthiness of a string, as in [x or None]. *)
Definition or_none (s : string) : option string :=
  if String.eqb s "" then None else Some s.

(** [(x or "")] for an optional string. *)
Definition or_empty (o : option string) : string :=
  match o with
  | Some s => s
  | None => ""
  end.

End Py.

(** ** Paths ([pathlib]) *)

(** A path is the list of its components; [p / s] appends one component. *)
Definition Path : Type := list string.

Definition path_div (p : Path) (s : string) : Path := p ++ [s].
Infix "//" := path_div (at level 40, left associativity).

(** [p.name], the final component. *)
Definition path_name (p : Path) : string := List.last p "".

(** [str(p)]. *)
Definition path_str (p : Path) : string := Py.join "/" p.

(** [PurePath.suffix] of a final component: the text from the last dot on,
    unless that dot is the first or the last character. *)
Definition suffix (name : string) : string :=
  match Py.rfind "." name with
  | Some i =>
      if (0 <? i) && (i <? String.length name - 1)
      then Py.slice_from i name else ""
  | None => ""
  end.

(** [PurePath.suffixes] of a final component. *)
Definition suffixes (name : string) : list string :=
  if Py.endswith_char "." name then []
  else map (fun part => "." +:+ part)
           (List.tl (Py.split_char "." (Py.lstrip_char "." name))).

(** ** Clock and formatting *)

Record datetime : Type := mkDatetime {
  year : nat; month : nat; day : nat;
  hour : nat; minute : nat; second : nat
}.

Definition is_leap (y : nat) : bool :=
  (y mod 4 =? 0) && (negb (y mod 100 =? 0) || (y mod 400 =? 0)).

Definition days_in_month (y m : nat) : nat :=
  match m with
  | 2 => if is_leap y then 29 else 28
  | 4 | 6 | 9 | 11 => 30
  | _ => 31
  end.

(** [datetime.MAXYEAR], 9999. *)
Definition MAXYEAR : nat := 100 * 100 - 1.

(** The values a [datetime] object can hold. *)
Definition valid_datetime (dt : datetime) : bool :=
  (1 <=? year dt) && (year dt <=? MAXYEAR)
  && (1 <=? month dt) && (month dt <=? 12)
  && (1 <=? day dt) && (day dt <=? days_in_month (year dt) (month dt))
  && (hour dt <? 24) && (minute dt <? 60) && (second dt <? 60).

(** [dt.strftime("%Y-%m-%d %H:%M:%S")]; the year is written with four
    digits, as the library does for every year from 1000 on.  (Below the
    year 1000 the text of [%Y] depends on the C library, which may leave the
    year unpadded; no reading of the clock is that early.) *)
Definition fmt_ts (dt : datetime) : string :=
  Py.format_0d 4 (year dt) +:+ "-" +:+ Py.format_0d 2 (month dt) +:+ "-"
  +:+ Py.format_0d 2 (day dt) +:+ " " +:+ Py.format_0d 2 (hour dt) +:+ ":"
  +:+ Py.format_0d 2 (minute dt) +:+ ":" +:+ Py.format_0d 2 (second dt).

(** [dt.strftime("%H:%M")]. *)
Definition fmt_time (dt : datetime) : string :=
  Py.format_0d 2 (hour dt) +:+ ":" +:+ Py.format_0d 2 (minute dt).

(** [dt.strftime("%Y%m%d")], for years from 1000 on as [fmt_ts]. *)
Definition strftime_Ymd (dt : datetime) : string :=
  Py.format_0d 4 (year dt) +:+ Py.format_0d 2 (month dt)
  +:+ Py.format_0d 2 (day dt).

(** [dt.strftime("%Y%m%d_%H%M%S")], for years from 1000 on as [fmt_ts]. *)
Definition strftime_session_id (dt : datetime) : string :=
  strftime_Ymd dt +:+ "_" +:+ Py.format_0d 2 (hour dt)
  +:+ Py.format_0d 2 (minute dt) +:+ Py.format_0d 2 (second dt).

Definition char_at (i : nat) (s : string) (c : ascii) : bool :=
  match String.get i s with
  | Some d => Ascii.eqb d c
  | None => false
  end.

(** [datetime.strptime(s, "%Y-%m-%d %H:%M:%S")] on the fixed-width texts
    that [fmt_ts] writes; [None] is the [ValueError].  (The library also
    reads fields that are not padded and other whitespace between the date
    and the time, which [fmt_ts] never writes; on such texts this function
    says nothing about the library.) *)
Definition strptime (s : string) : option datetime :=
  if (String.length s =? 19) && char_at 4 s "-" && char_at 7 s "-"
     && char_at 10 s " " && char_at 13 s ":" && char_at 16 s ":"
  then
    match Py.parse_digits (String.substring 0 4 s),
          Py.parse_digits (String.substring 5 2 s),
          Py.parse_digits (String.substring 8 2 s),
          Py.parse_digits (String.substring 11 2 s),
          Py.parse_digits (String.substring 14 2 s),
          Py.parse_digits (String.substring 17 2 s) with
    | Some y, Some mo, Some d, Some h, Some mi, Some se =>
        let dt := mkDatetime y mo d h mi se in
        if valid_datetime dt then Some dt else None
    | _, _, _, _, _, _ => None
    end
  else None.

(** ** Configuration *)

Definition DATA_DIR : Path := ["data"].
Definition SESSIONS_DIR : Path := DATA_DIR // "sessions".
Definition ASSETS_DIR : Path := ["assets"].
Definition DEFAULT_LOGO_PATH : Path := ASSETS_DIR // "logo.png".

Definition DEFAULT_EQUIPMENT : list (string * string) :=
  [("EMF Meter", "EMF-01"); ("EMF Meter", "EMF-02"); ("IR Camera", "IR-01");
   ("Voice Recorder", "VR-01"); ("Spirit Box", "SB-01");
   ("Thermal Camera", "TH-01")].

Definition EVIDENCE_TYPES : list string :=
  ["AUTO"; "AUDIO"; "VIDEO"; "PHOTO"; "DOC"; "OTHER"].

(** The table of the automatic type detection. *)
Definition EXT_TYPE : list (string * string) :=
  [(".wav", "AUDIO"); (".mp3", "AUDIO"); (".m4a", "AUDIO"); (".aac", "AUDIO");
   (".flac", "AUDIO");
   (".mp4", "VIDEO"); (".mov", "VIDEO"); (".mkv", "VIDEO"); (".avi", "VIDEO");
   (".wmv", "VIDEO");
   (".jpg", "PHOTO"); (".jpeg", "PHOTO"); (".png", "PHOTO");
   (".heic", "PHOTO"); (".webp", "PHOTO");
   (".pdf", "DOC"); (".txt", "DOC"); (".doc", "DOC"); (".docx", "DOC")].

(** [d.get(k, default)] on a dict literal with distinct keys. *)
Fixpoint dict_get (d : list (string * string)) (k default : string) : string :=
  match d with
  | [] => default
  | (k', v) :: rest => if String.eqb k' k then v else dict_get rest k default
  end.

(** The three characters the source file has where a dash was meant. *)
Definition DASH : string :=
  String (ascii_of_nat 195) (String (ascii_of_nat 162)
  (String (ascii_of_nat 226) (String (ascii_of_nat 130)
  (String (ascii_of_nat 172) (String (ascii_of_nat 226)
  (String (ascii_of_nat 128) (String (ascii_of_nat 157) ""))))))).

(** ** Utilities *)

Definition allowed_in_filename (c : ascii) : bool :=
  Py.isword c || Ascii.eqb c "-" || Ascii.eqb c "." || Ascii.eqb c " ".

Definition safe_filename (name : string) : string :=
  let name := Py.strip name in
  let name := Py.re_sub_runs (fun c => negb (allowed_in_filename c)) "_" name in
  let name := Py.re_sub_runs Py.isspace "_" name in
  if 180 <? String.length name then Py.slice_to 180 name else name.

Definition detect_type_from_name (name : string) : string :=
  let ext := Py.lower (suffix name) in
  dict_get EXT_TYPE ext "OTHER".

(** ** Exceptions *)

Inductive exn : Type :=
| IntegrityError            (* sqlite3.IntegrityError: a key constraint failed *)
| ValueError (msg : string)
| TypeError.                (* subscripting [None] *)

Inductive result (A : Type) : Type :=
| Ok (a : A)
| Raise (e : exn).
Arguments Ok {A} a.
Arguments Raise {A} e.

(** ** Sorting *)

(** [list.sort(key=...)] is a stable sort that compares keys with [<]; its
    result is the one of this insertion sort.  With [reverse=True] the list
    is reversed, sorted and reversed again, so that elements with equal keys
    keep their order. *)
Fixpoint insert_by {A : Type} (key : A -> string) (x : A) (l : list A)
    : list A :=
  match l with
  | [] => [x]
  | y :: t =>
      if String.ltb (key y) (key x) then y :: insert_by key x t else x :: l
  end.

Fixpoint sort_by {A : Type} (key : A -> string) (l : list A) : list A :=
  match l with
  | [] => []
  | x :: t => insert_by key x (sort_by key t)
  end.

Definition py_sort {A : Type} (key : A -> string) (reverse : bool)
    (l : list A) : list A :=
  if reverse then rev (sort_by key (rev l)) else sort_by key l.

(** ** Record store *)

Record session_row : Type := mkSession {
  session_id : string;
  started_at : string;
  ended_at : option string;
  location : option string;
  notes : option string
}.

(** The [tags] columns hold [json.dumps] of a list of strings, or NULL;
    a row carries the list that [json.loads] gives back, NULL as [[]]. *)
Record log_row : Type := mkLog {
  log_id : nat;
  log_session_id : string;
  log_created_at : string;
  log_mode : string;
  log_author : string;
  log_tags : list string;
  log_text : string;
  log_linked_event_id : option nat
}.

Record event_row : Type := mkEvent {
  event_id : nat;
  event_session_id : string;
  event_created_at : string;
  event_author : string;
  event_title : string;
  event_severity : nat;
  event_tags : list string;
  event_room : option string;
  event_camera_label : option string
}.

Record evidence_row : Type := mkEvidence {
  evidence_id : nat;
  evidence_session_id : string;
  evidence_created_at : string;
  evidence_code : string;
  original_name : string;
  stored_name : string;
  stored_path : string;
  evidence_type : string;
  captured_by : option string;
  evidence_device : option string;
  evidence_room : option string;
  evidence_description : option string;
  evidence_linked_event_id : option nat
}.

Record equipment_row : Type := mkEquipment {
  equipment_id : nat;
  equipment_name : string;
  gear_id : string
}.

Record equipment_log_row : Type := mkEquipmentLog {
  eqlog_id : nat;
  eqlog_session_id : string;
  eqlog_gear_id : string;
  eqlog_action : string;
  eqlog_at : string;
  eqlog_who : string;
  eqlog_battery : option nat;
  eqlog_condition_notes : option string
}.

Record tracker_row : Type := mkTracker {
  tracker_id : nat;
  tracker_session_id : string;
  team_label : string;
  tracker_location : string;
  last_radio_call : option string;
  needs_support : bool
}.

Record DB : Type := mkDB {
  sessions : list session_row;
  logs : list log_row;
  events : list event_row;
  evidence : list evidence_row;
  equipment : list equipment_row;
  equipment_log : list equipment_log_row;
  tracker : list tracker_row
}.

(** The store before [init_db]. *)
Definition empty_db : DB := mkDB [] [] [] [] [] [] [].

Module Sql.

(** The next value of an [INTEGER PRIMARY KEY AUTOINCREMENT] column of a
    table from which no row was deleted. *)
Definition next_id {A : Type} (id : A -> nat) (rows : list A) : nat :=
  S (fold_right Nat.max 0 (map id rows)).

(** [ORDER BY col ASC]; rows with equal keys are left in rowid order. *)
Definition order_by_asc {A : Type} (key : A -> string) (rows : list A)
    : list A := sort_by key rows.

(** [ORDER BY col DESC LIMIT n]. *)
Definition order_by_desc_limit {A : Type} (key : A -> string) (n : nat)
    (rows : list A) : list A := firstn n (rev (sort_by key (rev rows))).

(** [SELECT * FROM sessions WHERE session_id = ?], first row. *)
Definition select_session (sid : string) (d : DB) : option session_row :=
  List.find (fun r => String.eqb (session_id r) sid) (sessions d).

(** [INSERT INTO sessions(session_id, started_at, location, notes)]:
    [session_id] is the primary key of the table. *)
Definition insert_session (sid started : string) (loc nts : option string)
    (d : DB) : result DB :=
  if existsb (fun r => String.eqb (session_id r) sid) (sessions d)
  then Raise IntegrityError
  else Ok (mkDB (sessions d ++ [mkSession sid started None loc nts])
                (logs d) (events d) (evidence d) (equipment d)
                (equipment_log d) (tracker d)).

(** [UPDATE sessions SET ended_at = ? WHERE session_id = ?]. *)
Definition update_ended_at (ended sid : string) (d : DB) : result DB :=
  Ok (mkDB (map (fun r =>
              if String.eqb (session_id r) sid
              then mkSession (session_id r) (started_at r) (Some ended)
                             (location r) (notes r)
              else r) (sessions d))
           (logs d) (events d) (evidence d) (equipment d)
           (equipment_log d) (tracker d)).

(** [SELECT COUNT( * ) FROM evidence WHERE session_id = ?]. *)
Definition count_evidence (sid : string) (d : DB) : nat :=
  length (List.filter (fun r => String.eqb (evidence_session_id r) sid)
                      (evidence d)).

(** [INSERT INTO evidence(...)]; the id is assigned by the table. *)
Definition insert_evidence (sid created code orig stored path ty : string)
    (by_ dev rm desc : option string) (link : option nat) (d : DB)
    : result DB :=
  Ok (mkDB (sessions d) (logs d) (events d)
           (evidence d ++
              [mkEvidence (next_id evidence_id (evidence d)) sid created code
                          orig stored path ty by_ dev rm desc link])
           (equipment d) (equipment_log d) (tracker d)).

(** [INSERT OR IGNORE INTO equipment(name, gear_id)]: [gear_id] is UNIQUE. *)
Definition insert_or_ignore_equipment (name gid : string) (d : DB) : DB :=
  if existsb (fun r => String.eqb (gear_id r) gid) (equipment d) then d
  else mkDB (sessions d) (logs d) (events d) (evidence d)
            (equipment d ++
               [mkEquipment (next_id equipment_id (equipment d)) name gid])
            (equipment_log d) (tracker d).

Definition logs_of (sid : string) (d : DB) : list log_row :=
  order_by_asc log_created_at
    (List.filter (fun r => String.eqb (log_session_id r) sid) (logs d)).

Definition events_of (sid : string) (d : DB) : list event_row :=
  order_by_asc event_created_at
    (List.filter (fun r => String.eqb (event_session_id r) sid) (events d)).

Definition evidence_of (sid : string) (d : DB) : list evidence_row :=
  order_by_asc evidence_created_at
    (List.filter (fun r => String.eqb (evidence_session_id r) sid)
                 (evidence d)).

Definition equipment_log_of (sid : string) (d : DB)
    : list equipment_log_row :=
  order_by_asc eqlog_at
    (List.filter (fun r => String.eqb (eqlog_session_id r) sid)
                 (equipment_log d)).

Definition tracker_of (sid : string) (d : DB) : list tracker_row :=
  order_by_asc team_label
    (List.filter (fun r => String.eqb (tracker_session_id r) sid)
                 (tracker d)).

(** [... ORDER BY created_at DESC LIMIT n], the dashboard's reads. *)
Definition recent_events_of (sid : string) (n : nat) (d : DB)
    : list event_row :=
  order_by_desc_limit event_created_at n
    (List.filter (fun r => String.eqb (event_session_id r) sid) (events d)).

Definition recent_logs_of (sid : string) (n : nat) (d : DB) : list log_row :=
  order_by_desc_limit log_created_at n
    (List.filter (fun r => String.eqb (log_session_id r) sid) (logs d)).

End Sql.

(** ** The page writer *)

(** What the program asks of the canvas, in the order it asks. *)
Inductive canvas_op : Type :=
| SetFont (name : string) (size : nat)
| DrawString (x y : Z) (text : string)
| DrawImage (path : string) (x y w h : Z)
| ShowPage
| Save.

(** Text measurement, [c.stringWidth(text, font, size)], in hundredths of a
    point. *)
Class PageWriter : Type := {
  stringWidth : string -> string -> nat -> Z
}.

(** ** The file system *)

Class FileSystem (FS : Type) : Type := {
  fs_exists : FS -> Path -> bool;
  fs_is_file : FS -> Path -> bool;
  fs_is_dir : FS -> Path -> bool;
  (** [p.mkdir(parents=True, exist_ok=True)] *)
  fs_mkdir : Path -> FS -> FS;
  (** [p.read_bytes()]; [None] when it raises *)
  fs_read_bytes : FS -> Path -> option (list Byte.byte);
  (** [p.write_bytes(data)]; [false] when it raises, whatever it left *)
  fs_write_bytes : Path -> list Byte.byte -> FS -> bool * FS;
  (** [shutil.copy2(src, dst)]; [false] when it raises *)
  fs_copy2 : Path -> Path -> FS -> bool * FS;
  (** [p.glob("*")] and [p.rglob("*")] *)
  fs_glob : FS -> Path -> list Path;
  fs_rglob : FS -> Path -> list Path;
  (** [p.resolve()] *)
  fs_resolve : FS -> Path -> Path;
  (** whether [c.drawImage] can load the file *)
  fs_image_ok : FS -> Path -> bool;
  (** [c.save()] of a canvas opened on a path *)
  fs_save_canvas : Path -> list canvas_op -> FS -> FS;
  (** creating a directory that is there changes nothing *)
  fs_mkdir_existing :
    forall (fs : FS) (p : Path), fs_is_dir fs p = true -> fs_mkdir p fs = fs
}.

Section Program.

Context {FS : Type} {file_system : FileSystem FS}
        {page_writer : PageWriter}.

(** ** The world and the monad of the program *)

Record World : Type := mkWorld {
  w_db : DB;
  w_fs : FS
}.

Definition M (A : Type) : Type := World -> result A * World.

Definition ret {A : Type} (a : A) : M A := fun w => (Ok a, w).

Definition raise {A : Type} (e : exn) : M A := fun w => (Raise e, w).

Definition bind {A B : Type} (m : M A) (k : A -> M B) : M B :=
  fun w =>
    match m w with
    | (Ok a, w') => k a w'
    | (Raise e, w') => (Raise e, w')
    end.

Notation "'do' x <- m ; k" := (bind m (fun x => k))
  (at level 10, x name, m at level 100, k at level 200).
Notation "'do_' m ; k" := (bind m (fun _ => k))
  (at level 10, m at level 100, k at level 200).

Definition get_fs : M FS := fun w => (Ok (w_fs w), w).

Definition update_fs (f : FS -> FS) : M unit :=
  fun w => (Ok tt, mkWorld (w_db w) (f (w_fs w))).

Definition mkdir (p : Path) : M unit := update_fs (fs_mkdir p).

Definition ensure_dirs : M unit :=
  do_ mkdir DATA_DIR;
  mkdir SESSIONS_DIR.

(** [sqlite3.connect] on the database file; the tables are [w_db]. *)
Definition connect_db : M unit := ensure_dirs.

(** [con.execute(stmt); con.commit()] on an open connection. *)
Definition con_execute (stmt : DB -> result DB) : M unit :=
  fun w =>
    match stmt (w_db w) with
    | Ok d => (Ok tt, mkWorld d (w_fs w))
    | Raise e => (Raise e, w)
    end.

(** [fetchone] and [fetchall], for a query that reads the tables. *)
Definition fetch {A : Type} (query : DB -> A) : M A :=
  do_ connect_db;
  fun w => (Ok (query (w_db w)), w).

Definition execute (stmt : DB -> result DB) : M unit :=
  do_ connect_db;
  con_execute stmt.

Definition seed_equipment (d : DB) : result DB :=
  Ok (if length (equipment d) =? 0
      then fold_left (fun d item =>
                        Sql.insert_or_ignore_equipment (fst item) (snd item) d)
                     DEFAULT_EQUIPMENT d
      else d).

(** The tables are created when missing, which leaves [w_db] as it is. *)
Definition init_db : M unit :=
  do_ connect_db;
  con_execute seed_equipment.

Definition get_session_folder (sid : string) : M Path :=
  let p := SESSIONS_DIR // sid in
  do_ mkdir p;
  do_ mkdir (p // "evidence");
  do_ mkdir (p // "reports");
  ret p.

(** ** Session lifecycle *)

Definition create_session (now : datetime) (location notes : string)
    : M string :=
  do_ connect_db;
  let started := now in
  let session_id := strftime_session_id started in
  do_ con_execute
        (Sql.insert_session session_id (fmt_ts started)
           (Py.or_none (Py.strip location)) (Py.or_none (Py.strip notes)));
  do_ get_session_folder session_id;
  ret session_id.

Definition end_session (now : datetime) (sid : string) : M unit :=
  do_ connect_db;
  con_execute (Sql.update_ended_at (fmt_ts now) sid).

(** ** Evidence codes *)

Definition next_evidence_counter (sid : string) : M nat :=
  do c <- fetch (Sql.count_evidence sid);
  ret (c + 1).

Definition evidence_code_for (sid ev_type : string) : M string :=
  do started <- fetch (Sql.select_session sid);
  match started with
  | None => raise TypeError
  | Some row =>
      match strptime (started_at row) with
      | None => raise (ValueError "time data does not match format")
      | Some dt =>
          let date_part := strftime_Ymd dt in
          do counter <- next_evidence_counter sid;
          ret (date_part +:+ "_" +:+ Py.format_0d 4 counter +:+ "_"
               +:+ Py.upper ev_type)
      end
  end.

(** ** Ingestion *)

(** The copy of one file: [write_bytes(read_bytes())], and [shutil.copy2]
    when that raised; [false] when both raised. *)
Definition copy_file (src dst : Path) : M bool :=
  fun w =>
    let fs := w_fs w in
    let first :=
      match fs_read_bytes fs src with
      | Some data => fs_write_bytes dst data fs
      | None => (false, fs)
      end in
    let second :=
      if fst first then first else fs_copy2 src dst (snd first) in
    (Ok (fst second), mkWorld (w_db w) (snd second)).

Section Ingest.

Variables (sid ev_type_choice : string)
          (captured_by_val device room desc : option string)
          (linked_event_id : option nat)
          (clock : nat -> datetime)
          (evidence_folder : Path).

(** The loop of [ingest_paths]; [clock k] is what [now_local()] returns at
    its call number [k], one call for every file recorded. *)
Fixpoint ingest_loop (file_paths : list Path) (ingested : nat) : M nat :=
  match file_paths with
  | [] => ret ingested
  | p :: rest =>
      do fs <- get_fs;
      if negb (fs_exists fs p) || negb (fs_is_file fs p)
      then ingest_loop rest ingested
      else
        let original_name := path_name p in
        let ext := Py.join "" (suffixes (path_name p)) in
        let ev_type :=
          if String.eqb ev_type_choice "AUTO"
          then detect_type_from_name original_name
          else ev_type_choice in
        do code <- evidence_code_for sid ev_type;
        let stored_name := safe_filename (code +:+ ext) in
        let stored_path := evidence_folder // stored_name in
        do copied <- copy_file p stored_path;
        if negb copied then ingest_loop rest ingested
        else
          do_ execute
                (Sql.insert_evidence sid (fmt_ts (clock ingested))
                   code original_name stored_name (path_str stored_path)
                   ev_type captured_by_val
                   (Py.or_none (Py.strip (Py.or_empty device)))
                   (Py.or_none (Py.strip (Py.or_empty room)))
                   (Py.or_none (Py.strip (Py.or_empty desc)))
                   linked_event_id);
          ingest_loop rest (ingested + 1)
  end.

End Ingest.

Definition ingest_paths (session_id : string) (file_paths : list Path)
    (ev_type_choice : string) (captured_by_val device room desc : option string)
    (linked_event_id : option nat) (clock : nat -> datetime) : M nat :=
  do session_folder <- get_session_folder session_id;
  let evidence_folder := session_folder // "evidence" in
  ingest_loop session_id ev_type_choice captured_by_val device room desc
              linked_event_id clock evidence_folder file_paths 0.

(** ** Timeline merge *)

(** An entry of the report's timeline: [(created_at, kind, text)]. *)
Definition report_entry : Type := string * string * string.

Definition or_dash (o : option string) : string :=
  match Py.or_none (Py.or_empty o) with
  | Some s => s
  | None => DASH
  end.

(** [[p for p in parts if p]]. *)
Definition truthy (parts : list (option string)) : list string :=
  omap (fun o => Py.or_none (Py.or_empty o)) parts.

Definition report_event_entry (e : event_row) : report_entry :=
  let tags := Py.join ", " (event_tags e) in
  let extra :=
    Py.join (" " +:+ DASH +:+ " ")
      (truthy [event_room e; event_camera_label e;
               Some ("sev " +:+ Py.str_of_nat (event_severity e));
               Some tags]) in
  (event_created_at e, "EVENT",
   event_title e
   +:+ (if String.eqb extra "" then "" else " (" +:+ extra +:+ ")")).

Definition report_log_entry (l : log_row) : report_entry :=
  let tags := Py.join ", " (log_tags l) in
  (log_created_at l, log_mode l,
   log_author l +:+ ": " +:+ log_text l
   +:+ (if String.eqb tags "" then "" else " [tags: " +:+ tags +:+ "]")).

(** The merge of [generate_pdf_report]: oldest first. *)
Definition report_timeline (events : list event_row) (logs : list log_row)
    : list report_entry :=
  let merged := map report_event_entry events ++ map report_log_entry logs in
  py_sort (fun t => fst (fst t)) false merged.

(** An entry of the dashboard's timeline: [(kind, created_at, row)]. *)
Definition dashboard_entry : Type := string * string * (event_row + log_row).

(** The merge of [screen_dashboard]: newest first. *)
Definition dashboard_timeline (events : list event_row) (logs : list log_row)
    : list dashboard_entry :=
  let merged :=
    map (fun e => ("EVENT", event_created_at e, inl e)) events
    ++ map (fun l => (log_mode l, log_created_at l, inr l)) logs in
  py_sort (fun t => snd (fst t)) true merged.

(** What the dashboard shows: [merged[:150]]. *)
Definition dashboard_shown (events : list event_row) (logs : list log_row)
    : list dashboard_entry := firstn 150 (dashboard_timeline events logs).

(** The timestamp and the kind of an entry, for both layouts. *)
Definition report_stamp (t : report_entry) : string * string :=
  (fst (fst t), snd (fst t)).

Definition dashboard_stamp (t : dashboard_entry) : string * string :=
  (snd (fst t), fst (fst t)).

(** ** The report *)

Definition inch : Z := 7200.
Definition letter : Z * Z := (61200, 79200)%Z.

(** [k/100 * inch]. *)
Definition inches (k : Z) : Z := (k * inch / 100)%Z.

Record pen : Type := mkPen {
  pen_y : Z;
  pen_ops : list canvas_op
}.

Definition emit (o : canvas_op) (c : pen) : pen :=
  mkPen (pen_y c) (pen_ops c ++ [o]).

Definition move (dy : Z) (c : pen) : pen :=
  mkPen (pen_y c - dy) (pen_ops c).

Definition width : Z := fst letter.
Definition height : Z := snd letter.
Definition x_margin : Z := inches 75.

Definition top_of_page (c : pen) : pen :=
  mkPen (height - inches 75) (pen_ops c ++ [ShowPage]).

Definition section_title (title : string) (c : pen) : pen :=
  let c := if (pen_y c <? inches 130)%Z then top_of_page c else c in
  let c := emit (SetFont "Helvetica-Bold" 13) c in
  let c := emit (DrawString x_margin (pen_y c) title) c in
  let c := move (inches 30) c in
  emit (SetFont "Helvetica" 10) c.

(** One line of a wrapped text, on a new page when the pen is low. *)
Definition draw_line (indent dy : Z) (line : string) (c : pen) : pen :=
  let c := if (pen_y c <? inches 110)%Z
           then emit (SetFont "Helvetica" 10) (top_of_page c) else c in
  let c := emit (DrawString (x_margin + indent) (pen_y c) line) c in
  move dy c.

Fixpoint wrap_words (max_width indent : Z) (words : list string)
    (line : string) (c : pen) : string * pen :=
  match words with
  | [] => (line, c)
  | w :: rest =>
      let test := Py.strip (line +:+ " " +:+ w) in
      if (stringWidth test "Helvetica" 10 <=? max_width)%Z
      then wrap_words max_width indent rest test c
      else wrap_words max_width indent rest w
             (draw_line indent (inches 18) line c)
  end.

Definition draw_wrapped (text : string) (indent : Z) (c : pen) : pen :=
  let max_width := (width - x_margin * 2 - indent)%Z in
  let words := Py.split_ws text in
  let (line, c) := wrap_words max_width indent words "" c in
  if String.eqb line "" then c else draw_line indent (inches 22) line c.

Definition draw_all {A : Type} (f : A -> pen -> pen) (rows : list A)
    (c : pen) : pen := fold_left (fun c r => f r c) rows c.

Definition draw_timeline_entry (t : report_entry) (c : pen) : pen :=
  let '(ts, kind, text) := t in
  draw_wrapped (ts +:+ " " +:+ DASH +:+ " " +:+ kind +:+ ": " +:+ text) 0 c.

Definition draw_evidence (ev : evidence_row) (c : pen) : pen :=
  let c :=
    draw_wrapped
      (evidence_code ev +:+ " " +:+ DASH +:+ " " +:+ evidence_type ev
       +:+ " " +:+ DASH +:+ " " +:+ stored_name ev
       +:+ " " +:+ DASH +:+ " Captured by: " +:+ or_dash (captured_by ev))
      0 c in
  let meta :=
    omap (fun pr : string * option string =>
            option_map (fun v => fst pr +:+ v)
                       (Py.or_none (Py.or_empty (snd pr))))
         [("Device: ", evidence_device ev); ("Room: ", evidence_room ev);
          ("Notes: ", evidence_description ev)] in
  match meta with
  | [] => c
  | _ => draw_wrapped (Py.join " | " meta) 1800 c
  end.

Definition draw_equipment (row : equipment_log_row) (c : pen) : pen :=
  draw_wrapped
    (eqlog_at row +:+ " " +:+ DASH +:+ " " +:+ eqlog_action row
     +:+ " " +:+ DASH +:+ " " +:+ eqlog_gear_id row
     +:+ " " +:+ DASH +:+ " " +:+ eqlog_who row
     +:+ match eqlog_battery row with
         | Some b => " " +:+ DASH +:+ " battery " +:+ Py.str_of_nat b +:+ "%"
         | None => ""
         end
     +:+ match Py.or_none (Py.or_empty (eqlog_condition_notes row)) with
         | Some n => " " +:+ DASH +:+ " " +:+ n
         | None => ""
         end)
    0 c.

Definition draw_tracker (t : tracker_row) (c : pen) : pen :=
  draw_wrapped
    (team_label t +:+ " " +:+ DASH +:+ " " +:+ tracker_location t
     +:+ " " +:+ DASH +:+ " last radio: " +:+ or_dash (last_radio_call t)
     +:+ " " +:+ DASH +:+ " needs support: "
     +:+ (if needs_support t then "YES" else "no"))
    0 c.

(** The drawing part of [generate_pdf_report]; [logo] is the logo path
    when one was given, it exists and the canvas could load it. *)
Definition render_report (sid : string) (session : session_row)
    (logs : list log_row) (events : list event_row)
    (evidence : list evidence_row) (equip : list equipment_log_row)
    (tracker : list tracker_row) (logo : option Path) : list canvas_op :=
  let y := (height - inches 75)%Z in
  let c := mkPen y [] in
  let c :=
    match logo with
    | Some lp =>
        emit (DrawImage (path_str lp) x_margin (y - inches 60)
                        (inches 200) (inches 60)) c
    | None => c
    end in
  let c := emit (SetFont "Helvetica-Bold" 16) c in
  let c := emit (DrawString x_margin (pen_y c - inches 85)
                            "Investigation Report Draft") c in
  let c := move (inches 120) c in
  let c := emit (SetFont "Helvetica" 11) c in
  let c := move (inches 20)
             (emit (DrawString x_margin (pen_y c) ("Session ID: " +:+ sid)) c) in
  let c := move (inches 20)
             (emit (DrawString x_margin (pen_y c)
                      ("Started: " +:+ started_at session)) c) in
  let c := move (inches 20)
             (emit (DrawString x_margin (pen_y c)
                      ("Ended: " +:+ or_dash (ended_at session))) c) in
  let c := move (inches 35)
             (emit (DrawString x_margin (pen_y c)
                      ("Location: " +:+ or_dash (location session))) c) in
  let c := section_title "Timeline (Events + Notes)" c in
  let c := draw_all draw_timeline_entry (report_timeline events logs) c in
  let c := section_title "Evidence List" c in
  let c :=
    match evidence with
    | [] => draw_wrapped "No evidence logged." 0 c
    | _ => draw_all draw_evidence evidence c
    end in
  let c := section_title "Equipment Usage" c in
  let c :=
    match equip with
    | [] => draw_wrapped "No equipment activity logged." 0 c
    | _ => draw_all draw_equipment equip c
    end in
  let c := section_title "Investigator Tracker" c in
  let c :=
    match tracker with
    | [] => draw_wrapped "No tracker entries." 0 c
    | _ => draw_all draw_tracker tracker c
    end in
  pen_ops (emit Save c).

Definition generate_pdf_report (sid : string) (logo_path : option Path)
    : M Path :=
  do session <- fetch (Sql.select_session sid);
  match session with
  | None => raise (ValueError "Session not found.")
  | Some session =>
      do logs <- fetch (Sql.logs_of sid);
      do events <- fetch (Sql.events_of sid);
      do evidence <- fetch (Sql.evidence_of sid);
      do equip <- fetch (Sql.equipment_log_of sid);
      do tracker <- fetch (Sql.tracker_of sid);
      do session_folder <- get_session_folder sid;
      let report_path :=
        session_folder // "reports" // ("Report_" +:+ sid +:+ ".pdf") in
      do fs <- get_fs;
      let logo :=
        match logo_path with
        | Some lp =>
            if fs_exists fs lp && fs_image_ok fs lp then Some lp else None
        | None => None
        end in
      do_ update_fs
            (fs_save_canvas report_path
               (render_report sid session logs events evidence equip tracker
                              logo));
      ret report_path
  end.

(** ** Folder scan and watch *)

Definition scan_folder (recursive : bool) (ignore_set : gset string)
    (fs : FS) (p : Path) : list Path :=
  if negb (fs_exists fs p) || negb (fs_is_dir fs p) then []
  else
    let all_files :=
      List.filter (fs_is_file fs)
                  (if recursive then fs_rglob fs p else fs_glob fs p) in
    if decide (ignore_set = ∅) then all_files
    else List.filter
           (fun x => bool_decide (Py.lower (suffix (path_name x)) ∉ ignore_set))
           all_files.

(** The key under which the watch remembers a file: [str(f.resolve())]. *)
Definition watch_key (fs : FS) (f : Path) : string :=
  path_str (fs_resolve fs f).

(** The loop of the watch over the scanned files. *)
Fixpoint watch_new_files (fs : FS) (scanned : list Path) (seen : gset string)
    (new_files : list Path) : list Path * gset string :=
  match scanned with
  | [] => (new_files, seen)
  | f :: rest =>
      let key := watch_key fs f in
      if decide (key ∈ seen) then watch_new_files fs rest seen new_files
      else watch_new_files fs rest ({[key]} ∪ seen) (new_files ++ [f])
  end.

(** What the user has set on the evidence tab. *)
Record intake_form : Type := mkForm {
  form_ev_type_choice : string;
  form_captured_by_val : option string;
  form_device : string;
  form_room : string;
  form_desc : string;
  form_linked_event_id : option nat;
  form_recursive : bool;
  form_ignore_set : gset string;
  form_watch_path : Path
}.

(** One tick of the watch, for the enabled watch of a session that passed
    the check at the top of the dashboard: the new value of [watch_seen]. *)
Definition watch_tick (sid : string) (form : intake_form)
    (clock : nat -> datetime) (watch_seen : list string)
    : M (list string) :=
  do fs <- get_fs;
  let seen : gset string := list_to_set watch_seen in
  let (new_files, seen) :=
    watch_new_files fs
      (scan_folder (form_recursive form) (form_ignore_set form) fs
                   (form_watch_path form))
      seen [] in
  do_ match new_files with
      | [] => ret 0
      | _ =>
          ingest_paths sid new_files (form_ev_type_choice form)
            (form_captured_by_val form) (Some (form_device form))
            (Some (form_room form)) (Some (form_desc form))
            (form_linked_event_id form) clock
      end;
  ret (elements seen).

(** The dashboard up to the watch: without an active session, or when its
    row is gone, the script is rerun and the watch is not reached; an
    exception ends the script before [watch_seen] is written.  (The reads in
    between, for the lists and the selectors of the page, are left out.) *)
Definition screen_dashboard_watch (active_session_id : option string)
    (watch_on : bool) (form : intake_form) (clock : nat -> datetime)
    (watch_seen : list string) (w : World) : list string * World :=
  match active_session_id with
  | None => (watch_seen, w)
  | Some sid =>
      match fetch (Sql.select_session sid) w with
      | (Ok (Some _), w1) =>
          if watch_on then
            match watch_tick sid form clock watch_seen w1 with
            | (Ok seen', w2) => (seen', w2)
            | (Raise _, w2) => (watch_seen, w2)
            end
          else (watch_seen, w1)
      | (_, w1) => (watch_seen, w1)
      end
  end.

(** ** Notions about the world used in the statements *)

(** The file system after [ensure_dirs]. *)
Definition ensured (fs : FS) : FS := fs_mkdir SESSIONS_DIR (fs_mkdir DATA_DIR fs).

(** The data directories are there, as after [init_db]. *)
Definition data_dirs_exist (fs : FS) : Prop :=
  fs_is_dir fs DATA_DIR = true /\ fs_is_dir fs SESSIONS_DIR = true.



(** What the operator can do, and the worlds it leads to from a fresh
    store. *)
Inductive action : Type :=
| CreateSession (now : datetime) (location notes : string)
| EndSession (now : datetime) (sid : string)
| Ingest (sid : string) (file_paths : list Path) (ev_type_choice : string)
         (captured_by_val device room desc : option string)
         (linked_event_id : option nat) (clock : nat -> datetime)
| GenerateReport (sid : string) (logo_path : option Path)
| WatchTick (active_session_id : option string) (form : intake_form)
            (clock : nat -> datetime) (watch_seen : list string).

Definition perform (a : action) (w : World) : World :=
  match a with
  | CreateSession now location notes =>
      snd (create_session now location notes w)
  | EndSession now sid => snd (end_session now sid w)
  | Ingest sid file_paths ev_type_choice captured_by_val device room desc
           linked_event_id clock =>
      snd (ingest_paths sid file_paths ev_type_choice captured_by_val device
                        room desc linked_event_id clock w)
  | GenerateReport sid logo_path => snd (generate_pdf_report sid logo_path w)
  | WatchTick active form clock watch_seen =>
      snd (screen_dashboard_watch active true form clock watch_seen w)
  end.

Definition perform_all (history : list action) (w : World) : World :=
  fold_left (fun w a => perform a w) history w.

Definition booted (fs : FS) : World := snd (init_db (mkWorld empty_db fs)).

(** The tables other than [sessions] are the same in two stores. *)
Definition same_but_sessions (d d' : DB) : Prop :=
  logs d' = logs d /\ events d' = events d /\ evidence d' = evidence d
  /\ equipment d' = equipment d /\ equipment_log d' = equipment_log d
  /\ tracker d' = tracker d.

(** What [end_session] makes of a row. *)
Definition ended (now : datetime) (sid : string) (r : session_row)
    : session_row :=
  if String.eqb (session_id r) sid
  then mkSession (session_id r) (started_at r) (Some (fmt_ts now))
                 (location r) (notes r)
  else r.


End Program.

(** ** A file system in memory, and a fixed-pitch page writer

    The programs above run on any [FileSystem]; this one makes them run on
    concrete inputs. *)

Module MemFS.

Inductive read_mode : Type :=
| Plain        (* reads and copies *)
| TooLarge     (* [read_bytes] raises, a streamed copy works *)
| Unreadable.  (* every read raises *)

Inductive node : Type :=
| Dir
| File (data : list Byte.byte) (mode : read_mode).

Record t : Type := mk {
  nodes : list (Path * node);
  read_only : list Path;
  saved : list (Path * list canvas_op)
}.

Definition lookup (fs : t) (p : Path) : option node :=
  option_map snd (List.find (fun e => bool_decide (fst e = p)) (nodes fs)).

Definition exists_ (fs : t) (p : Path) : bool :=
  match lookup fs p with Some _ => true | None => false end.

Definition is_file (fs : t) (p : Path) : bool :=
  match lookup fs p with Some (File _ _) => true | _ => false end.

Definition is_dir (fs : t) (p : Path) : bool :=
  match lookup fs p with Some Dir => true | _ => false end.

Definition add (p : Path) (n : node) (fs : t) : t :=
  mk ((p, n) :: nodes fs) (read_only fs) (saved fs).

Definition add_dir (fs : t) (p : Path) : t :=
  if is_dir fs p then fs else add p Dir fs.

(** The path and the directories above it, outermost first. *)
Definition prefixes (p : Path) : list Path :=
  map (fun k => firstn k p) (seq 1 (length p)).

Definition mkdir (p : Path) (fs : t) : t :=
  if is_dir fs p then fs else fold_left add_dir (prefixes p) fs.

Definition read_bytes (fs : t) (p : Path) : option (list Byte.byte) :=
  match lookup fs p with
  | Some (File data Plain) => Some data
  | _ => None
  end.

Definition can_write (fs : t) (p : Path) : bool :=
  is_dir fs (removelast p) && negb (is_dir fs p)
  && negb (bool_decide (p ∈ read_only fs)).

Definition write_bytes (p : Path) (data : list Byte.byte) (fs : t)
    : bool * t :=
  if can_write fs p then (true, add p (File data Plain) fs) else (false, fs).

Definition copy2 (src dst : Path) (fs : t) : bool * t :=
  match lookup fs src with
  | Some (File data Plain) | Some (File data TooLarge) =>
      if can_write fs dst then (true, add dst (File data Plain) fs)
      else (false, fs)
  | _ => (false, fs)
  end.

Definition glob (fs : t) (p : Path) : list Path :=
  List.filter (fun q => bool_decide (removelast q = p) && negb (length q =? 0))
              (map fst (nodes fs)).

Definition rglob (fs : t) (p : Path) : list Path :=
  List.filter (fun q => bool_decide (firstn (length p) q = p)
                        && (length p <? length q))
              (map fst (nodes fs)).

Definition save_canvas (p : Path) (ops : list canvas_op) (fs : t) : t :=
  mk ((p, File [] Plain) :: nodes fs) (read_only fs) ((p, ops) :: saved fs).

Lemma mkdir_existing (fs : t) (p : Path) :
  is_dir fs p = true -> mkdir p fs = fs.
Proof. intros Hd. unfold mkdir. now rewrite Hd. Qed.

#[global] Instance file_system : FileSystem t := {|
  fs_exists := exists_;
  fs_is_file := is_file;
  fs_is_dir := is_dir;
  fs_mkdir := mkdir;
  fs_read_bytes := read_bytes;
  fs_write_bytes := write_bytes;
  fs_copy2 := copy2;
  fs_glob := glob;
  fs_rglob := rglob;
  fs_resolve := fun _ p => p;
  fs_image_ok := is_file;
  fs_save_canvas := save_canvas;
  fs_mkdir_existing := mkdir_existing
|}.

(** Every character is half an em wide. *)
#[global] Instance fixed_pitch : PageWriter := {|
  stringWidth := fun text _ size =>
    (50 * Z.of_nat size * Z.of_nat (String.length text))%Z
|}.

(** A file system after [init_db], with two files on a card. *)
Definition card : Path := ["card"].

Definition fs0 : t :=
  mk [ (card // "clip.MP4", File [Byte.x01; Byte.x02] Plain);
       (card // "notes.v##2.txt", File [Byte.x03] TooLarge);
       (card // "locked.wav", File [Byte.x04] Unreadable);
       (card // "sub", Dir);
       (card, Dir);
       (SESSIONS_DIR, Dir); (DATA_DIR, Dir) ]
     [] [].

End MemFS.

(** ** A session to run the program on *)

Module Demo.

Definition now0 : datetime := mkDatetime 2024 3 9 21 43 5.

Definition sid0 : string := "20240309_214305".

Definition row0 : session_row :=
  mkSession sid0 "2024-03-09 21:43:05" None (Some "Old Mill") None.

(** The world after [init_db] and the start of a session. *)
Definition w_init : World := snd (init_db (mkWorld empty_db MemFS.fs0)).

Definition w_session : World :=
  snd (create_session now0 " Old Mill " "" w_init).

Definition files0 : list Path :=
  [MemFS.card // "clip.MP4"; MemFS.card // "missing.txt";
   MemFS.card // "locked.wav"; MemFS.card // "notes.v##2.txt";
   MemFS.card // "sub"].

(** The clock of the next day, one second later at every reading. *)
Definition clock0 (k : nat) : datetime := mkDatetime 2024 3 10 0 0 k.


End Demo.

(** ** Notions used in the statements *)

(** The order of timestamps: strings compared character by character. *)
Definition str_le (a b : string) : Prop := String.leb a b = true.

Definition key_le {A : Type} (key : A -> string) (a b : A) : Prop :=
  str_le (key a) (key b).

Definition key_ge {A : Type} (key : A -> string) (a b : A) : Prop :=
  str_le (key b) (key a).

(** The entries with a given key, in the order of the list. *)
Definition with_key {A : Type} (key : A -> string) (k : string) (l : list A)
    : list A := List.filter (fun a => String.eqb (key a) k) l.

(** The timestamp and the kind of the rows handed to a merge, events
    before notes. *)
Definition event_stamp (e : event_row) : string * string :=
  (event_created_at e, "EVENT").

Definition log_stamp (l : log_row) : string * string :=
  (log_created_at l, log_mode l).

Definition timeline_input (events : list event_row) (logs : list log_row)
    : list (string * string) :=
  map event_stamp events ++ map log_stamp logs.

Definition tied_event : event_row :=
  mkEvent 1 "20240309_214305" "2024-03-09 21:50:00" "Lead" "Loud knock" 2
          ["knock"] (Some "Basement") None.

Definition tied_note : log_row :=
  mkLog 1 "20240309_214305" "2024-03-09 21:50:00" "QUICK" "Lead" []
        "knock heard on the stairs" None.

Definition later_note : log_row :=
  mkLog 2 "20240309_214305" "2024-03-09 21:55:00" "NARRATIVE" "Lead" []
        "team moved upstairs" None.

(** Every character of a string has a property. *)
Fixpoint chars_all (P : ascii -> Prop) (s : string) : Prop :=
  match s with
  | EmptyString => True
  | String c t => P c /\ chars_all P t
  end.

(** The characters a sanitized name is made of. *)
Definition safe_char (c : ascii) : bool :=
  Py.isword c || Ascii.eqb c "-" || Ascii.eqb c ".".

(** No two neighbours in the string are both of the class. *)
Fixpoint no_adjacent (cls : ascii -> bool) (s : string) : bool :=
  match s with
  | String a (String b _ as t) => negb (cls a && cls b) && no_adjacent cls t
  | _ => true
  end.

Fixpoint replace_each (cls : ascii -> bool) (repl : ascii) (s : string)
    : string :=
  match s with
  | EmptyString => EmptyString
  | String c t =>
      String (if cls c then repl else c) (replace_each cls repl t)
  end.

(** The sanitizing as the specification words it: each character outside
    alphanumerics, [-], [.] and space becomes an underscore, runs of
    whitespace become one underscore, and the result is cut to 180
    characters. *)
Definition spec_safe_filename (name : string) : string :=
  let name :=
    replace_each
      (fun c => negb (Py.isalnum c || Ascii.eqb c "-" || Ascii.eqb c "."
                      || Ascii.eqb c " ")) "_" name in
  let name := Py.re_sub_runs Py.isspace "_" name in
  Py.slice_to 180 name.

(** The line that [wrap_words] builds from words that all fit, and whether
    every line it tries on the way has at most forty characters. *)
Fixpoint wrapped_line (words : list string) (line : string) : string :=
  match words with
  | [] => line
  | w :: rest => wrapped_line rest (Py.strip (line +:+ " " +:+ w))
  end.

Fixpoint all_tests_short (words : list string) (line : string) : bool :=
  match words with
  | [] => true
  | w :: rest =>
      let test := Py.strip (line +:+ " " +:+ w) in
      (String.length test <=? 40) && all_tests_short rest test
  end.

(** The texts a canvas was asked to draw, in order. *)
Definition drawn_texts (ops : list canvas_op) : list string :=
  omap (fun o => match o with
                 | DrawString _ _ text => Some text
                 | _ => None
                 end) ops.

(** The extension table as the specification lists it. *)
Definition audio_extensions : list string :=
  [".wav"; ".mp3"; ".m4a"; ".aac"; ".flac"].
Definition video_extensions : list string :=
  [".mp4"; ".mov"; ".mkv"; ".avi"; ".wmv"].
Definition photo_extensions : list string :=
  [".jpg"; ".jpeg"; ".png"; ".heic"; ".webp"].
Definition doc_extensions : list string :=
  [".pdf"; ".txt"; ".doc"; ".docx"].

(** The type the specification gives to an extension in lower case. *)
Definition spec_type_of_extension (ext : string) : string :=
  if bool_decide (ext ∈ audio_extensions) then "AUDIO"
  else if bool_decide (ext ∈ video_extensions) then "VIDEO"
  else if bool_decide (ext ∈ photo_extensions) then "PHOTO"
  else if bool_decide (ext ∈ doc_extensions) then "DOC"
  else "OTHER".

(** The effective type of a file, step 2 of the ingestion. *)
Definition resolve_type (ev_type_choice original_name : string) : string :=
  if String.eqb ev_type_choice "AUTO"
  then detect_type_from_name original_name
  else ev_type_choice.

(** The text of an evidence code. *)
Definition code_text (date_part : string) (counter : nat) (ty : string)
    : string :=
  date_part +:+ "_" +:+ Py.format_0d 4 counter +:+ "_" +:+ ty.

(** What a row recorded by an ingestion holds, for the file it was made
    from: [counter] is the number of the row in its session, [read] the
    number of the reading of the clock. *)
Record recorded_as (sid ev_type_choice date_part : string)
    (evidence_folder : Path) (clock : nat -> datetime) (counter read : nat)
    (p : Path) (r : evidence_row) : Prop := mkRecorded {
  rec_session : evidence_session_id r = sid;
  rec_name : original_name r = path_name p;
  rec_type : evidence_type r = resolve_type ev_type_choice (path_name p);
  rec_code :
    evidence_code r
    = code_text date_part counter (Py.upper (evidence_type r));
  rec_stored_name :
    stored_name r
    = safe_filename (evidence_code r
                     +:+ Py.join "" (suffixes (original_name r)));
  rec_stored_path :
    stored_path r = path_str (evidence_folder // stored_name r);
  rec_created : evidence_created_at r = fmt_ts (clock read)
}.

(** The rows of a batch, in order, each made from one of the files, in the
    order of the files. *)
Inductive recorded_batch (sid ev_type_choice date_part : string)
    (evidence_folder : Path) (clock : nat -> datetime)
    : nat -> nat -> list Path -> list evidence_row -> Prop :=
| batch_done (counter read : nat) :
    recorded_batch sid ev_type_choice date_part evidence_folder clock
                   counter read [] []
| batch_skip (counter read : nat) (p : Path) (files : list Path)
    (rows : list evidence_row) :
    recorded_batch sid ev_type_choice date_part evidence_folder clock
                   counter read files rows ->
    recorded_batch sid ev_type_choice date_part evidence_folder clock
                   counter read (p :: files) rows
| batch_row (counter read : nat) (p : Path) (files : list Path)
    (r : evidence_row) (rows : list evidence_row) :
    recorded_as sid ev_type_choice date_part evidence_folder clock
                counter read p r ->
    recorded_batch sid ev_type_choice date_part evidence_folder clock
                   (S counter) (S read) files rows ->
    recorded_batch sid ev_type_choice date_part evidence_folder clock
                   counter read (p :: files) (r :: rows).

(** The tables other than [evidence] are the same in two stores. *)
Definition same_but_evidence (d d' : DB) : Prop :=
  sessions d' = sessions d /\ logs d' = logs d /\ events d' = events d
  /\ equipment d' = equipment d /\ equipment_log d' = equipment_log d
  /\ tracker d' = tracker d.

(** Whether [format_0d w n] has exactly [w] characters and reads back as
    [n]. *)
Definition reads_back (w n : nat) : bool :=
  let s := Py.format_0d w n in
  (String.length s =? w)
  && match Py.parse_digits s with
     | Some m => m =? n
     | None => false
     end.


(** ** Notions used for the rest of the program *)

(** The evidence rows of a session, in the order they were recorded. *)
Definition evidence_rows_of (sid : string) (d : DB) : list evidence_row :=
  List.filter (fun r => String.eqb (evidence_session_id r) sid) (evidence d).

(** Every evidence row is as the ingestion writes it: its session is in the
    store with a start time that reads back, its code carries the start date
    and the number of the row in its session, and its stored name is the
    sanitized code and extensions. *)
Definition codes_in_sequence (d : DB) : Prop :=
  forall (sid : string) (i : nat) (r : evidence_row),
    evidence_rows_of sid d !! i = Some r ->
    exists (row : session_row) (dt : datetime),
      Sql.select_session sid d = Some row
      /\ strptime (started_at row) = Some dt
      /\ evidence_code r
         = code_text (strftime_Ymd dt) (i + 1) (Py.upper (evidence_type r))
      /\ stored_name r
         = safe_filename (evidence_code r
                          +:+ Py.join "" (suffixes (original_name r))).

(** A path names a regular file. *)
Definition regular_file {FS : Type} {file_system : FileSystem FS} (fs : FS)
    (p : Path) : bool := fs_exists fs p && fs_is_file fs p.


(** The order of two [datetime] objects: the library compares the fields
    from the year down. *)
Definition lex (c1 c2 : comparison) : comparison :=
  match c1 with
  | Eq => c2
  | _ => c1
  end.

Definition datetime_compare (a b : datetime) : comparison :=
  lex (year a ?= year b)
    (lex (month a ?= month b)
       (lex (day a ?= day b)
          (lex (hour a ?= hour b)
             (lex (minute a ?= minute b) (second a ?= second b))))).





(** The tables other than [equipment] are the same in two stores. *)
Definition same_but_equipment (d d' : DB) : Prop :=
  sessions d' = sessions d /\ logs d' = logs d /\ events d' = events d
  /\ evidence d' = evidence d /\ equipment_log d' = equipment_log d
  /\ tracker d' = tracker d.


(** ** Elapsed time of a session *)

(** [datetime.toordinal]: the number of the day, 0001-01-01 being day 1. *)
Definition days_before_year (y : nat) : nat :=
  let y := y - 1 in y * 365 + y / 4 - y / 100 + y / 400.

Definition DAYS_BEFORE_MONTH : list nat :=
  [0; 0; 31; 59; 90; 120; 151; 181; 212; 243; 273; 304; 334].

Definition days_before_month (y m : nat) : nat :=
  nth m DAYS_BEFORE_MONTH 0 + (if (2 <? m) && is_leap y then 1 else 0).

Definition toordinal (dt : datetime) : nat :=
  days_before_year (year dt) + days_before_month (year dt) (month dt)
  + day dt.

Definition seconds_of_day (dt : datetime) : nat :=
  second dt + minute dt * 60 + hour dt * 3600.

(** The seconds from [b] to [a], both without their microseconds. *)
Definition seconds_between (a b : datetime) : Z :=
  (Z.of_nat (toordinal a) - Z.of_nat (toordinal b)) * 86400
  + (Z.of_nat (seconds_of_day a) - Z.of_nat (seconds_of_day b)).

(** [session_elapsed_str], for a start time as [fmt_ts] writes it and a
    span to now of less than 2^34 seconds; [now] and [microsecond] are what
    [now_local()] returns.  The difference of the two moments is a whole
    number of microseconds; [int(delta.total_seconds())] is its quotient by
    a million, rounded towards zero.  The source divides in floating point:
    below 2^34 seconds the gap between neighbouring floating-point numbers
    is at most 2^-19, less than two microseconds, so the quotient is never
    rounded up to the next whole second; a longer span can be, and is
    outside this definition, as are start times in another form than the
    one of [fmt_ts]. *)
Definition session_elapsed_str (now : datetime) (microsecond : nat)
    (started_at_str : string) : result string :=
  match strptime started_at_str with
  | None => Raise (ValueError "time data does not match format")
  | Some started =>
      let delta :=
        (seconds_between now started * 1000000 + Z.of_nat microsecond)%Z in
      let secs := (delta ÷ 1000000)%Z in
      let secs := if (secs <? 0)%Z then 0%Z else secs in
      let h := Z.to_nat (secs / 3600) in
      let m := Z.to_nat ((secs mod 3600) / 60) in
      let s := Z.to_nat (secs mod 60) in
      Ok (Py.format_0d 2 h +:+ ":" +:+ Py.format_0d 2 m +:+ ":"
          +:+ Py.format_0d 2 s)
  end.


(** ** The text of a wrapped paragraph *)

(** A word as [str.split()] gives it: not empty, no whitespace in it. *)
Definition proper_word (w : string) : Prop :=
  w <> "" /\ chars_all (fun c => Py.isspace c = false) w.

Section Wrapping.

Context {page_writer : PageWriter}.

Definition fits (max_width : Z) (text : string) : Prop :=
  (stringWidth text "Helvetica" 10 <= max_width)%Z.

(** The lines [wrap_words] and the end of [draw_wrapped] hand to the canvas,
    without the pen. *)
Fixpoint wrap_lines (max_width : Z) (words : list string) (line : string)
    : list string :=
  match words with
  | [] => if String.eqb line "" then [] else [line]
  | w :: rest =>
      let test := Py.strip (line +:+ " " +:+ w) in
      if (stringWidth test "Helvetica" 10 <=? max_width)%Z
      then wrap_lines max_width rest test
      else line :: wrap_lines max_width rest w
  end.

Definition wrapped_texts (text : string) (indent : Z) : list string :=
  wrap_lines (width - x_margin * 2 - indent) (Py.split_ws text) "".

End Wrapping.

(** A string is drawn between the bottom margin of the body and the top
    margin of the page. *)
Definition in_margins (o : canvas_op) : Prop :=
  match o with
  | DrawString _ y _ => (inches 110 <= y <= height - inches 75)%Z
  | _ => True
  end.


(** The text of a timeline entry, as [draw_timeline_entry] hands it to
    [draw_wrapped]. *)
Definition timeline_line (t : report_entry) : string :=
  let '(ts, kind, text) := t in
  ts +:+ " " +:+ DASH +:+ " " +:+ kind +:+ ": " +:+ text.

(** From one state of the pen to a later one: the pen is not above the top
    margin, and what was added to the canvas is within the margins. *)
Definition within_margins (c c' : pen) : Prop :=
  (pen_y c' <= height - inches 75)%Z
  /\ exists more : list canvas_op,
       pen_ops c' = pen_ops c ++ more /\ Forall in_margins more.


(** The pen is not above the top margin and the canvas holds nothing
    outside the margins. *)
Definition page_ok (c : pen) : Prop :=
  (pen_y c <= height - inches 75)%Z /\ Forall in_margins (pen_ops c).


(** What a later state of the pen has drawn holds what an earlier one had,
    at its head. *)
Definition texts_extend (c c' : pen) : Prop :=
  exists more : list string,
    drawn_texts (pen_ops c') = drawn_texts (pen_ops c) ++ more.


(** ** More of the dashboard *)

Module SqlTracker.

(** [SELECT id FROM tracker WHERE session_id = ? AND team_label = ?], first
    row. *)
Definition select_tracker_id (sid label : string) (d : DB) : option nat :=
  option_map tracker_id
    (List.find (fun r => String.eqb (tracker_session_id r) sid
                         && String.eqb (team_label r) label)
               (tracker d)).

(** The id of the next row of the table: with [AUTOINCREMENT] it is one
    more than the largest id the table ever had, which [sqlite_sequence]
    keeps, here [seq]. *)
Definition next_tracker_id (seq : nat) (d : DB) : nat :=
  S (Nat.max seq (fold_right Nat.max 0 (map tracker_id (tracker d)))).

(** [INSERT INTO tracker(session_id, team_label, location, last_radio_call,
    needs_support)]. *)
Definition insert_tracker (seq : nat) (sid label loc : string)
    (radio : option string) (support : bool) (d : DB) : result DB :=
  Ok (mkDB (sessions d) (logs d) (events d) (evidence d) (equipment d)
           (equipment_log d)
           (tracker d
            ++ [mkTracker (next_tracker_id seq d) sid label loc radio
                          support])).

(** [UPDATE tracker SET location=?, last_radio_call=?, needs_support=?
    WHERE id=?]. *)
Definition update_tracker (loc : string) (radio : option string)
    (support : bool) (id : nat) (d : DB) : result DB :=
  Ok (mkDB (sessions d) (logs d) (events d) (evidence d) (equipment d)
           (equipment_log d)
           (map (fun r =>
                   if tracker_id r =? id
                   then mkTracker (tracker_id r) (tracker_session_id r)
                                  (team_label r) loc radio support
                   else r)
                (tracker d))).

(** [DELETE FROM tracker WHERE id = ?]. *)
Definition delete_tracker (id : nat) (d : DB) : result DB :=
  Ok (mkDB (sessions d) (logs d) (events d) (evidence d) (equipment d)
           (equipment_log d)
           (List.filter (fun r => negb (tracker_id r =? id)) (tracker d))).

End SqlTracker.

Module SqlLog.

(** [INSERT INTO events(session_id, created_at, author, title, severity,
    tags, room, camera_label)]; the id is assigned by the table, from which
    the program deletes no row. *)
Definition insert_event (sid created author title : string) (severity : nat)
    (tags : list string) (room camera : option string) (d : DB) : result DB :=
  Ok (mkDB (sessions d) (logs d)
           (events d
            ++ [mkEvent (Sql.next_id event_id (events d)) sid created author
                        title severity tags room camera])
           (evidence d) (equipment d) (equipment_log d) (tracker d)).

(** [INSERT INTO logs(session_id, created_at, mode, author, tags, text,
    linked_event_id)]. *)
Definition insert_log (sid created mode author : string)
    (tags : list string) (text : string) (link : option nat) (d : DB)
    : result DB :=
  Ok (mkDB (sessions d)
           (logs d
            ++ [mkLog (Sql.next_id log_id (logs d)) sid created mode author
                      tags text link])
           (events d) (evidence d) (equipment d) (equipment_log d)
           (tracker d)).

End SqlLog.

Section Dashboard.

Context {FS : Type} {file_system : FileSystem FS}
        {page_writer : PageWriter}.

Notation "'do' x <- m ; k" := (bind m (fun x => k))
  (at level 10, x name, m at level 100, k at level 200).
Notation "'do_' m ; k" := (bind m (fun _ => k))
  (at level 10, m at level 100, k at level 200).

(** The timeline on the right of the dashboard: the entries it lists. *)
Definition screen_dashboard_timeline (session_id : string)
    : M (list dashboard_entry) :=
  do events <- fetch (Sql.recent_events_of session_id 100);
  do logs <- fetch (Sql.recent_logs_of session_id 200);
  ret (dashboard_shown events logs).

(** The button [Mark Event]: a warning (here [false]) when the title is
    blank, else one row in [events]; [now] is what [now_local()] returns. *)
Definition mark_event (session_id : string) (now : datetime)
    (ev_author ev_title ev_room ev_cam : string) (ev_sev : nat)
    (ev_tags : list string) : M bool :=
  if String.eqb (Py.strip ev_title) "" then ret false
  else
    do_ execute
          (SqlLog.insert_event session_id (fmt_ts now) ev_author
             (Py.strip ev_title) ev_sev ev_tags
             (Py.or_none (Py.strip ev_room)) (Py.or_none (Py.strip ev_cam)));
    ret true.

(** The button [Save Note]; [quick] says that the mode is [Quick Log]. *)
Definition save_note (session_id : string) (now : datetime) (quick : bool)
    (note_author : string) (note_tags : list string) (note_text : string)
    (linked_event_id : option nat) : M bool :=
  if String.eqb note_text "" || String.eqb (Py.strip note_text) ""
  then ret false
  else
    do_ execute
          (SqlLog.insert_log session_id (fmt_ts now)
             (if quick then "QUICK" else "NARRATIVE") note_author note_tags
             (Py.strip note_text) linked_event_id);
    ret true.

(** The button [Save Team Status]: a warning (here [false]) when the label
    or the location is blank, else the row of the team of that label in the
    session is updated, or added when there is none.  [seq] is the entry of
    the table in [sqlite_sequence]; the new value is returned. *)
Definition save_team_status (session_id team_label loc last_radio : string)
    (needs_support : bool) (seq : nat) : M (bool * nat) :=
  if String.eqb (Py.strip team_label) "" || String.eqb (Py.strip loc) ""
  then ret (false, seq)
  else
    do existing <-
      fetch (SqlTracker.select_tracker_id session_id (Py.strip team_label));
    match existing with
    | Some id =>
        do_ execute
              (SqlTracker.update_tracker (Py.strip loc)
                 (Py.or_none (Py.strip last_radio)) needs_support id);
        ret (true, seq)
    | None =>
        fun w =>
          bind
            (execute
               (SqlTracker.insert_tracker seq session_id (Py.strip team_label)
                  (Py.strip loc) (Py.or_none (Py.strip last_radio))
                  needs_support))
            (fun _ => ret (true, SqlTracker.next_tracker_id seq (w_db w))) w
    end.

(** The button [Remove <team>] of a listed row. *)
Definition remove_team (id : nat) : M unit :=
  execute (SqlTracker.delete_tracker id).

(** What is done on the tracker tab, and where it leads. *)
Inductive tracker_action : Type :=
| SaveTeam (session_id team_label loc last_radio : string)
           (needs_support : bool)
| RemoveTeam (id : nat).

Definition tracker_step (a : tracker_action) (st : nat * World)
    : nat * World :=
  match a with
  | SaveTeam session_id team_label loc last_radio needs_support =>
      match save_team_status session_id team_label loc last_radio
                             needs_support (fst st) (snd st) with
      | (Ok (_, seq'), w') => (seq', w')
      | (Raise _, w') => (fst st, w')
      end
  | RemoveTeam id => (fst st, snd (remove_team id (snd st)))
  end.

Definition tracker_run (history : list tracker_action) (st : nat * World)
    : nat * World :=
  fold_left (fun st a => tracker_step a st) history st.

End Dashboard.

(** The events and the notes of a session, in the order of their tables,
    and the entries the dashboard makes of them. *)
Definition session_events (sid : string) (d : DB) : list event_row :=
  List.filter (fun r => String.eqb (event_session_id r) sid) (events d).

Definition session_logs (sid : string) (d : DB) : list log_row :=
  List.filter (fun r => String.eqb (log_session_id r) sid) (logs d).

Definition event_entry (e : event_row) : dashboard_entry :=
  ("EVENT", event_created_at e, inl e).

Definition log_entry (l : log_row) : dashboard_entry :=
  (log_mode l, log_created_at l, inr l).

Definition session_entries (sid : string) (d : DB) : list dashboard_entry :=
  map event_entry (session_events sid d) ++ map log_entry (session_logs sid d).


(** The key of a row of the tracker: the session and the label of the
    team. *)
Definition tracker_key (r : tracker_row) : string * string :=
  (tracker_session_id r, team_label r).

Definition is_team (sid label : string) (r : tracker_row) : bool :=
  String.eqb (tracker_session_id r) sid && String.eqb (team_label r) label.

(** The table of the tracker has one row at most for a team of a session,
    and its ids are distinct and not beyond [seq]. *)
Definition tracker_keyed (seq : nat) (d : DB) : Prop :=
  NoDup (map tracker_key (tracker d))
  /\ NoDup (map tracker_id (tracker d))
  /\ Forall (fun r => tracker_id r <= seq) (tracker d).

(** The tables other than [tracker] are the same in two stores. *)
Definition same_but_tracker (d d' : DB) : Prop :=
  sessions d' = sessions d /\ logs d' = logs d /\ events d' = events d
  /\ evidence d' = evidence d /\ equipment d' = equipment d
  /\ equipment_log d' = equipment_log d.


(** What [SqlTracker.update_tracker] makes of a row. *)
Definition updated_team (loc : string) (radio : option string)
    (support : bool) (id : nat) (r : tracker_row) : tracker_row :=
  if tracker_id r =? id
  then mkTracker (tracker_id r) (tracker_session_id r) (team_label r) loc
                 radio support
  else r.


(** ** The extensions to ignore *)

(** [{e.strip().lower() for e in ignore_ext.split(",") if e.strip()}]. *)
Definition parse_ignore_set (ignore_ext : string) : gset string :=
  list_to_set
    (map (fun e => Py.lower (Py.strip e))
         (List.filter (fun e => negb (String.eqb (Py.strip e) ""))
                      (Py.split_char "," ignore_ext))).

(** What a scan looks through: the entries of the folder, or of the folder
    and all below it, that are regular files. *)
Definition listed_files {FS : Type} {file_system : FileSystem FS}
    (recursive : bool) (fs : FS) (p : Path) : list Path :=
  List.filter (fs_is_file fs)
              (if recursive then fs_rglob fs p else fs_glob fs p).


(** Every event and note of the session was written before a timestamp. *)
Definition all_before (sid ts : string) (d : DB) : Prop :=
  (forall e, In e (session_events sid d) ->
     String.ltb (event_created_at e) ts = true)
  /\ (forall l, In l (session_logs sid d) ->
        String.ltb (log_created_at l) ts = true).

(** The tables other than [events] and [logs] are the same in two
    stores. *)
Definition same_but_timeline (d d' : DB) : Prop :=
  sessions d' = sessions d /\ evidence d' = evidence d
  /\ equipment d' = equipment d /\ equipment_log d' = equipment_log d
  /\ tracker d' = tracker d.


(** The time shown at the head of an entry of the dashboard:
    [fmt_time(datetime.strptime(ts, "%Y-%m-%d %H:%M:%S"))]. *)
Definition entry_time (ts : string) : result string :=
  match strptime ts with
  | Some dt => Ok (fmt_time dt)
  | None => Raise (ValueError "time data does not match format")
  end.


(** Whether the four-digit text of a year is the year written without
    padding, as the library writes it where it does not pad. *)
Definition year_unpadded (y : nat) : bool :=
  String.eqb (Py.format_0d 4 y) (Py.str_of_nat y).

(** * Properties *)

(** ** The order on timestamps *)

Lemma compare_as_OT (a b : string) :
  String.compare a b = OrdersEx.String_as_OT.compare a b.
Proof.
  revert b. induction a as [|c a IH]; intros [|d b]; reflexivity.
Qed.

Lemma compare_refl (a : string) : String.compare a a = Eq.
Proof.
  destruct (String.compare a a) eqn:E; [reflexivity | |].
  - rewrite compare_as_OT in E.
    exfalso. exact (StrictOrder_Irreflexive (R:=OrdersEx.String_as_OT.lt) a E).
  - pose proof (String.compare_antisym a a) as Ha. rewrite E in Ha.
    discriminate Ha.
Qed.

Lemma compare_lt_trans (a b c : string) :
  String.compare a b = Lt -> String.compare b c = Lt ->
  String.compare a c = Lt.
Proof.
  rewrite !compare_as_OT.
  exact (StrictOrder_Transitive (R:=OrdersEx.String_as_OT.lt) a b c).
Qed.

Lemma ltb_false_le (a b : string) : String.ltb a b = false -> str_le b a.
Proof.
  unfold String.ltb, str_le, String.leb.
  rewrite (String.compare_antisym a b).
  now destruct (String.compare b a).
Qed.

Lemma ltb_true_le (a b : string) : String.ltb a b = true -> str_le a b.
Proof.
  unfold String.ltb, str_le, String.leb. now destruct (String.compare a b).
Qed.

Lemma ltb_irrefl (a : string) : String.ltb a a = false.
Proof. unfold String.ltb. now rewrite compare_refl. Qed.

Lemma str_le_refl (a : string) : str_le a a.
Proof. unfold str_le, String.leb. now rewrite compare_refl. Qed.

Lemma str_le_trans (a b c : string) : str_le a b -> str_le b c -> str_le a c.
Proof.
  unfold str_le, String.leb. intros Hab Hbc.
  destruct (String.compare a b) eqn:E1; try discriminate.
  - apply String.compare_eq_iff in E1. now subst.
  - destruct (String.compare b c) eqn:E2; try discriminate.
    + apply String.compare_eq_iff in E2. subst. now rewrite E1.
    + now rewrite (compare_lt_trans a b c E1 E2).
Qed.

Lemma str_le_antisym (a b : string) : str_le a b -> str_le b a -> a = b.
Proof. apply String.leb_antisym. Qed.

(** ** The stable sort *)

Section Sorting.

Context {A : Type} (key : A -> string).

Lemma insert_by_perm (x : A) (l : list A) : insert_by key x l ≡ₚ x :: l.
Proof.
  induction l as [|y t IH]; simpl; [reflexivity|].
  destruct (String.ltb (key y) (key x)); [|reflexivity].
  rewrite IH. apply Permutation_swap.
Qed.

Lemma sort_by_perm (l : list A) : sort_by key l ≡ₚ l.
Proof.
  induction l as [|x t IH]; simpl; [reflexivity|].
  now rewrite insert_by_perm, IH.
Qed.

Lemma insert_by_sorted (x : A) (l : list A) :
  StronglySorted (key_le key) l -> StronglySorted (key_le key) (insert_by key x l).
Proof.
  induction 1 as [|y t Hs IH Hy]; simpl.
  - repeat constructor.
  - destruct (String.ltb (key y) (key x)) eqn:E.
    + constructor; [exact IH|].
      rewrite insert_by_perm. constructor; [|exact Hy].
      now apply ltb_true_le.
    + assert (Hxy : (key_le key) x y) by now apply ltb_false_le.
      constructor; [now constructor|].
      constructor; [exact Hxy|].
      eapply List.Forall_impl; [|exact Hy].
      intros z Hz. exact (str_le_trans _ _ _ Hxy Hz).
Qed.

Lemma sort_by_sorted (l : list A) : StronglySorted (key_le key) (sort_by key l).
Proof.
  induction l as [|x t IH]; simpl; [constructor|].
  now apply insert_by_sorted.
Qed.

Lemma insert_by_with_key (k : string) (x : A) (l : list A) :
  with_key key k (insert_by key x l) = with_key key k (x :: l).
Proof.
  induction l as [|y t IH]; [reflexivity|].
  cbn [insert_by].
  destruct (String.ltb (key y) (key x)) eqn:E; [|reflexivity].
  unfold with_key in *. cbn [List.filter] in *. rewrite IH.
  destruct (String.eqb (key x) k) eqn:Ex; [|reflexivity].
  destruct (String.eqb (key y) k) eqn:Ey; [|reflexivity].
  apply String.eqb_eq in Ex, Ey. rewrite Ex, Ey in E.
  now rewrite ltb_irrefl in E.
Qed.

(** Stability: entries with equal keys keep the order of the input. *)
Lemma sort_by_stable (k : string) (l : list A) :
  with_key key k (sort_by key l) = with_key key k l.
Proof.
  induction l as [|x t IH]; [reflexivity|].
  cbn [sort_by]. rewrite insert_by_with_key.
  unfold with_key in *. cbn [List.filter]. now rewrite IH.
Qed.

Lemma with_key_rev (k : string) (l : list A) :
  with_key key k (rev l) = rev (with_key key k l).
Proof.
  unfold with_key. induction l as [|x t IH]; [reflexivity|].
  cbn [rev List.filter]. rewrite List.filter_app, IH. cbn [List.filter].
  destruct (String.eqb (key x) k); [reflexivity|]. now rewrite app_nil_r.
Qed.

Lemma rev_perm {B : Type} (l : list B) : rev l ≡ₚ l.
Proof. symmetry. apply Permutation_rev. Qed.

Lemma py_sort_perm (reverse : bool) (l : list A) :
  py_sort key reverse l ≡ₚ l.
Proof.
  unfold py_sort. destruct reverse; [|apply sort_by_perm].
  now rewrite rev_perm, sort_by_perm, rev_perm.
Qed.

Lemma py_sort_stable (reverse : bool) (k : string) (l : list A) :
  with_key key k (py_sort key reverse l) = with_key key k l.
Proof.
  unfold py_sort. destruct reverse; [|apply sort_by_stable].
  now rewrite with_key_rev, sort_by_stable, with_key_rev, rev_involutive.
Qed.

Lemma StronglySorted_rev_ge (l : list A) :
  StronglySorted (key_le key) l -> StronglySorted (key_ge key) (rev l).
Proof.
  induction 1 as [|x t Hs IH Hx]; simpl; [constructor|].
  apply StronglySorted_app_2; [| exact IH | repeat constructor].
  intros a b Ha Hb. apply list_elem_of_singleton in Hb. subst b.
  apply list_elem_of_In, in_rev in Ha.
  rewrite List.Forall_forall in Hx. exact (Hx a Ha).
Qed.

Lemma py_sort_ascending (l : list A) :
  StronglySorted (key_le key) (py_sort key false l).
Proof. apply sort_by_sorted. Qed.

Lemma py_sort_descending (l : list A) :
  StronglySorted (key_ge key) (py_sort key true l).
Proof. apply StronglySorted_rev_ge, sort_by_sorted. Qed.

(** With pairwise distinct keys a sorted list is determined by its
    elements. *)
Lemma sorted_unique (l1 l2 : list A) :
  NoDup (map key l1) -> l1 ≡ₚ l2 ->
  StronglySorted (key_le key) l1 -> StronglySorted (key_le key) l2 -> l1 = l2.
Proof.
  revert l2. induction l1 as [|x t1 IH]; intros l2 Hnd Hp H1 H2.
  - now apply Permutation_nil_l in Hp.
  - destruct l2 as [|y t2]; [now apply Permutation_nil_r in Hp|].
    apply StronglySorted_inv in H1 as [H1 Hx].
    apply StronglySorted_inv in H2 as [H2 Hy].
    rewrite List.Forall_forall in Hx, Hy.
    assert (Hk : key x = key y).
    { assert (Hxin : x ∈ y :: t2) by (rewrite <- Hp; left).
      assert (Hyin : y ∈ x :: t1) by (rewrite Hp; left).
      apply elem_of_cons in Hxin as [->|Hxin]; [reflexivity|].
      apply elem_of_cons in Hyin as [->|Hyin]; [reflexivity|].
      apply str_le_antisym.
      - apply Hx. now apply list_elem_of_In.
      - apply Hy. now apply list_elem_of_In. }
    assert (Hxy : x = y).
    { assert (Hyin : y ∈ x :: t1) by (rewrite Hp; left).
      apply elem_of_cons in Hyin as [->|Hyin]; [reflexivity|].
      exfalso. cbn [map] in Hnd. apply NoDup_cons in Hnd as [Hnot _].
      apply Hnot. rewrite Hk. apply list_elem_of_fmap. now exists y. }
    subst y. f_equal. apply IH; [| | exact H1 | exact H2].
    + cbn [map] in Hnd. now apply NoDup_cons in Hnd as [_ Hnd].
    + now apply Permutation_cons_inv in Hp.
Qed.

(** With pairwise distinct keys the descending sort is the ascending one
    read backwards. *)
Lemma py_sort_reverse_distinct (l : list A) :
  NoDup (map key l) -> py_sort key true l = rev (py_sort key false l).
Proof.
  intros Hnd. unfold py_sort. f_equal.
  apply sorted_unique; try apply sort_by_sorted.
  - rewrite sort_by_perm, map_rev. apply NoDup_ListNoDup, NoDup_rev.
    now apply NoDup_ListNoDup.
  - now rewrite !sort_by_perm, rev_perm.
Qed.

End Sorting.

Lemma sort_by_map {A B : Type} (f : A -> B) (key : B -> string)
    (l : list A) :
  map f (sort_by (fun a => key (f a)) l) = sort_by key (map f l).
Proof.
  induction l as [|x t IH]; [reflexivity|].
  cbn [sort_by map]. rewrite <- IH. clear IH.
  induction (sort_by (fun a => key (f a)) t) as [|y u IHu]; [reflexivity|].
  cbn [insert_by map]. destruct (String.ltb (key (f y)) (key (f x)));
    cbn [map]; [now rewrite IHu | reflexivity].
Qed.

Lemma py_sort_map {A B : Type} (f : A -> B) (key : B -> string)
    (reverse : bool) (l : list A) :
  map f (py_sort (fun a => key (f a)) reverse l) = py_sort key reverse (map f l).
Proof.
  unfold py_sort. destruct reverse; [|apply sort_by_map].
  now rewrite map_rev, sort_by_map, map_rev.
Qed.


(** ** Timeline merge *)

Lemma report_stamps (events : list event_row) (logs : list log_row) :
  map report_stamp (report_timeline events logs)
  = py_sort fst false (timeline_input events logs).
Proof.
  unfold report_timeline.
  rewrite (py_sort_map report_stamp fst false).
  now rewrite map_app, !map_map.
Qed.

Lemma dashboard_stamps (events : list event_row) (logs : list log_row) :
  map dashboard_stamp (dashboard_timeline events logs)
  = py_sort fst true (timeline_input events logs).
Proof.
  unfold dashboard_timeline.
  rewrite (py_sort_map dashboard_stamp fst true).
  now rewrite map_app, !map_map.
Qed.

(** C2, as the code has it.  Both merges sort by the timestamp string and
    are stable: the ascending merge of the report and the descending merge
    of the dashboard each keep entries with equal timestamps in input order,
    events before notes.  This holds of the entries themselves, with the
    rows and texts they carry, and so of their timestamps and kinds: the
    entries of one timestamp are, in both merges, the events of that
    timestamp in the order of the list of events, followed by the notes of
    that timestamp in the order of the list of notes.  The descending merge
    is the reverse of the ascending one when no two entries share a
    timestamp. *)
Theorem timeline_merge_order (events : list event_row) (logs : list log_row) :
  let input := timeline_input events logs in
  let asc := map report_stamp (report_timeline events logs) in
  let desc := map dashboard_stamp (dashboard_timeline events logs) in
  let report_ts := fun t : report_entry => fst (fst t) in
  let dashboard_ts := fun t : dashboard_entry => snd (fst t) in
  (asc ≡ₚ input /\ StronglySorted (key_le fst) asc
   /\ forall ts,
        with_key fst ts asc
        = with_key fst ts (map event_stamp events)
          ++ with_key fst ts (map log_stamp logs))
  /\ (desc ≡ₚ input /\ StronglySorted (key_ge fst) desc
      /\ forall ts,
           with_key fst ts desc
           = with_key fst ts (map event_stamp events)
             ++ with_key fst ts (map log_stamp logs))
  /\ (NoDup (map fst input) -> desc = rev asc)
  /\ (report_timeline events logs
      ≡ₚ map report_event_entry events ++ map report_log_entry logs
      /\ StronglySorted (key_le report_ts) (report_timeline events logs)
      /\ forall ts,
           with_key report_ts ts (report_timeline events logs)
           = map report_event_entry
                 (with_key event_created_at ts events)
             ++ map report_log_entry (with_key log_created_at ts logs))
  /\ (dashboard_timeline events logs
      ≡ₚ map event_entry events ++ map log_entry logs
      /\ StronglySorted (key_ge dashboard_ts)
                        (dashboard_timeline events logs)
      /\ forall ts,
           with_key dashboard_ts ts (dashboard_timeline events logs)
           = map event_entry (with_key event_created_at ts events)
             ++ map log_entry (with_key log_created_at ts logs)).
Proof.
  cbv zeta. rewrite report_stamps, dashboard_stamps.
  assert (Htied : forall ts,
             with_key fst ts (timeline_input events logs)
             = with_key fst ts (map event_stamp events)
               ++ with_key fst ts (map log_stamp logs)).
  { intros ts. apply List.filter_app. }
  assert (Hmap : forall (A B : Type) (f : A -> B) (kb : B -> string)
                        (ka : A -> string) (ts : string) (l : list A),
             (forall a, kb (f a) = ka a) ->
             with_key kb ts (map f l) = map f (with_key ka ts l)).
  { intros A B f kb ka ts l Hk. unfold with_key. rewrite filter_map_swap.
    f_equal. apply List.filter_ext. intros a. now rewrite Hk. }
  refine (conj _ (conj _ (conj _ (conj _ _)))).
  - refine (conj _ (conj _ _)).
    + apply py_sort_perm.
    + apply py_sort_ascending.
    + intros ts. rewrite <- Htied. apply py_sort_stable.
  - refine (conj _ (conj _ _)).
    + apply py_sort_perm.
    + apply py_sort_descending.
    + intros ts. rewrite <- Htied. apply py_sort_stable.
  - apply py_sort_reverse_distinct.
  - refine (conj _ (conj _ _)).
    + apply py_sort_perm.
    + apply py_sort_ascending.
    + intros ts. unfold report_timeline. rewrite py_sort_stable.
      unfold with_key at 1. rewrite List.filter_app.
      f_equal; apply Hmap; reflexivity.
  - refine (conj _ (conj _ _)).
    + apply py_sort_perm.
    + apply py_sort_descending.
    + intros ts. unfold dashboard_timeline. rewrite py_sort_stable.
      unfold with_key at 1. rewrite List.filter_app.
      f_equal; apply Hmap; reflexivity.
Qed.

Lemma timeline_merge_order_witness :
  map dashboard_stamp (dashboard_timeline [tied_event] [later_note])
  = rev (map report_stamp (report_timeline [tied_event] [later_note])).
Proof.
  apply (timeline_merge_order [tied_event] [later_note]).
  apply (bool_decide_unpack _). vm_compute. reflexivity.
Defined.

(** C2 as stated fails: an event and a note with the same timestamp come
    out in the same order from both merges, so the descending merge is not
    the ascending one reversed. *)
Lemma timeline_descending_not_reverse :
  map dashboard_stamp (dashboard_timeline [tied_event] [tied_note])
  <> rev (map report_stamp (report_timeline [tied_event] [tied_note])).
Proof. vm_compute. discriminate. Qed.

(** ** Formatting and reading numbers and timestamps *)

Lemma reads_back_4_table : forallb (reads_back 4) (seq 0 (S MAXYEAR)) = true.
Proof. vm_compute. reflexivity. Qed.

Lemma reads_back_2_table : forallb (reads_back 2) (seq 0 100) = true.
Proof. vm_compute. reflexivity. Qed.

Lemma format_4_shape (n : nat) :
  n <= MAXYEAR ->
  exists a b c d : ascii,
    Py.format_0d 4 n = String a (String b (String c (String d "")))
    /\ Py.parse_digits (String a (String b (String c (String d "")))) = Some n.
Proof.
  intros Hn.
  pose proof (proj1 (forallb_forall _ _) reads_back_4_table n) as Hr.
  assert (Hin : In n (seq 0 (S MAXYEAR))) by (apply in_seq; lia).
  specialize (Hr Hin). unfold reads_back in Hr.
  apply andb_prop in Hr as [Hlen Hp]. apply Nat.eqb_eq in Hlen.
  destruct (Py.format_0d 4 n) as [|a [|b [|c [|d [|e r]]]]];
    try discriminate Hlen.
  exists a, b, c, d. split; [reflexivity|].
  destruct (Py.parse_digits _) as [m|]; [|discriminate Hp].
  apply Nat.eqb_eq in Hp. now subst.
Qed.

Lemma format_2_shape (n : nat) :
  n < 100 ->
  exists a b : ascii,
    Py.format_0d 2 n = String a (String b "")
    /\ Py.parse_digits (String a (String b "")) = Some n.
Proof.
  intros Hn.
  pose proof (proj1 (forallb_forall _ _) reads_back_2_table n) as Hr.
  assert (Hin : In n (seq 0 100)) by (apply in_seq; lia).
  specialize (Hr Hin). unfold reads_back in Hr.
  apply andb_prop in Hr as [Hlen Hp]. apply Nat.eqb_eq in Hlen.
  destruct (Py.format_0d 2 n) as [|a [|b [|e r]]]; try discriminate Hlen.
  exists a, b. split; [reflexivity|].
  destruct (Py.parse_digits _) as [m|]; [|discriminate Hp].
  apply Nat.eqb_eq in Hp. now subst.
Qed.

Lemma days_in_month_le (y m : nat) : days_in_month y m <= 31.
Proof.
  unfold days_in_month.
  do 12 (destruct m as [|m]; [try destruct (is_leap y); lia|]). lia.
Qed.

Lemma valid_datetime_bounds (dt : datetime) :
  valid_datetime dt = true ->
  year dt <= MAXYEAR /\ month dt < 100 /\ day dt < 100
  /\ hour dt < 100 /\ minute dt < 100 /\ second dt < 100.
Proof.
  unfold valid_datetime. intros Hv.
  repeat (apply andb_prop in Hv as [Hv ?]).
  pose proof (days_in_month_le (year dt) (month dt)).
  repeat match goal with
         | Hb : (_ <=? _) = true |- _ => apply Nat.leb_le in Hb
         | Hb : (_ <? _) = true |- _ => apply Nat.ltb_lt in Hb
         end.
  lia.
Qed.

(** Reading back what [fmt_ts] wrote gives the same date and time. *)
Lemma strptime_fmt_ts (dt : datetime) :
  valid_datetime dt = true -> strptime (fmt_ts dt) = Some dt.
Proof.
  intros Hv.
  destruct (valid_datetime_bounds dt Hv) as (Hy & Hmo & Hd & Hh & Hmi & Hs).
  destruct (format_4_shape _ Hy) as (y1 & y2 & y3 & y4 & Ey & Py).
  destruct (format_2_shape _ Hmo) as (m1 & m2 & Emo & Pmo).
  destruct (format_2_shape _ Hd) as (d1 & d2 & Ed & Pd).
  destruct (format_2_shape _ Hh) as (h1 & h2 & Eh & Ph).
  destruct (format_2_shape _ Hmi) as (i1 & i2 & Emi & Pmi).
  destruct (format_2_shape _ Hs) as (s1 & s2 & Es & Ps).
  unfold fmt_ts, strptime. rewrite Ey, Emo, Ed, Eh, Emi, Es.
  clear Ey Emo Ed Eh Emi Es. revert Py Pmo Pd Ph Pmi Ps.
  generalize Py.parse_digits as parse. intros parse Py Pmo Pd Ph Pmi Ps.
  unfold char_at. simpl.
  rewrite Py, Pmo, Pd, Ph, Pmi, Ps.
  destruct dt as [y mo d h mi se]. cbn [year month day hour minute second] in *.
  now rewrite Hv.
Qed.

(** ** Sanitized file names *)

Lemma chars_all_impl (P Q : ascii -> Prop) (s : string) :
  (forall c, P c -> Q c) -> chars_all P s -> chars_all Q s.
Proof.
  intros HPQ. induction s as [|c t IH]; [exact id|].
  intros [Hc Ht]. split; [now apply HPQ | now apply IH].
Qed.

Lemma chars_all_append (P : ascii -> Prop) (s1 s2 : string) :
  chars_all P (s1 +:+ s2) <-> chars_all P s1 /\ chars_all P s2.
Proof.
  induction s1 as [|c t IH]; simpl; [tauto|].
  rewrite IH. tauto.
Qed.

Lemma chars_all_lstrip (P : ascii -> Prop) (p : ascii -> bool) (s : string) :
  chars_all P s -> chars_all P (Py.lstrip_by p s).
Proof.
  induction s as [|c t IH]; [exact id|]. intros [Hc Ht].
  cbn [Py.lstrip_by]. destruct (p c); [now apply IH | now split].
Qed.

Lemma chars_all_rstrip (P : ascii -> Prop) (p : ascii -> bool) (s : string) :
  chars_all P s -> chars_all P (Py.rstrip_by p s).
Proof.
  induction s as [|c t IH]; [exact id|]. intros [Hc Ht].
  cbn [Py.rstrip_by]. specialize (IH Ht).
  destruct (Py.rstrip_by p t); [destruct (p c)|]; cbn in *; tauto.
Qed.

Lemma chars_all_substring (P : ascii -> Prop) (s : string) :
  forall i n : nat, chars_all P s -> chars_all P (String.substring i n s).
Proof.
  induction s as [|c t IH]; intros i n Hs.
  - destruct i, n; exact I.
  - destruct Hs as [Hc Ht]. destruct i as [|i].
    + destruct n as [|n]; [exact I|]. cbn [String.substring].
      split; [exact Hc | now apply IH].
    + cbn [String.substring]. now apply IH.
Qed.

Lemma substring_length_le (s : string) :
  forall n : nat, String.length (String.substring 0 n s) <= n.
Proof.
  induction s as [|c t IH]; intros [|n]; cbn; try lia.
  specialize (IH n). lia.
Qed.

Lemma substring_whole (s : string) :
  forall n : nat, String.length s <= n -> String.substring 0 n s = s.
Proof.
  induction s as [|c t IH]; intros [|n] Hn; cbn in *; try reflexivity; try lia.
  f_equal. apply IH. lia.
Qed.

(** After [re.sub(cls+, repl, s)] no character of the class is left, but
    for those of [repl]. *)
Lemma chars_all_sub_runs (P Q : ascii -> Prop) (cls : ascii -> bool)
    (repl : string) (s : string) :
  (forall c, P c -> cls c = false -> Q c) ->
  chars_all Q repl -> chars_all P s ->
  forall in_run : bool, chars_all Q (Py.sub_runs_from cls repl in_run s).
Proof.
  intros HPQ Hrepl. induction s as [|c t IH]; intros Hs in_run; [exact I|].
  destruct Hs as [Hc Ht]. cbn [Py.sub_runs_from].
  destruct (cls c) eqn:Ec.
  - destruct in_run; [now apply IH|].
    apply chars_all_append. split; [exact Hrepl | now apply IH].
  - split; [now apply HPQ | now apply IH].
Qed.

(** Where no character is of the class, nothing is replaced. *)
Lemma sub_runs_none (cls : ascii -> bool) (repl : string) (s : string) :
  chars_all (fun c => cls c = false) s ->
  forall in_run : bool, Py.sub_runs_from cls repl in_run s = s.
Proof.
  induction s as [|c t IH]; intros Hs in_run; [reflexivity|].
  destruct Hs as [Hc Ht]. cbn [Py.sub_runs_from]. rewrite Hc.
  f_equal. now apply IH.
Qed.

(** Where no two neighbours are of the class, every run is one character
    long and the replacement goes character by character. *)
Lemma sub_runs_no_adjacent (cls : ascii -> bool) (repl : ascii) (s : string) :
  no_adjacent cls s = true ->
  Py.sub_runs_from cls (String repl "") false s = replace_each cls repl s
  /\ (match s with
      | String c _ => cls c = false
      | EmptyString => True
      end ->
      Py.sub_runs_from cls (String repl "") true s = replace_each cls repl s).
Proof.
  induction s as [|c t IH]; intros Hna; [split; reflexivity|].
  assert (Ht : no_adjacent cls t = true).
  { cbn [no_adjacent] in Hna. destruct t; [reflexivity|].
    now apply andb_prop in Hna as [_ Hna]. }
  destruct (IH Ht) as [IHf IHt]. cbn [Py.sub_runs_from replace_each].
  destruct (cls c) eqn:Ec.
  - split; [|discriminate]. cbn [String.append]. f_equal. apply IHt.
    destruct t as [|d u]; [exact I|]. cbn [no_adjacent] in Hna.
    apply andb_prop in Hna as [Hna _]. rewrite Ec in Hna.
    now destruct (cls d).
  - split; [now rewrite IHf | intros _; now rewrite IHf].
Qed.

Lemma lstrip_none (p : ascii -> bool) (s : string) :
  chars_all (fun c => p c = false) s -> Py.lstrip_by p s = s.
Proof. destruct s as [|c t]; [reflexivity|]. intros [Hc _]. cbn. now rewrite Hc. Qed.

Lemma rstrip_none (p : ascii -> bool) (s : string) :
  chars_all (fun c => p c = false) s -> Py.rstrip_by p s = s.
Proof.
  induction s as [|c t IH]; [reflexivity|]. intros [Hc Ht].
  cbn [Py.rstrip_by]. rewrite (IH Ht), Hc. now destruct t.
Qed.

Lemma allowed_not_space_safe (c : ascii) :
  allowed_in_filename c = true -> Py.isspace c = false -> safe_char c = true.
Proof.
  unfold allowed_in_filename, safe_char. intros Ha Hs.
  destruct (Ascii.eqb c " ") eqn:E.
  - apply Ascii.eqb_eq in E. subst c. discriminate Hs.
  - now rewrite orb_false_r in Ha.
Qed.

Lemma safe_char_facts (c : ascii) :
  safe_char c = true ->
  allowed_in_filename c = true /\ Py.isspace c = false
  /\ c <> " "%char /\ c <> "#"%char.
Proof.
  intros Hs. repeat split.
  - unfold allowed_in_filename. unfold safe_char in Hs. now rewrite Hs.
  - destruct c as [[] [] [] [] [] [] [] []]; try reflexivity; discriminate Hs.
  - intros ->. discriminate Hs.
  - intros ->. discriminate Hs.
Qed.

(** What [safe_filename] returns is made of word characters, [-] and [.],
    and has at most 180 characters. *)
Lemma safe_filename_chars (name : string) :
  chars_all (fun c => safe_char c = true) (safe_filename name).
Proof.
  unfold safe_filename.
  set (s1 := Py.strip name).
  set (s2 := Py.re_sub_runs _ "_" s1).
  set (s3 := Py.re_sub_runs Py.isspace "_" s2).
  assert (H2 : chars_all (fun c => allowed_in_filename c = true) s2).
  { apply (chars_all_sub_runs (fun _ => True)).
    - intros c _ Hc. now apply negb_false_iff in Hc.
    - split; [reflexivity | exact I].
    - clear. induction s1; cbn; auto. }
  assert (H3 : chars_all (fun c => safe_char c = true) s3).
  { apply (chars_all_sub_runs (fun c => allowed_in_filename c = true)).
    - exact allowed_not_space_safe.
    - split; [reflexivity | exact I].
    - exact H2. }
  destruct (180 <? String.length s3); [|exact H3].
  now apply chars_all_substring.
Qed.

Lemma safe_filename_length (name : string) :
  String.length (safe_filename name) <= 180.
Proof.
  unfold safe_filename.
  destruct (180 <? String.length _) eqn:E.
  - apply substring_length_le.
  - apply Nat.ltb_ge in E. exact E.
Qed.

(** A name that is already made of safe characters, and is not too long,
    is kept as it is. *)
Lemma safe_filename_id (name : string) :
  chars_all (fun c => safe_char c = true) name ->
  String.length name <= 180 -> safe_filename name = name.
Proof.
  intros Hs Hlen. unfold safe_filename, Py.strip, Py.re_sub_runs.
  assert (Hsp : chars_all (fun c => Py.isspace c = false) name).
  { eapply chars_all_impl; [|exact Hs]. intros c Hc. now apply safe_char_facts. }
  assert (Hal : chars_all (fun c => negb (allowed_in_filename c) = false) name).
  { eapply chars_all_impl; [|exact Hs]. intros c Hc.
    apply negb_false_iff. now apply safe_char_facts. }
  rewrite (lstrip_none _ _ Hsp), (rstrip_none _ _ Hsp).
  rewrite (sub_runs_none _ _ _ Hal), (sub_runs_none _ _ _ Hsp).
  apply Nat.ltb_ge in Hlen. now rewrite Hlen.
Qed.

Lemma replace_each_ext (f g : ascii -> bool) (repl : ascii) (s : string) :
  (forall c, (if f c then repl else c) = (if g c then repl else c)) ->
  replace_each f repl s = replace_each g repl s.
Proof.
  intros Hfg. induction s as [|c t IH]; [reflexivity|].
  cbn [replace_each]. now rewrite Hfg, IH.
Qed.

(** Where the name has no whitespace at its ends and no two neighbouring
    characters to replace, the sanitizing is the one of the
    specification. *)
Lemma safe_filename_char_by_char (name : string) :
  Py.strip name = name ->
  no_adjacent (fun c => negb (allowed_in_filename c)) name = true ->
  safe_filename name = spec_safe_filename name.
Proof.
  intros Hstrip Hna. unfold safe_filename, spec_safe_filename.
  rewrite Hstrip.
  assert (Hrun :
    Py.re_sub_runs (fun c => negb (allowed_in_filename c)) "_" name
    = replace_each
        (fun c => negb (Py.isalnum c || Ascii.eqb c "-" || Ascii.eqb c "."
                        || Ascii.eqb c " ")) "_" name).
  { unfold Py.re_sub_runs.
    rewrite (proj1 (sub_runs_no_adjacent _ "_" name Hna)).
    apply replace_each_ext. intros c. unfold allowed_in_filename, Py.isword.
    destruct (Ascii.eqb c "_") eqn:E.
    - apply Ascii.eqb_eq in E. now subst c.
    - now rewrite orb_false_r. }
  rewrite Hrun.
  destruct (180 <? String.length _) eqn:E; [reflexivity|].
  apply Nat.ltb_ge in E. unfold Py.slice_to. now rewrite substring_whole.
Qed.

(** ** Type detection *)

Lemma lower_char_dot (c : ascii) :
  Ascii.eqb (Py.lower_char c) "." = Ascii.eqb c ".".
Proof. destruct c as [[] [] [] [] [] [] [] []]; reflexivity. Qed.

Lemma lower_char_idem (c : ascii) :
  Py.lower_char (Py.lower_char c) = Py.lower_char c.
Proof. destruct c as [[] [] [] [] [] [] [] []]; reflexivity. Qed.

Lemma lower_idem (s : string) : Py.lower (Py.lower s) = Py.lower s.
Proof.
  induction s as [|c t IH]; [reflexivity|].
  cbn [Py.lower]. now rewrite lower_char_idem, IH.
Qed.

Lemma lower_length (s : string) : String.length (Py.lower s) = String.length s.
Proof. induction s as [|c t IH]; [reflexivity|]. cbn. now rewrite IH. Qed.

Lemma lower_rfind_dot (s : string) : Py.rfind "." (Py.lower s) = Py.rfind "." s.
Proof.
  induction s as [|c t IH]; [reflexivity|].
  cbn [Py.lower Py.rfind]. now rewrite IH, lower_char_dot.
Qed.

Lemma lower_substring (s : string) :
  forall i n : nat,
    String.substring i n (Py.lower s) = Py.lower (String.substring i n s).
Proof.
  induction s as [|c t IH]; intros [|i] [|n]; cbn; try reflexivity.
  - now rewrite IH.
  - now rewrite IH.
  - now rewrite IH.
Qed.

(** The suffix is found at the same place whatever the case of the
    letters. *)
Lemma suffix_lower (name : string) :
  suffix (Py.lower name) = Py.lower (suffix name).
Proof.
  unfold suffix. rewrite lower_rfind_dot, lower_length.
  destruct (Py.rfind "." name) as [i|]; [|reflexivity].
  destruct ((0 <? i) && (i <? String.length name - 1)); [|reflexivity].
  unfold Py.slice_from. now rewrite lower_length, lower_substring.
Qed.

Lemma detect_type_case (n1 n2 : string) :
  Py.lower n1 = Py.lower n2 ->
  detect_type_from_name n1 = detect_type_from_name n2.
Proof.
  intros Heq. unfold detect_type_from_name.
  now rewrite <- !suffix_lower, Heq.
Qed.

(** The table of the code is the table of the specification. *)
Lemma ext_type_table (ext : string) :
  dict_get EXT_TYPE ext "OTHER" = spec_type_of_extension ext.
Proof.
  unfold spec_type_of_extension, EXT_TYPE. cbn [dict_get].
  repeat match goal with
         | |- context [String.eqb ?k ext] =>
             destruct (String.eqb_spec k ext) as [<-|?]; [reflexivity|]
         end.
  repeat (rewrite bool_decide_eq_false_2;
          [|unfold audio_extensions, video_extensions, photo_extensions,
              doc_extensions;
            rewrite !elem_of_cons, elem_of_nil; intuition congruence]).
  reflexivity.
Qed.

Lemma detect_type_in_types (name : string) :
  In (detect_type_from_name name) ["AUDIO"; "VIDEO"; "PHOTO"; "DOC"; "OTHER"].
Proof.
  unfold detect_type_from_name. rewrite ext_type_table.
  unfold spec_type_of_extension.
  repeat (destruct (bool_decide _); [simpl; tauto|]). simpl; tauto.
Qed.

(** The type names are in capitals already. *)
Lemma upper_resolved_type (choice name : string) :
  In choice EVIDENCE_TYPES ->
  Py.upper (resolve_type choice name) = resolve_type choice name.
Proof.
  intros Hin. unfold resolve_type.
  destruct (String.eqb choice "AUTO") eqn:E.
  - pose proof (detect_type_in_types name) as Hd.
    cbn [In] in Hd.
    destruct Hd as [<-|[<-|[<-|[<-|[<-|[]]]]]]; reflexivity.
  - cbn [In EVIDENCE_TYPES] in Hin.
    destruct Hin as [<-|[<-|[<-|[<-|[<-|[<-|[]]]]]]]; reflexivity.
Qed.

(** ** The program on the world *)

Section ProgramProperties.

Context {FS : Type} {file_system : FileSystem FS}
        {page_writer : PageWriter}.

Lemma ensured_existing (fs : FS) : data_dirs_exist fs -> ensured fs = fs.
Proof.
  intros [Hd Hs]. unfold ensured.
  rewrite (fs_mkdir_existing fs DATA_DIR Hd).
  exact (fs_mkdir_existing fs SESSIONS_DIR Hs).
Qed.

Lemma connect_db_eq (w : World) :
  connect_db w = (Ok tt, mkWorld (w_db w) (ensured (w_fs w))).
Proof. reflexivity. Qed.

Lemma fetch_eq {A : Type} (query : DB -> A) (w : World) :
  fetch query w = (Ok (query (w_db w)), mkWorld (w_db w) (ensured (w_fs w))).
Proof. reflexivity. Qed.

Lemma execute_ok (stmt : DB -> result DB) (w : World) (d : DB) :
  stmt (w_db w) = Ok d ->
  execute stmt w = (Ok tt, mkWorld d (ensured (w_fs w))).
Proof.
  intros Hs. unfold execute, bind. rewrite connect_db_eq.
  unfold con_execute. cbn [w_db w_fs]. now rewrite Hs.
Qed.

Lemma copy_file_db (src dst : Path) (w : World) :
  exists (b : bool) (w' : World),
    copy_file src dst w = (Ok b, w') /\ w_db w' = w_db w.
Proof. unfold copy_file. eexists _, _. split; reflexivity. Qed.

Lemma get_session_folder_eq (sid : string) (w : World) :
  exists w' : World,
    get_session_folder sid w = (Ok (SESSIONS_DIR // sid), w')
    /\ w_db w' = w_db w.
Proof. eexists. split; reflexivity. Qed.

(** The code of the next file of a session. *)
Lemma evidence_code_for_ok (sid ty : string) (w : World) (row : session_row)
    (dt : datetime) :
  Sql.select_session sid (w_db w) = Some row ->
  strptime (started_at row) = Some dt ->
  exists w' : World,
    evidence_code_for sid ty w
    = (Ok (code_text (strftime_Ymd dt) (Sql.count_evidence sid (w_db w) + 1)
                     (Py.upper ty)), w')
    /\ w_db w' = w_db w.
Proof.
  intros Hrow Hdt. unfold evidence_code_for, bind.
  rewrite fetch_eq, Hrow, Hdt. unfold next_evidence_counter, bind.
  rewrite fetch_eq. cbn [w_db]. eexists. split; reflexivity.
Qed.

Lemma count_evidence_insert (sid created code orig stored path ty : string)
    (by_ dev rm desc : option string) (link : option nat) (d d' : DB) :
  Sql.insert_evidence sid created code orig stored path ty by_ dev rm desc
                      link d = Ok d' ->
  Sql.count_evidence sid d' = S (Sql.count_evidence sid d)
  /\ same_but_evidence d d'
  /\ exists r : evidence_row,
       evidence d' = evidence d ++ [r]
       /\ evidence_session_id r = sid /\ evidence_created_at r = created
       /\ evidence_code r = code /\ original_name r = orig
       /\ stored_name r = stored /\ stored_path r = path
       /\ evidence_type r = ty.
Proof.
  unfold Sql.insert_evidence. intros [= <-]. repeat split.
  - unfold Sql.count_evidence. cbn [evidence].
    rewrite List.filter_app, length_app. cbn [List.filter evidence_session_id].
    rewrite String.eqb_refl. cbn [length]. lia.
  - eexists. split; [reflexivity|]. repeat split.
Qed.

Lemma select_session_same (sid : string) (d d' : DB) :
  sessions d' = sessions d ->
  Sql.select_session sid d' = Sql.select_session sid d.
Proof. unfold Sql.select_session. now intros ->. Qed.

Lemma same_but_evidence_refl (d : DB) : same_but_evidence d d.
Proof. repeat split. Qed.

Lemma same_but_evidence_trans (d1 d2 d3 : DB) :
  same_but_evidence d1 d2 -> same_but_evidence d2 d3 ->
  same_but_evidence d1 d3.
Proof.
  unfold same_but_evidence.
  intros (-> & -> & -> & -> & -> & ->) (-> & -> & -> & -> & -> & ->).
  repeat split.
Qed.

Section IngestLoop.

Variables (sid ev_type_choice : string)
          (captured_by_val device room desc : option string)
          (linked_event_id : option nat)
          (clock : nat -> datetime)
          (evidence_folder : Path)
          (row : session_row) (dt : datetime).

Hypothesis started_reads : strptime (started_at row) = Some dt.

(** The loop never raises for a session that is in the store: it returns
    the number of rows it added, and the rows are as [recorded_batch] says. *)
Lemma ingest_loop_batch (file_paths : list Path) :
  forall (ingested : nat) (w : World),
    Sql.select_session sid (w_db w) = Some row ->
    exists (rows : list evidence_row) (w' : World),
      ingest_loop sid ev_type_choice captured_by_val device room desc
                  linked_event_id clock evidence_folder file_paths ingested w
      = (Ok (ingested + length rows), w')
      /\ evidence (w_db w') = evidence (w_db w) ++ rows
      /\ same_but_evidence (w_db w) (w_db w')
      /\ recorded_batch sid ev_type_choice (strftime_Ymd dt) evidence_folder
                        clock (Sql.count_evidence sid (w_db w) + 1) ingested
                        file_paths rows.
Proof.
  induction file_paths as [|p rest IH]; intros ingested w Hsel.
  - exists [], w. cbn. rewrite Nat.add_0_r, app_nil_r.
    refine (conj eq_refl (conj eq_refl (conj _ _)));
      [apply same_but_evidence_refl | constructor].
  - cbn [ingest_loop]. unfold bind at 1. cbn [get_fs].
    destruct (negb (fs_exists (w_fs w) p) || negb (fs_is_file (w_fs w) p)).
    + destruct (IH ingested w Hsel) as (rows & w' & Hrun & Hev & Hsame & Hb).
      exists rows, w'.
      refine (conj Hrun (conj Hev (conj Hsame _))). now constructor.
    + destruct (evidence_code_for_ok sid
                  (resolve_type ev_type_choice (path_name p)) w row dt Hsel
                  started_reads) as (w1 & Hcode & Hdb1).
      unfold bind at 1. fold (resolve_type ev_type_choice (path_name p)).
      rewrite Hcode.
      set (code := code_text _ _ _) in *.
      set (sname := safe_filename _).
      destruct (copy_file_db p (evidence_folder // sname) w1)
        as (copied & w2 & Hcopy & Hdb2).
      unfold bind at 1. rewrite Hcopy.
      destruct copied; cbn [negb].
      * unfold bind at 1.
        destruct (Sql.insert_evidence sid (fmt_ts (clock ingested)) code
                    (path_name p) sname (path_str (evidence_folder // sname))
                    (resolve_type ev_type_choice (path_name p))
                    captured_by_val
                    (Py.or_none (Py.strip (Py.or_empty device)))
                    (Py.or_none (Py.strip (Py.or_empty room)))
                    (Py.or_none (Py.strip (Py.or_empty desc)))
                    linked_event_id (w_db w2)) as [d3|e] eqn:Hins;
          [|discriminate Hins].
        rewrite (execute_ok _ w2 d3 Hins).
        destruct (count_evidence_insert _ _ _ _ _ _ _ _ _ _ _ _ _ _ Hins)
          as (Hcount & Hsame3 & r & Hev3 & Hr).
        rewrite Hdb2, Hdb1 in Hcount, Hsame3, Hev3.
        destruct (IH (ingested + 1) (mkWorld d3 (ensured (w_fs w2))))
          as (rows & w' & Hrun & Hev & Hsame & Hb).
        { cbn [w_db]. rewrite (select_session_same sid (w_db w) d3); [exact Hsel|].
          apply Hsame3. }
        cbn [w_db] in Hev, Hsame, Hb.
        exists (r :: rows), w'. rewrite Hrun.
        refine (conj _ (conj _ (conj _ _))).
        -- do 2 f_equal. cbn [length]. lia.
        -- rewrite Hev, Hev3, <- app_assoc. reflexivity.
        -- exact (same_but_evidence_trans _ _ _ Hsame3 Hsame).
        -- destruct Hr as (Hr1 & Hr2 & Hr3 & Hr4 & Hr5 & Hr6 & Hr7).
           apply batch_row.
           ++ constructor; try assumption.
              ** rewrite Hr3, Hr7. reflexivity.
              ** rewrite Hr5, Hr3, Hr4. reflexivity.
              ** rewrite Hr6, Hr5. reflexivity.
           ++ rewrite Hcount in Hb.
              replace (S (Sql.count_evidence sid (w_db w) + 1))
                with (S (Sql.count_evidence sid (w_db w)) + 1) by lia.
              replace (S ingested) with (ingested + 1) by lia. exact Hb.
      * destruct (IH ingested w2) as (rows & w' & Hrun & Hev & Hsame & Hb).
        { rewrite Hdb2, Hdb1. exact Hsel. }
        rewrite Hdb2, Hdb1 in Hev, Hsame, Hb.
        exists rows, w'.
        refine (conj Hrun (conj Hev (conj Hsame _))). now constructor.
Qed.

End IngestLoop.

Lemma ingest_paths_batch (sid : string) (file_paths : list Path)
    (ev_type_choice : string) (captured_by_val device room desc : option string)
    (linked_event_id : option nat) (clock : nat -> datetime)
    (row : session_row) (dt : datetime) (w : World) :
  strptime (started_at row) = Some dt ->
  Sql.select_session sid (w_db w) = Some row ->
  exists (rows : list evidence_row) (w' : World),
    ingest_paths sid file_paths ev_type_choice captured_by_val device room
                 desc linked_event_id clock w
    = (Ok (length rows), w')
    /\ evidence (w_db w') = evidence (w_db w) ++ rows
    /\ same_but_evidence (w_db w) (w_db w')
    /\ recorded_batch sid ev_type_choice (strftime_Ymd dt)
                      (SESSIONS_DIR // sid // "evidence") clock
                      (Sql.count_evidence sid (w_db w) + 1) 0 file_paths rows.
Proof.
  intros Hdt Hsel. unfold ingest_paths, bind.
  destruct (get_session_folder_eq sid w) as (w0 & Hf & Hdb0). rewrite Hf.
  rewrite <- Hdb0 in Hsel |- *.
  exact (ingest_loop_batch sid ev_type_choice captured_by_val device room desc
           linked_event_id clock _ row dt Hdt file_paths 0 w0 Hsel).
Qed.

Section Batch.

Variables (sid ev_type_choice date_part : string) (evidence_folder : Path)
          (clock : nat -> datetime).

Lemma recorded_batch_lookup (counter read : nat) (files : list Path)
    (rows : list evidence_row) :
  recorded_batch sid ev_type_choice date_part evidence_folder clock
                 counter read files rows ->
  forall (i : nat) (r : evidence_row),
    rows !! i = Some r ->
    exists p : Path,
      p ∈ files
      /\ recorded_as sid ev_type_choice date_part evidence_folder clock
                     (counter + i) (read + i) p r.
Proof.
  induction 1 as [c k | c k p files rows _ IH | c k p files r rows Hr _ IH];
    intros i r' Hi.
  - discriminate Hi.
  - destruct (IH i r' Hi) as (q & Hq & Hrec). exists q.
    split; [now apply list_elem_of_further | exact Hrec].
  - destruct i as [|i].
    + injection Hi as <-. exists p. rewrite !Nat.add_0_r.
      split; [apply list_elem_of_here | exact Hr].
    + destruct (IH i r' Hi) as (q & Hq & Hrec). exists q.
      split; [now apply list_elem_of_further|].
      replace (c + S i) with (S c + i) by lia.
      replace (k + S i) with (S k + i) by lia. exact Hrec.
Qed.

Lemma recorded_batch_member (counter read : nat) (files : list Path)
    (rows : list evidence_row) :
  recorded_batch sid ev_type_choice date_part evidence_folder clock
                 counter read files rows ->
  forall r : evidence_row,
    r ∈ rows ->
    exists (p : Path) (c k : nat),
      p ∈ files
      /\ recorded_as sid ev_type_choice date_part evidence_folder clock
                     c k p r.
Proof.
  intros Hb r Hr. apply list_elem_of_lookup in Hr as [i Hi].
  destruct (recorded_batch_lookup _ _ _ _ Hb i r Hi) as (p & Hp & Hrec).
  now exists p, (counter + i), (read + i).
Qed.


End Batch.

Lemma count_evidence_grows (sid : string) (d d' : DB)
    (rows : list evidence_row) :
  evidence d' = evidence d ++ rows ->
  (forall r, r ∈ rows -> evidence_session_id r = sid) ->
  Sql.count_evidence sid d' = Sql.count_evidence sid d + length rows.
Proof.
  intros Hev Hall. unfold Sql.count_evidence.
  rewrite Hev, List.filter_app, length_app. f_equal.
  clear Hev. induction rows as [|r rows IH]; [reflexivity|].
  cbn [List.filter]. rewrite (Hall r (list_elem_of_here _ _)), String.eqb_refl.
  cbn [length]. f_equal. apply IH. intros r' Hr'.
  apply Hall. now apply list_elem_of_further.
Qed.

Lemma format_4_length (n : nat) :
  n < 100 * 100 -> String.length (Py.format_0d 4 n) = 4.
Proof.
  intros Hn. destruct (format_4_shape n) as (a & b & c & d & -> & _);
    [unfold MAXYEAR; lia | reflexivity].
Qed.

(** C1.  In a batch ingested into a session, the code of every recorded file
    is the start date of the session as YYYYMMDD, the number of the row in
    the session (one more than the rows the session had, whatever their
    types) padded with zeros to four digits, and the type of the file; from
    one recorded file to the next the number grows by one.  The time of
    the ingestion goes to [created_at] only. *)
Theorem evidence_code_sequence (w : World) (sid : string) (row : session_row)
    (start : datetime) (file_paths : list Path) (ev_type_choice : string)
    (captured_by_val device room desc : option string)
    (linked_event_id : option nat) (clock : nat -> datetime) :
  Sql.select_session sid (w_db w) = Some row ->
  started_at row = fmt_ts start ->
  valid_datetime start = true ->
  In ev_type_choice EVIDENCE_TYPES ->
  (forall ty : string,
     fst (evidence_code_for sid ty w)
     = Ok (strftime_Ymd start +:+ "_"
           +:+ Py.format_0d 4 (Sql.count_evidence sid (w_db w) + 1)
           +:+ "_" +:+ Py.upper ty))
  /\ exists (rows : list evidence_row) (w' : World),
       ingest_paths sid file_paths ev_type_choice captured_by_val device room
                    desc linked_event_id clock w
       = (Ok (length rows), w')
       /\ evidence (w_db w') = evidence (w_db w) ++ rows
       /\ Sql.count_evidence sid (w_db w')
          = Sql.count_evidence sid (w_db w) + length rows
       /\ forall (i : nat) (r : evidence_row),
            rows !! i = Some r ->
            let counter := Sql.count_evidence sid (w_db w) + 1 + i in
            evidence_code r
            = strftime_Ymd start +:+ "_" +:+ Py.format_0d 4 counter
              +:+ "_" +:+ evidence_type r
            /\ (exists p : Path,
                  p ∈ file_paths
                  /\ evidence_type r
                     = resolve_type ev_type_choice (path_name p))
            /\ (counter < 100 * 100
                -> String.length (Py.format_0d 4 counter) = 4)
            /\ evidence_created_at r = fmt_ts (clock i).
Proof.
  intros Hsel Hstart Hvalid Hchoice.
  assert (Hdt : strptime (started_at row) = Some start).
  { rewrite Hstart. now apply strptime_fmt_ts. }
  split.
  - intros ty.
    destruct (evidence_code_for_ok sid ty w row start Hsel Hdt) as (w1 & -> & _).
    reflexivity.
  - destruct (ingest_paths_batch sid file_paths ev_type_choice captured_by_val
                device room desc linked_event_id clock row start w Hdt Hsel)
      as (rows & w' & Hrun & Hev & _ & Hb).
    exists rows, w'. refine (conj Hrun (conj Hev (conj _ _))).
    + apply (count_evidence_grows sid _ _ rows Hev). intros r Hr.
      destruct (recorded_batch_member _ _ _ _ _ _ _ _ _ Hb r Hr)
        as (p & c & k & _ & Hrec).
      exact (rec_session _ _ _ _ _ _ _ _ _ Hrec).
    + intros i r Hi counter.
      destruct (recorded_batch_lookup _ _ _ _ _ _ _ _ _ Hb i r Hi)
        as (p & Hp & Hrec).
      pose proof (rec_type _ _ _ _ _ _ _ _ _ Hrec) as Hty.
      refine (conj _ (conj _ (conj _ _))).
      * rewrite (rec_code _ _ _ _ _ _ _ _ _ Hrec). unfold code_text.
        rewrite Hty, (upper_resolved_type _ _ Hchoice). reflexivity.
      * exists p. split; [exact Hp | exact Hty].
      * apply format_4_length.
      * exact (rec_created _ _ _ _ _ _ _ _ _ Hrec).
Qed.

(** *** What the operations leave alone *)

Lemma evidence_code_for_db (sid ty : string) (w : World) :
  w_db (snd (evidence_code_for sid ty w)) = w_db w.
Proof.
  unfold evidence_code_for, bind. rewrite fetch_eq.
  destruct (Sql.select_session sid (w_db w)) as [row|]; [|reflexivity].
  destruct (strptime (started_at row)); reflexivity.
Qed.

Lemma ingest_loop_frame (sid ev_type_choice : string)
    (captured_by_val device room desc : option string)
    (linked_event_id : option nat) (clock : nat -> datetime)
    (evidence_folder : Path) (file_paths : list Path) :
  forall (ingested : nat) (w : World),
    same_but_evidence (w_db w)
      (w_db (snd (ingest_loop sid ev_type_choice captured_by_val device room
                    desc linked_event_id clock evidence_folder file_paths
                    ingested w))).
Proof.
  induction file_paths as [|p rest IH]; intros ingested w.
  - apply same_but_evidence_refl.
  - cbn [ingest_loop]. unfold bind at 1. cbn [get_fs].
    destruct (negb (fs_exists (w_fs w) p) || negb (fs_is_file (w_fs w) p));
      [apply IH|].
    unfold bind at 1.
    pose proof (evidence_code_for_db sid
                  (if String.eqb ev_type_choice "AUTO"
                   then detect_type_from_name (path_name p)
                   else ev_type_choice) w) as Hdb1.
    destruct (evidence_code_for sid _ w) as [[code|e] w1]; cbn [snd] in Hdb1;
      [|cbn [snd]; rewrite Hdb1; apply same_but_evidence_refl].
    unfold bind at 1.
    destruct (copy_file_db p
                (evidence_folder
                 // safe_filename (code +:+ Py.join "" (suffixes (path_name p))))
                w1) as (copied & w2 & Hcopy & Hdb2).
    rewrite Hcopy. rewrite <- Hdb1, <- Hdb2.
    destruct copied; cbn [negb]; [|apply IH].
    unfold bind at 1.
    match goal with
    | |- context [execute ?stmt w2] =>
        destruct (stmt (w_db w2)) as [d3|e] eqn:Hins; [|discriminate Hins];
        rewrite (execute_ok stmt w2 d3 Hins)
    end.
    destruct (count_evidence_insert _ _ _ _ _ _ _ _ _ _ _ _ _ _ Hins)
      as (_ & Hsame3 & _).
    eapply same_but_evidence_trans; [exact Hsame3|].
    exact (IH (ingested + 1) (mkWorld d3 (ensured (w_fs w2)))).
Qed.

Lemma ingest_paths_frame (sid : string) (file_paths : list Path)
    (ev_type_choice : string)
    (captured_by_val device room desc : option string)
    (linked_event_id : option nat) (clock : nat -> datetime) (w : World) :
  same_but_evidence (w_db w)
    (w_db (snd (ingest_paths sid file_paths ev_type_choice captured_by_val
                  device room desc linked_event_id clock w))).
Proof.
  unfold ingest_paths, bind.
  destruct (get_session_folder_eq sid w) as (w0 & Hf & Hdb0). rewrite Hf.
  rewrite <- Hdb0. apply ingest_loop_frame.
Qed.

Lemma generate_pdf_report_db (sid : string) (logo_path : option Path)
    (w : World) :
  w_db (snd (generate_pdf_report sid logo_path w)) = w_db w.
Proof.
  unfold generate_pdf_report, bind. rewrite fetch_eq.
  destruct (Sql.select_session sid (w_db w)); reflexivity.
Qed.

Lemma watch_tick_frame (sid : string) (form : intake_form)
    (clock : nat -> datetime) (watch_seen : list string) (w : World) :
  same_but_evidence (w_db w)
    (w_db (snd (watch_tick sid form clock watch_seen w))).
Proof.
  unfold watch_tick, bind. cbn [get_fs].
  destruct (watch_new_files _ _ _ _) as [new_files seen].
  destruct new_files as [|f new_files]; [apply same_but_evidence_refl|].
  match goal with
  | |- context [ingest_paths ?a ?b ?c ?d ?e ?f ?g ?h ?i w] =>
      pose proof (ingest_paths_frame a b c d e f g h i w) as Hf;
      destruct (ingest_paths a b c d e f g h i w) as [[n|e'] w1]
  end; exact Hf.
Qed.

Lemma screen_dashboard_watch_frame (active : option string) (watch_on : bool)
    (form : intake_form) (clock : nat -> datetime) (watch_seen : list string)
    (w : World) :
  same_but_evidence (w_db w)
    (w_db (snd (screen_dashboard_watch active watch_on form clock watch_seen w))).
Proof.
  unfold screen_dashboard_watch.
  destruct active as [sid|]; [|apply same_but_evidence_refl].
  rewrite fetch_eq.
  destruct (Sql.select_session sid (w_db w)); [|apply same_but_evidence_refl].
  destruct watch_on; [|apply same_but_evidence_refl].
  pose proof (watch_tick_frame sid form clock watch_seen
                (mkWorld (w_db w) (ensured (w_fs w)))) as Hf.
  destruct (watch_tick sid form clock watch_seen _) as [[seen'|e] w2];
    exact Hf.
Qed.

(** *** Session identifiers *)

Lemma select_session_existsb (sid : string) (d : DB) :
  existsb (fun r => String.eqb (session_id r) sid) (sessions d)
  = match Sql.select_session sid d with Some _ => true | None => false end.
Proof.
  unfold Sql.select_session. induction (sessions d) as [|r l IH]; [reflexivity|].
  cbn [existsb List.find]. destruct (String.eqb (session_id r) sid); [reflexivity|].
  exact IH.
Qed.

Lemma select_session_none (sid : string) (d : DB) :
  Sql.select_session sid d = None <->
  ~ exists r : session_row, r ∈ sessions d /\ session_id r = sid.
Proof.
  unfold Sql.select_session. split.
  - intros Hnone (r & Hr & Hid).
    apply list_elem_of_In in Hr.
    pose proof (List.find_none _ _ Hnone r Hr) as Hf. cbn in Hf.
    rewrite Hid, String.eqb_refl in Hf. discriminate Hf.
  - intros Hno. destruct (List.find _ _) as [r|] eqn:Hf; [|reflexivity].
    exfalso. apply Hno. exists r. apply List.find_some in Hf as [Hin Heq].
    split; [now apply list_elem_of_In | now apply String.eqb_eq].
Qed.

Lemma select_session_some (sid : string) (d : DB) (row : session_row) :
  Sql.select_session sid d = Some row ->
  row ∈ sessions d /\ session_id row = sid.
Proof.
  unfold Sql.select_session. intros Hf.
  apply List.find_some in Hf as [Hin Heq].
  split; [now apply list_elem_of_In | now apply String.eqb_eq].
Qed.

Lemma create_session_taken (now : datetime) (location notes : string)
    (w : World) (old : session_row) :
  Sql.select_session (strftime_session_id now) (w_db w) = Some old ->
  create_session now location notes w
  = (Raise IntegrityError, mkWorld (w_db w) (ensured (w_fs w))).
Proof.
  intros Hsel. unfold create_session, bind. rewrite connect_db_eq.
  unfold con_execute, Sql.insert_session. cbn [w_db w_fs].
  now rewrite select_session_existsb, Hsel.
Qed.

Lemma create_session_free (now : datetime) (location notes : string)
    (w : World) :
  Sql.select_session (strftime_session_id now) (w_db w) = None ->
  exists w' : World,
    create_session now location notes w = (Ok (strftime_session_id now), w')
    /\ sessions (w_db w')
       = sessions (w_db w)
         ++ [mkSession (strftime_session_id now) (fmt_ts now) None
                       (Py.or_none (Py.strip location))
                       (Py.or_none (Py.strip notes))]
    /\ same_but_sessions (w_db w) (w_db w').
Proof.
  intros Hsel. unfold create_session, bind. rewrite connect_db_eq.
  unfold con_execute, Sql.insert_session. cbn [w_db w_fs].
  rewrite select_session_existsb, Hsel.
  eexists. split; [reflexivity|]. split; [reflexivity|]. repeat split.
Qed.

Lemma select_session_last (sid : string) (d : DB) (l : list session_row)
    (r : session_row) :
  sessions d = l ++ [r] -> session_id r = sid ->
  exists row : session_row, Sql.select_session sid d = Some row.
Proof.
  intros Hs Hid. destruct (Sql.select_session sid d) as [row|] eqn:E;
    [now exists row|].
  exfalso. apply select_session_none in E. apply E. exists r.
  split; [|exact Hid]. rewrite Hs. apply elem_of_app. right.
  apply list_elem_of_here.
Qed.

Lemma strftime_session_id_inj (dt1 dt2 : datetime) :
  valid_datetime dt1 = true -> valid_datetime dt2 = true ->
  strftime_session_id dt1 = strftime_session_id dt2 -> dt1 = dt2.
Proof.
  intros Hv1 Hv2.
  destruct (valid_datetime_bounds dt1 Hv1) as (Hy & Hmo & Hd & Hh & Hmi & Hs).
  destruct (valid_datetime_bounds dt2 Hv2) as (Hy' & Hmo' & Hd' & Hh' & Hmi' & Hs').
  destruct (format_4_shape _ Hy) as (y1 & y2 & y3 & y4 & Ey & Py).
  destruct (format_2_shape _ Hmo) as (m1 & m2 & Emo & Pmo).
  destruct (format_2_shape _ Hd) as (d1 & d2 & Ed & Pd).
  destruct (format_2_shape _ Hh) as (h1 & h2 & Eh & Ph).
  destruct (format_2_shape _ Hmi) as (i1 & i2 & Emi & Pmi).
  destruct (format_2_shape _ Hs) as (s1 & s2 & Es & Ps).
  destruct (format_4_shape _ Hy') as (y1' & y2' & y3' & y4' & Ey' & Py').
  destruct (format_2_shape _ Hmo') as (m1' & m2' & Emo' & Pmo').
  destruct (format_2_shape _ Hd') as (d1' & d2' & Ed' & Pd').
  destruct (format_2_shape _ Hh') as (h1' & h2' & Eh' & Ph').
  destruct (format_2_shape _ Hmi') as (i1' & i2' & Emi' & Pmi').
  destruct (format_2_shape _ Hs') as (s1' & s2' & Es' & Ps').
  unfold strftime_session_id, strftime_Ymd.
  rewrite Ey, Emo, Ed, Eh, Emi, Es, Ey', Emo', Ed', Eh', Emi', Es'.
  simpl. intros Heq. injection Heq as -> -> -> -> -> -> -> -> -> -> -> -> -> ->.
  destruct dt1, dt2. cbn [year month day hour minute second] in *.
  f_equal; congruence.
Qed.

Lemma strftime_session_id_length (dt : datetime) :
  valid_datetime dt = true -> String.length (strftime_session_id dt) = 15.
Proof.
  intros Hv.
  destruct (valid_datetime_bounds dt Hv) as (Hy & Hmo & Hd & Hh & Hmi & Hs).
  destruct (format_4_shape _ Hy) as (y1 & y2 & y3 & y4 & Ey & _).
  destruct (format_2_shape _ Hmo) as (m1 & m2 & Emo & _).
  destruct (format_2_shape _ Hd) as (d1 & d2 & Ed & _).
  destruct (format_2_shape _ Hh) as (h1 & h2 & Eh & _).
  destruct (format_2_shape _ Hmi) as (i1 & i2 & Emi & _).
  destruct (format_2_shape _ Hs) as (s1 & s2 & Es & _).
  unfold strftime_session_id, strftime_Ymd.
  now rewrite Ey, Emo, Ed, Eh, Emi, Es.
Qed.

Lemma end_session_eq (now : datetime) (sid : string) (w : World) :
  end_session now sid w
  = (Ok tt,
     mkWorld (mkDB (map (ended now sid) (sessions (w_db w)))
                   (logs (w_db w)) (events (w_db w)) (evidence (w_db w))
                   (equipment (w_db w)) (equipment_log (w_db w))
                   (tracker (w_db w)))
             (ensured (w_fs w))).
Proof. reflexivity. Qed.

Lemma ended_session_id (now : datetime) (sid : string) (r : session_row) :
  session_id (ended now sid r) = session_id r.
Proof. unfold ended. now destruct (String.eqb (session_id r) sid). Qed.

(** No operation makes two rows of [sessions] with one identifier. *)
Lemma perform_keeps_ids_distinct (a : action) (w : World) :
  NoDup (map session_id (sessions (w_db w))) ->
  NoDup (map session_id (sessions (w_db (perform a w)))).
Proof.
  intros Hnd. destruct a as [now l n | now sid | sid fp ch cb dv rm ds lk ck
                            | sid lp | act form ck seen]; cbn [perform].
  - destruct (Sql.select_session (strftime_session_id now) (w_db w))
      as [old|] eqn:Hsel.
    + now rewrite (create_session_taken now l n w old Hsel).
    + destruct (create_session_free now l n w Hsel) as (w' & -> & Hs & _).
      cbn [snd]. rewrite Hs, map_app. cbn [map session_id].
      apply NoDup_app. split; [exact Hnd|]. split; [|apply NoDup_singleton].
      intros x Hx Hx'. apply list_elem_of_singleton in Hx'. subst x.
      apply select_session_none in Hsel. apply Hsel.
      apply list_elem_of_fmap in Hx as (r & Hr1 & Hr2). now exists r.
  - rewrite end_session_eq. cbn [snd w_db sessions]. rewrite map_map.
    erewrite map_ext; [exact Hnd|]. intros r. apply ended_session_id.
  - destruct (ingest_paths_frame sid fp ch cb dv rm ds lk ck w) as (-> & _).
    exact Hnd.
  - now rewrite generate_pdf_report_db.
  - destruct (screen_dashboard_watch_frame act true form ck seen w) as (-> & _).
    exact Hnd.
Qed.

Lemma reachable_ids_distinct (fs : FS) (history : list action) :
  NoDup (map session_id (sessions (w_db (perform_all history (booted fs))))).
Proof.
  unfold perform_all. rewrite <- fold_left_rev_right.
  induction (rev history) as [|a l IH]; cbn [fold_right].
  - apply NoDup_nil_2.
  - now apply perform_keeps_ids_distinct.
Qed.

(** C4.  The identifier of a new session is the start time as
    YYYYMMDD_HHMMSS, so two start times have one identifier when they are
    the same second.  When the store has a session with that identifier,
    [create_session] raises the integrity error of the primary key and the
    tables stay as they are; otherwise it adds one row.  In every world the
    operations lead to, the rows of [sessions] have distinct identifiers. *)
Theorem create_session_collision (fs : FS) (history : list action)
    (now : datetime) (location notes : string) :
  let w := perform_all history (booted fs) in
  let sid := strftime_session_id now in
  NoDup (map session_id (sessions (w_db w)))
  /\ (valid_datetime now = true ->
      String.length sid = 15
      /\ forall now' : datetime,
           valid_datetime now' = true ->
           strftime_session_id now' = sid -> now' = now)
  /\ match Sql.select_session sid (w_db w) with
     | Some old =>
         exists w' : World,
           create_session now location notes w = (Raise IntegrityError, w')
           /\ w_db w' = w_db w
     | None =>
         exists w' : World,
           create_session now location notes w = (Ok sid, w')
           /\ sessions (w_db w')
              = sessions (w_db w)
                ++ [mkSession sid (fmt_ts now) None
                              (Py.or_none (Py.strip location))
                              (Py.or_none (Py.strip notes))]
           /\ same_but_sessions (w_db w) (w_db w')
     end
  /\ forall location2 notes2 : string,
       exists w2 : World,
         create_session now location2 notes2
           (snd (create_session now location notes w))
         = (Raise IntegrityError, w2)
         /\ w_db w2 = w_db (snd (create_session now location notes w)).
Proof.
  intros w sid. refine (conj _ (conj _ (conj _ _))).
  - apply reachable_ids_distinct.
  - intros Hv. split; [now apply strftime_session_id_length|].
    intros now' Hv' Heq. now apply strftime_session_id_inj.
  - destruct (Sql.select_session sid (w_db w)) as [old|] eqn:Hsel.
    + eexists. split; [exact (create_session_taken now location notes w old Hsel)|].
      reflexivity.
    + exact (create_session_free now location notes w Hsel).
  - intros location2 notes2.
    assert (Hex : exists row : session_row,
               Sql.select_session sid
                 (w_db (snd (create_session now location notes w)))
               = Some row).
    { destruct (Sql.select_session sid (w_db w)) as [old|] eqn:Hsel.
      - rewrite (create_session_taken now location notes w old Hsel).
        cbn [snd w_db]. now exists old.
      - destruct (create_session_free now location notes w Hsel)
          as (w' & -> & Hs & _).
        cbn [snd]. now apply (select_session_last sid _ _ _ Hs). }
    destruct Hex as (row & Hrow).
    eexists. split; [exact (create_session_taken now location2 notes2 _ row Hrow)|].
    reflexivity.
Qed.

(** *** Ending a session *)

Lemma ended_other (now : datetime) (sid : string) (r : session_row) :
  session_id r <> sid -> ended now sid r = r.
Proof.
  intros Hne. unfold ended.
  destruct (String.eqb_spec (session_id r) sid); [contradiction | reflexivity].
Qed.

Lemma ended_twice (now now2 : datetime) (sid : string) (r : session_row) :
  ended now2 sid (ended now sid r) = ended now2 sid r.
Proof.
  unfold ended. destruct (String.eqb (session_id r) sid) eqn:E.
  - cbn [session_id]. rewrite E. reflexivity.
  - now rewrite E.
Qed.

Lemma map_ended_absent (now : datetime) (sid : string) (l : list session_row) :
  (forall r, r ∈ l -> session_id r <> sid) -> map (ended now sid) l = l.
Proof.
  induction l as [|r l IH]; intros Hall; [reflexivity|].
  cbn [map]. rewrite ended_other by (apply Hall; apply list_elem_of_here).
  f_equal. apply IH. intros r' Hr'. apply Hall. now apply list_elem_of_further.
Qed.

(** C10.  Ending a session rewrites [ended_at] in the rows of [sessions]
    with that identifier and nothing else: the other fields of those rows,
    the other rows, the other tables and the files stay as they are.  With
    no such row nothing changes and nothing is raised; ending again
    overwrites [ended_at] with the new time. *)
Theorem end_session_frame (w : World) (now : datetime) (sid : string) :
  data_dirs_exist (w_fs w) ->
  exists w' : World,
    end_session now sid w = (Ok tt, w')
    /\ w_fs w' = w_fs w
    /\ same_but_sessions (w_db w) (w_db w')
    /\ sessions (w_db w') = map (ended now sid) (sessions (w_db w))
    /\ (forall r : session_row,
          ended now sid r
          = if String.eqb (session_id r) sid
            then mkSession (session_id r) (started_at r) (Some (fmt_ts now))
                           (location r) (notes r)
            else r)
    /\ (Sql.select_session sid (w_db w) = None -> w' = w)
    /\ forall now2 : datetime,
         exists w2 : World,
           end_session now2 sid w' = (Ok tt, w2)
           /\ w_fs w2 = w_fs w
           /\ same_but_sessions (w_db w) (w_db w2)
           /\ sessions (w_db w2) = map (ended now2 sid) (sessions (w_db w)).
Proof.
  intros Hdirs. rewrite end_session_eq, (ensured_existing _ Hdirs).
  eexists. split; [reflexivity|]. cbn [w_fs w_db sessions].
  refine (conj eq_refl (conj _ (conj eq_refl (conj _ (conj _ _))))).
  - repeat split.
  - intros r. reflexivity.
  - intros Hnone. rewrite map_ended_absent.
    + destruct w as [[] ?]. reflexivity.
    + intros r Hr Hid. apply select_session_none in Hnone. apply Hnone.
      now exists r.
  - intros now2. rewrite end_session_eq. cbn [w_fs w_db sessions logs events
      evidence equipment equipment_log tracker].
    rewrite (ensured_existing _ Hdirs).
    eexists. split; [reflexivity|]. cbn [w_fs w_db sessions].
    refine (conj eq_refl (conj _ _)); [repeat split|].
    rewrite map_map. apply map_ext. intros r. apply ended_twice.
Qed.

(** *** The report of a session that is not there *)

(** C9.  [generate_pdf_report] raises "Session not found." exactly when
    [sessions] has no row for the identifier, and then the world is as it
    was: no directory made, no file written, no row changed.  When the row
    is there it returns the path of the report, under which the canvas was
    saved, and the tables are as they were. *)
Theorem generate_pdf_report_not_found (w : World) (sid : string)
    (logo_path : option Path) :
  data_dirs_exist (w_fs w) ->
  (fst (generate_pdf_report sid logo_path w)
   = Raise (ValueError "Session not found.")
   <-> ~ exists r : session_row, r ∈ sessions (w_db w) /\ session_id r = sid)
  /\ ((~ exists r : session_row, r ∈ sessions (w_db w) /\ session_id r = sid) ->
      generate_pdf_report sid logo_path w
      = (Raise (ValueError "Session not found."), w))
  /\ forall row : session_row,
       Sql.select_session sid (w_db w) = Some row ->
       let report_path :=
         SESSIONS_DIR // sid // "reports" // ("Report_" +:+ sid +:+ ".pdf") in
       exists (ops : list canvas_op) (fs' : FS),
         generate_pdf_report sid logo_path w
         = (Ok report_path,
            mkWorld (w_db w) (fs_save_canvas report_path ops fs')).
Proof.
  intros Hdirs.
  assert (Hnone : Sql.select_session sid (w_db w) = None ->
                  generate_pdf_report sid logo_path w
                  = (Raise (ValueError "Session not found."), w)).
  { intros Hsel. unfold generate_pdf_report, bind.
    rewrite fetch_eq, Hsel, (ensured_existing _ Hdirs).
    destruct w. reflexivity. }
  assert (Hsome : forall row : session_row,
             Sql.select_session sid (w_db w) = Some row ->
             exists (ops : list canvas_op) (fs' : FS),
               generate_pdf_report sid logo_path w
               = (Ok (SESSIONS_DIR // sid // "reports"
                      // ("Report_" +:+ sid +:+ ".pdf")),
                  mkWorld (w_db w)
                    (fs_save_canvas
                       (SESSIONS_DIR // sid // "reports"
                        // ("Report_" +:+ sid +:+ ".pdf")) ops fs'))).
  { intros row Hsel. unfold generate_pdf_report, bind.
    rewrite fetch_eq, Hsel. eexists _, _. reflexivity. }
  refine (conj _ (conj _ Hsome)).
  - rewrite <- select_session_none. split.
    + intros Hraise.
      destruct (Sql.select_session sid (w_db w)) as [row|] eqn:Hsel;
        [|reflexivity].
      destruct (Hsome row eq_refl) as (ops & fs' & Hrun).
      rewrite Hrun in Hraise. discriminate Hraise.
    + intros Hsel. now rewrite (Hnone Hsel).
  - intros Hno. apply Hnone. now apply select_session_none.
Qed.

(** *** The report of a session without rows *)

Section EmptyReport.

(** A text of up to forty characters fits on a line. *)
Hypothesis short_fits :
  forall s : string,
    String.length s <= 40 ->
    (stringWidth s "Helvetica" 10 <= width - x_margin * 2)%Z.

Lemma wrap_words_short (indent : Z) (words : list string) :
  forall (line : string) (c : pen),
    all_tests_short words line = true ->
    wrap_words (width - x_margin * 2) indent words line c
    = (wrapped_line words line, c).
Proof.
  induction words as [|w rest IH]; intros line c Hshort; [reflexivity|].
  cbn [all_tests_short] in Hshort. apply andb_prop in Hshort as [Hlen Hrest].
  apply Nat.leb_le in Hlen. cbn [wrap_words wrapped_line].
  pose proof (short_fits _ Hlen) as Hfit. apply Z.leb_le in Hfit.
  rewrite Hfit. now apply IH.
Qed.

(** A short text is drawn as one line. *)
Lemma draw_wrapped_short (text : string) (c : pen) :
  all_tests_short (Py.split_ws text) "" = true ->
  String.eqb (wrapped_line (Py.split_ws text) "") "" = false ->
  draw_wrapped text 0 c
  = draw_line 0 (inches 22) (wrapped_line (Py.split_ws text) "") c.
Proof.
  intros Hshort Hline. unfold draw_wrapped. rewrite Z.sub_0_r.
  rewrite (wrap_words_short 0 _ "" c Hshort). now rewrite Hline.
Qed.

Lemma draw_wrapped_no_evidence (c : pen) :
  draw_wrapped "No evidence logged." 0 c
  = draw_line 0 (inches 22) "No evidence logged." c.
Proof.
  rewrite draw_wrapped_short by (vm_compute; reflexivity).
  f_equal.
Qed.

Lemma draw_wrapped_no_equipment (c : pen) :
  draw_wrapped "No equipment activity logged." 0 c
  = draw_line 0 (inches 22) "No equipment activity logged." c.
Proof.
  rewrite draw_wrapped_short by (vm_compute; reflexivity).
  f_equal.
Qed.

Lemma draw_wrapped_no_tracker (c : pen) :
  draw_wrapped "No tracker entries." 0 c
  = draw_line 0 (inches 22) "No tracker entries." c.
Proof.
  rewrite draw_wrapped_short by (vm_compute; reflexivity).
  f_equal.
Qed.

Lemma render_empty_report (sid : string) (session : session_row)
    (logo : option Path) :
  drawn_texts (render_report sid session [] [] [] [] [] logo)
  = ["Investigation Report Draft"; "Session ID: " +:+ sid;
     "Started: " +:+ started_at session;
     "Ended: " +:+ or_dash (ended_at session);
     "Location: " +:+ or_dash (location session);
     "Timeline (Events + Notes)";
     "Evidence List"; "No evidence logged.";
     "Equipment Usage"; "No equipment activity logged.";
     "Investigator Tracker"; "No tracker entries."].
Proof.
  unfold render_report.
  rewrite draw_wrapped_no_evidence, draw_wrapped_no_equipment,
    draw_wrapped_no_tracker.
  destruct logo; vm_compute; reflexivity.
Qed.

(** C6, at the session without rows.  Its report is written, with the four
    section titles; the titles of the evidence, the equipment and the
    tracker are each followed by a line that says nothing was logged, the
    title of the timeline is followed by the next title. *)
Theorem empty_report_sections (w : World) (sid : string)
    (session : session_row) (logo_path : option Path) :
  Sql.select_session sid (w_db w) = Some session ->
  Sql.logs_of sid (w_db w) = [] ->
  Sql.events_of sid (w_db w) = [] ->
  Sql.evidence_of sid (w_db w) = [] ->
  Sql.equipment_log_of sid (w_db w) = [] ->
  Sql.tracker_of sid (w_db w) = [] ->
  let report_path :=
    SESSIONS_DIR // sid // "reports" // ("Report_" +:+ sid +:+ ".pdf") in
  exists (ops : list canvas_op) (fs' : FS),
    generate_pdf_report sid logo_path w
    = (Ok report_path, mkWorld (w_db w) (fs_save_canvas report_path ops fs'))
    /\ drawn_texts ops
       = ["Investigation Report Draft"; "Session ID: " +:+ sid;
          "Started: " +:+ started_at session;
          "Ended: " +:+ or_dash (ended_at session);
          "Location: " +:+ or_dash (location session);
          "Timeline (Events + Notes)";
          "Evidence List"; "No evidence logged.";
          "Equipment Usage"; "No equipment activity logged.";
          "Investigator Tracker"; "No tracker entries."].
Proof.
  intros Hsel Hlogs Hevents Hevidence Hequip Htracker report_path.
  unfold generate_pdf_report, bind.
  rewrite !fetch_eq. cbn [w_db]. rewrite Hsel.
  rewrite !fetch_eq. cbn [w_db].
  rewrite Hlogs, Hevents, Hevidence, Hequip, Htracker.
  eexists _, _. split; [reflexivity|]. apply render_empty_report.
Qed.

End EmptyReport.

(** *** The watch *)






Section Watch.

Variables (sid : string) (form : intake_form) (row : session_row)
          (start : datetime).

Hypothesis started_reads : strptime (started_at row) = Some start.





End Watch.

(** The copy fails when both attempts fail: the first on the read or on
    the write, and the streamed copy after it. *)
Lemma copy_file_fails (src dst : Path) (w : World) :
  fst (copy_file src dst w) = Ok false <->
  match fs_read_bytes (w_fs w) src with
  | Some data =>
      fst (fs_write_bytes dst data (w_fs w)) = false
      /\ fst (fs_copy2 src dst (snd (fs_write_bytes dst data (w_fs w)))) = false
  | None => fst (fs_copy2 src dst (w_fs w)) = false
  end.
Proof.
  unfold copy_file. cbn [fst].
  destruct (fs_read_bytes (w_fs w) src) as [data|]; cbn [fst snd].
  - destruct (fs_write_bytes dst data (w_fs w)) as [[] fs1]; cbn [fst snd].
    + split; [discriminate | intros [Hf _]; discriminate Hf].
    + split; [intros [= ->]; now split | intros [_ ->]; reflexivity].
  - split; [now intros [= ->] | now intros ->].
Qed.


(** C7, as the code has it.  The stored name of every recorded file is
    [safe_filename] of its evidence code followed by the suffixes of the
    original name.  It is made of word characters, [-] and [.] only, so has
    no space and no [#], and has at most 180 characters; a text of safe
    characters that is short enough is kept as it is; and the sanitizing is
    the one of the specification where the text has no whitespace at its
    ends and no two neighbouring characters to replace. *)
Theorem stored_name_sanitized (w : World) (sid : string) (row : session_row)
    (start : datetime) (file_paths : list Path) (ev_type_choice : string)
    (captured_by_val device room desc : option string)
    (linked_event_id : option nat) (clock : nat -> datetime) :
  Sql.select_session sid (w_db w) = Some row ->
  strptime (started_at row) = Some start ->
  exists (rows : list evidence_row) (w' : World),
    ingest_paths sid file_paths ev_type_choice captured_by_val device room
                 desc linked_event_id clock w
    = (Ok (length rows), w')
    /\ evidence (w_db w') = evidence (w_db w) ++ rows
    /\ forall r : evidence_row,
         r ∈ rows ->
         let raw :=
           evidence_code r +:+ Py.join "" (suffixes (original_name r)) in
         stored_name r = safe_filename raw
         /\ chars_all
              (fun c => safe_char c = true /\ c <> " "%char /\ c <> "#"%char)
              (stored_name r)
         /\ String.length (stored_name r) <= 180
         /\ (chars_all (fun c => safe_char c = true) raw ->
             String.length raw <= 180 -> stored_name r = raw)
         /\ (Py.strip raw = raw ->
             no_adjacent (fun c => negb (allowed_in_filename c)) raw = true ->
             stored_name r = spec_safe_filename raw).
Proof.
  intros Hsel Hdt.
  destruct (ingest_paths_batch sid file_paths ev_type_choice captured_by_val
              device room desc linked_event_id clock row start w Hdt Hsel)
    as (rows & w' & Hrun & Hev & _ & Hb).
  exists rows, w'. refine (conj Hrun (conj Hev _)).
  intros r Hr raw.
  destruct (recorded_batch_member _ _ _ _ _ _ _ _ _ Hb r Hr)
    as (p & c & k & _ & Hrec).
  pose proof (rec_stored_name _ _ _ _ _ _ _ _ _ Hrec) as Hname.
  fold raw in Hname. rewrite Hname.
  refine (conj eq_refl (conj _ (conj _ (conj _ _)))).
  - eapply chars_all_impl; [|apply safe_filename_chars].
    intros ch Hch. split; [exact Hch|]. now apply safe_char_facts.
  - apply safe_filename_length.
  - apply safe_filename_id.
  - apply safe_filename_char_by_char.
Qed.

(** C8.  With the choice AUTO the type of a recorded file is read off the
    suffix of its name in lower case, by the table of the specification,
    OTHER where the table has no entry; names that differ in the case of
    letters only get the same type.  Any other choice is the type. *)
Theorem effective_type_resolution (w : World) (sid : string)
    (row : session_row) (start : datetime) (file_paths : list Path)
    (ev_type_choice : string)
    (captured_by_val device room desc : option string)
    (linked_event_id : option nat) (clock : nat -> datetime) :
  Sql.select_session sid (w_db w) = Some row ->
  strptime (started_at row) = Some start ->
  (forall name : string,
     detect_type_from_name name
     = spec_type_of_extension (Py.lower (suffix name)))
  /\ (forall n1 n2 : string,
        Py.lower n1 = Py.lower n2 ->
        detect_type_from_name n1 = detect_type_from_name n2)
  /\ detect_type_from_name "clip.MP4" = "VIDEO"
  /\ detect_type_from_name "reading.xyz" = "OTHER"
  /\ exists (rows : list evidence_row) (w' : World),
       ingest_paths sid file_paths ev_type_choice captured_by_val device room
                    desc linked_event_id clock w
       = (Ok (length rows), w')
       /\ evidence (w_db w') = evidence (w_db w) ++ rows
       /\ forall r : evidence_row,
            r ∈ rows ->
            evidence_type r
            = if String.eqb ev_type_choice "AUTO"
              then spec_type_of_extension
                     (Py.lower (suffix (original_name r)))
              else ev_type_choice.
Proof.
  intros Hsel Hdt.
  assert (Hdetect : forall name : string,
             detect_type_from_name name
             = spec_type_of_extension (Py.lower (suffix name))).
  { intros name. unfold detect_type_from_name. apply ext_type_table. }
  refine (conj Hdetect (conj detect_type_case (conj eq_refl (conj eq_refl _)))).
  destruct (ingest_paths_batch sid file_paths ev_type_choice captured_by_val
              device room desc linked_event_id clock row start w Hdt Hsel)
    as (rows & w' & Hrun & Hev & _ & Hb).
  exists rows, w'. refine (conj Hrun (conj Hev _)).
  intros r Hr.
  destruct (recorded_batch_member _ _ _ _ _ _ _ _ _ Hb r Hr)
    as (p & c & k & _ & Hrec).
  rewrite (rec_type _ _ _ _ _ _ _ _ _ Hrec), (rec_name _ _ _ _ _ _ _ _ _ Hrec).
  unfold resolve_type. now rewrite Hdetect.
Qed.

End ProgramProperties.

Lemma evidence_code_sequence_witness :
  exists (rows : list evidence_row) (w' : World),
    ingest_paths Demo.sid0 Demo.files0 "AUTO" None (Some "VR-01") None None
                 None Demo.clock0 Demo.w_session
    = (Ok (length rows), w')
    /\ forall (i : nat) (r : evidence_row),
         rows !! i = Some r ->
         evidence_code r
         = "20240309_" +:+ Py.format_0d 4 (0 + 1 + i) +:+ "_"
           +:+ evidence_type r.
Proof.
  destruct (evidence_code_sequence Demo.w_session Demo.sid0 Demo.row0
              Demo.now0 Demo.files0 "AUTO" None (Some "VR-01") None None None
              Demo.clock0)
    as (_ & rows & w' & Hrun & _ & _ & Hrows).
  - reflexivity.
  - reflexivity.
  - reflexivity.
  - simpl. tauto.
  - exists rows, w'. split; [exact Hrun|].
    intros i r Hi. exact (proj1 (Hrows i r Hi)).
Defined.


Lemma stored_name_sanitized_witness :
  exists (rows : list evidence_row) (w' : World),
    ingest_paths Demo.sid0 Demo.files0 "AUTO" None (Some "VR-01") None None
                 None Demo.clock0 Demo.w_session
    = (Ok (length rows), w')
    /\ forall r : evidence_row,
         r ∈ rows -> String.length (stored_name r) <= 180.
Proof.
  destruct (stored_name_sanitized Demo.w_session Demo.sid0 Demo.row0
              Demo.now0 Demo.files0 "AUTO" None (Some "VR-01") None None None
              Demo.clock0)
    as (rows & w' & Hrun & _ & Hrows).
  - reflexivity.
  - reflexivity.
  - exists rows, w'. split; [exact Hrun|].
    intros r Hr. exact (proj1 (proj2 (proj2 (Hrows r Hr)))).
Defined.

(** C7 as stated fails.  The file [notes.v##2.txt] is stored under a name
    with one underscore for its two [#], where replacing each character
    gives two; and a name that ends in a space loses it, where collapsing
    whitespace gives an underscore. *)
Lemma stored_name_not_char_by_char :
  (exists r : evidence_row,
     evidence
       (w_db (snd (ingest_paths Demo.sid0 Demo.files0 "AUTO" None
                     (Some "VR-01") None None None Demo.clock0
                     Demo.w_session))) !! 1
     = Some r
     /\ original_name r = "notes.v##2.txt"
     /\ evidence_code r = "20240309_0002_DOC"
     /\ stored_name r = "20240309_0002_DOC.v_2.txt"
     /\ spec_safe_filename
          (evidence_code r +:+ Py.join "" (suffixes (original_name r)))
        = "20240309_0002_DOC.v__2.txt"
     /\ stored_name r
        <> spec_safe_filename
             (evidence_code r +:+ Py.join "" (suffixes (original_name r))))
  /\ safe_filename ("20240309_0003_OTHER" +:+ Py.join "" (suffixes "tape.txt "))
     = "20240309_0003_OTHER.txt"
  /\ spec_safe_filename
       ("20240309_0003_OTHER" +:+ Py.join "" (suffixes "tape.txt "))
     = "20240309_0003_OTHER.txt_".
Proof.
  split; [|split; vm_compute; reflexivity].
  eexists. split; [vm_compute; reflexivity|].
  repeat split; try (vm_compute; reflexivity).
  vm_compute. discriminate.
Qed.

Lemma effective_type_resolution_witness :
  exists (rows : list evidence_row) (w' : World),
    ingest_paths Demo.sid0 Demo.files0 "AUTO" None (Some "VR-01") None None
                 None Demo.clock0 Demo.w_session
    = (Ok (length rows), w')
    /\ forall r : evidence_row,
         r ∈ rows ->
         evidence_type r
         = spec_type_of_extension (Py.lower (suffix (original_name r))).
Proof.
  destruct (effective_type_resolution Demo.w_session Demo.sid0 Demo.row0
              Demo.now0 Demo.files0 "AUTO" None (Some "VR-01") None None None
              Demo.clock0)
    as (_ & _ & _ & _ & rows & w' & Hrun & _ & Hrows).
  - reflexivity.
  - reflexivity.
  - exists rows, w'. split; [exact Hrun | exact Hrows].
Defined.

Lemma end_session_frame_witness :
  exists w' : World,
    end_session (Demo.clock0 0) Demo.sid0 Demo.w_session = (Ok tt, w')
    /\ w_fs w' = w_fs Demo.w_session.
Proof.
  destruct (end_session_frame Demo.w_session (Demo.clock0 0) Demo.sid0)
    as (w' & Hrun & Hfs & _).
  - split; reflexivity.
  - exists w'. split; [exact Hrun | exact Hfs].
Defined.

Lemma generate_pdf_report_not_found_witness :
  generate_pdf_report "20240101_000000" None Demo.w_session
  = (Raise (ValueError "Session not found."), Demo.w_session).
Proof.
  apply (generate_pdf_report_not_found Demo.w_session "20240101_000000" None).
  - split; reflexivity.
  - intros (r & Hr & Hid). vm_compute in Hr.
    apply list_elem_of_singleton in Hr. subst r. discriminate Hid.
Defined.

Lemma empty_report_sections_witness :
  exists (ops : list canvas_op) (fs' : MemFS.t),
    generate_pdf_report Demo.sid0 None Demo.w_session
    = (Ok (SESSIONS_DIR // Demo.sid0 // "reports"
           // ("Report_" +:+ Demo.sid0 +:+ ".pdf")),
       mkWorld (w_db Demo.w_session)
         (fs_save_canvas
            (SESSIONS_DIR // Demo.sid0 // "reports"
             // ("Report_" +:+ Demo.sid0 +:+ ".pdf")) ops fs'))
    /\ drawn_texts ops
       = ["Investigation Report Draft"; "Session ID: 20240309_214305";
          "Started: 2024-03-09 21:43:05"; "Ended: " +:+ DASH;
          "Location: Old Mill";
          "Timeline (Events + Notes)";
          "Evidence List"; "No evidence logged.";
          "Equipment Usage"; "No equipment activity logged.";
          "Investigator Tracker"; "No tracker entries."].
Proof.
  apply (empty_report_sections (page_writer := MemFS.fixed_pitch))
    with (session := Demo.row0).
  - intros s Hs. change (width - x_margin * 2)%Z with 50400%Z.
    cbn [stringWidth MemFS.fixed_pitch]. lia.
  - vm_compute. reflexivity.
  - vm_compute. reflexivity.
  - vm_compute. reflexivity.
  - vm_compute. reflexivity.
  - vm_compute. reflexivity.
  - vm_compute. reflexivity.
Defined.


(** * More of the program *)

(** ** Numbers written in decimal *)

Lemma digits_from_uint (d : Decimal.uint) :
  forall acc : nat,
    Py.digits_from acc (NilEmpty.string_of_uint d)
    = Some (Nat.of_uint_acc d acc).
Proof.
  induction d as [|d IH|d IH|d IH|d IH|d IH|d IH|d IH|d IH|d IH|d IH];
    intros acc; [reflexivity|..];
    cbn [NilEmpty.string_of_uint Py.digits_from Nat.of_uint_acc];
    change (Py.isdigit _) with true; cbv iota; rewrite IH; f_equal; f_equal;
    rewrite Nat.tail_mul_spec; unfold Py.digit_val; cbn; lia.
Qed.

Lemma str_of_nat_nonempty (n : nat) : Py.str_of_nat n <> "".
Proof.
  unfold Py.str_of_nat, NilZero.string_of_uint.
  destruct (Nat.to_uint n); discriminate.
Qed.

Lemma digits_from_str_of_nat (n : nat) :
  Py.digits_from 0 (Py.str_of_nat n) = Some n.
Proof.
  unfold Py.str_of_nat, NilZero.string_of_uint.
  pose proof (DecimalNat.Unsigned.of_to n) as Hn. unfold Nat.of_uint in Hn.
  destruct (Nat.to_uint n) eqn:E;
    try (rewrite digits_from_uint; now rewrite Hn).
  cbn in Hn. now subst n.
Qed.

Lemma digits_from_zeros (k : nat) (s : string) :
  Py.digits_from 0 (Py.zeros k +:+ s) = Py.digits_from 0 s.
Proof. induction k as [|k IH]; [reflexivity | exact IH]. Qed.

(** Every number reads back from its padded text, whatever the width. *)
Lemma parse_format_0d (w n : nat) :
  Py.parse_digits (Py.format_0d w n) = Some n.
Proof.
  unfold Py.format_0d, Py.parse_digits.
  pose proof (str_of_nat_nonempty n) as Hne.
  destruct (Py.zeros _ +:+ Py.str_of_nat n) eqn:E.
  - destruct (w - String.length (Py.str_of_nat n)); [|discriminate E].
    cbn in E. contradiction.
  - rewrite <- E, digits_from_zeros. apply digits_from_str_of_nat.
Qed.

Lemma format_0d_inj (w n m : nat) :
  Py.format_0d w n = Py.format_0d w m -> n = m.
Proof.
  intros E. pose proof (parse_format_0d w n) as Hn.
  rewrite E, parse_format_0d in Hn. now injection Hn.
Qed.

(** ** Ingestion into a session that cannot give a code *)

Section MoreOfIngest.

Context {FS : Type} {file_system : FileSystem FS}
        {page_writer : PageWriter}.

Lemma evidence_code_for_none (sid ty : string) (w : World) :
  Sql.select_session sid (w_db w) = None ->
  evidence_code_for sid ty w
  = (Raise TypeError, mkWorld (w_db w) (ensured (w_fs w))).
Proof.
  intros Hsel. unfold evidence_code_for, bind. now rewrite fetch_eq, Hsel.
Qed.

Lemma evidence_code_for_unread (sid ty : string) (w : World)
    (row : session_row) :
  Sql.select_session sid (w_db w) = Some row ->
  strptime (started_at row) = None ->
  evidence_code_for sid ty w
  = (Raise (ValueError "time data does not match format"),
     mkWorld (w_db w) (ensured (w_fs w))).
Proof.
  intros Hsel Hdt. unfold evidence_code_for, bind.
  now rewrite fetch_eq, Hsel, Hdt.
Qed.

(** When no code can be made, the loop passes over what is not a regular
    file and stops at the first regular file, with nothing recorded. *)
Lemma ingest_loop_raises (sid ev_type_choice : string)
    (captured_by_val device room desc : option string)
    (linked_event_id : option nat) (clock : nat -> datetime)
    (evidence_folder : Path) (e : exn) (w : World) :
  (forall ty : string,
     evidence_code_for sid ty w
     = (Raise e, mkWorld (w_db w) (ensured (w_fs w)))) ->
  forall (file_paths : list Path) (ingested : nat),
    ingest_loop sid ev_type_choice captured_by_val device room desc
                linked_event_id clock evidence_folder file_paths ingested w
    = if existsb (regular_file (w_fs w)) file_paths
      then (Raise e, mkWorld (w_db w) (ensured (w_fs w)))
      else (Ok ingested, w).
Proof.
  intros Hcode file_paths. induction file_paths as [|p rest IH];
    intros ingested; [reflexivity|].
  cbn [ingest_loop existsb]. unfold bind at 1. cbn [get_fs].
  unfold regular_file at 1.
  destruct (fs_exists (w_fs w) p); cbn [negb orb andb]; [|apply IH].
  destruct (fs_is_file (w_fs w) p); cbn [negb orb andb]; [|apply IH].
  unfold bind at 1. now rewrite Hcode.
Qed.

(** X1.  Ingesting into a session that is not in the store: the folders of
    the session are made all the same; the call then raises the error of
    subscripting [None] as soon as one of the paths names a regular file,
    and returns 0 when none does.  No row is written in either case. *)
Theorem ingest_paths_unknown_session (w : World) (sid : string)
    (file_paths : list Path) (ev_type_choice : string)
    (captured_by_val device room desc : option string)
    (linked_event_id : option nat) (clock : nat -> datetime) :
  Sql.select_session sid (w_db w) = None ->
  let folder := SESSIONS_DIR // sid in
  let fs0 :=
    fs_mkdir (folder // "reports")
      (fs_mkdir (folder // "evidence") (fs_mkdir folder (w_fs w))) in
  ingest_paths sid file_paths ev_type_choice captured_by_val device room desc
               linked_event_id clock w
  = if existsb (regular_file fs0) file_paths
    then (Raise TypeError, mkWorld (w_db w) (ensured fs0))
    else (Ok 0, mkWorld (w_db w) fs0).
Proof.
  intros Hsel folder fs0. unfold ingest_paths. unfold bind at 1.
  change (get_session_folder sid w)
    with (Ok folder, mkWorld (w_db w) fs0).
  cbv iota beta.
  rewrite (ingest_loop_raises sid ev_type_choice captured_by_val device room
             desc linked_event_id clock (folder // "evidence") TypeError
             (mkWorld (w_db w) fs0));
    [reflexivity|].
  intros ty. now apply evidence_code_for_none.
Qed.

End MoreOfIngest.

Lemma ingest_paths_unknown_session_witness :
  fst (ingest_paths "20240101_000000" Demo.files0 "AUTO" None None None None
                    None Demo.clock0 Demo.w_init)
  = Raise TypeError
  /\ fst (ingest_paths "20240101_000000" [MemFS.card // "missing.txt"] "AUTO"
                       None None None None None Demo.clock0 Demo.w_init)
     = Ok 0.
Proof.
  split.
  - rewrite (ingest_paths_unknown_session Demo.w_init "20240101_000000"
               Demo.files0 "AUTO" None None None None None Demo.clock0);
      [|reflexivity].
    vm_compute. reflexivity.
  - rewrite (ingest_paths_unknown_session Demo.w_init "20240101_000000"
               [MemFS.card // "missing.txt"] "AUTO" None None None None None
               Demo.clock0);
      [|reflexivity].
    vm_compute. reflexivity.
Defined.

(** ** The evidence rows of the worlds the operations lead to *)

Lemma chars_all_zeros (k : nat) :
  chars_all (fun c => Py.isdigit c = true) (Py.zeros k).
Proof. induction k as [|k IH]; [exact I | split; [reflexivity | exact IH]]. Qed.

Lemma chars_all_string_of_uint (d : Decimal.uint) :
  chars_all (fun c => Py.isdigit c = true) (NilEmpty.string_of_uint d).
Proof. induction d; cbn; try split; try reflexivity; assumption. Qed.

Lemma format_0d_digits (w n : nat) :
  chars_all (fun c => Py.isdigit c = true) (Py.format_0d w n).
Proof.
  unfold Py.format_0d. apply chars_all_append. split; [apply chars_all_zeros|].
  unfold Py.str_of_nat, NilZero.string_of_uint.
  destruct (Nat.to_uint n) eqn:E; try (rewrite <- E; apply chars_all_string_of_uint).
  split; [reflexivity | exact I].
Qed.

Lemma append_inv_head (p s1 s2 : string) : p +:+ s1 = p +:+ s2 -> s1 = s2.
Proof.
  induction p as [|c p IH]; [trivial|]. cbn. intros [= E]. now apply IH.
Qed.

Lemma append_assoc (a b c : string) : (a +:+ b) +:+ c = a +:+ (b +:+ c).
Proof.
  induction a as [|x a IH]; [reflexivity|].
  change (String x ((a +:+ b) +:+ c) = String x (a +:+ (b +:+ c))).
  now f_equal.
Qed.

Lemma append_length (a b : string) :
  String.length (a +:+ b) = String.length a + String.length b.
Proof.
  induction a as [|x a IH]; [reflexivity|].
  change (S (String.length (a +:+ b)) = S (String.length a + String.length b)).
  now f_equal.
Qed.

(** Two texts that start with digits and an underscore have the same
    digits when they are equal. *)
Lemma digits_then_underscore (a b s t : string) :
  chars_all (fun c => Py.isdigit c = true) a ->
  chars_all (fun c => Py.isdigit c = true) b ->
  a +:+ String "_" s = b +:+ String "_" t -> a = b.
Proof.
  revert b. induction a as [|c a IH]; intros [|d b] Ha Hb; cbn; intros E.
  - reflexivity.
  - injection E as E _. subst d. destruct Hb as [Hb _]. discriminate Hb.
  - injection E as E _. subst c. destruct Ha as [Ha _]. discriminate Ha.
  - injection E as -> E. f_equal. apply (IH b); [apply Ha | apply Hb | exact E].
Qed.

Lemma code_text_counter (date_part : string) (n m : nat) (ty ty' s s' : string) :
  code_text date_part n ty +:+ s = code_text date_part m ty' +:+ s' -> n = m.
Proof.
  unfold code_text. rewrite !append_assoc.
  intros E. apply append_inv_head in E. cbn in E. injection E as E.
  apply (format_0d_inj 4). eapply digits_then_underscore; [| |exact E];
    apply format_0d_digits.
Qed.

Lemma select_session_app (sid : string) (d d' : DB) (l : list session_row)
    (row : session_row) :
  sessions d' = sessions d ++ l ->
  Sql.select_session sid d = Some row -> Sql.select_session sid d' = Some row.
Proof.
  unfold Sql.select_session. intros ->.
  induction (sessions d) as [|r rest IH]; [discriminate|].
  cbn [List.find app]. destruct (String.eqb (session_id r) sid); [trivial|].
  exact IH.
Qed.

Lemma select_session_ended (now : datetime) (sid' sid : string) (d d' : DB)
    (row : session_row) :
  sessions d' = map (ended now sid') (sessions d) ->
  Sql.select_session sid d = Some row ->
  Sql.select_session sid d' = Some (ended now sid' row).
Proof.
  unfold Sql.select_session. intros ->.
  induction (sessions d) as [|r rest IH]; [discriminate|].
  cbn [List.find map]. rewrite ended_session_id.
  destruct (String.eqb (session_id r) sid); [now intros [= ->]|]. exact IH.
Qed.

Lemma ended_started_at (now : datetime) (sid : string) (r : session_row) :
  started_at (ended now sid r) = started_at r.
Proof. unfold ended. now destruct (String.eqb (session_id r) sid). Qed.

Lemma filter_session_all (sid : string) (rows : list evidence_row) :
  (forall r, r ∈ rows -> evidence_session_id r = sid) ->
  List.filter (fun r => String.eqb (evidence_session_id r) sid) rows = rows.
Proof.
  induction rows as [|r rows IH]; intros Hall; [reflexivity|].
  cbn [List.filter]. rewrite (Hall r (list_elem_of_here _ _)), String.eqb_refl.
  f_equal. apply IH. intros r' Hr'. apply Hall. now apply list_elem_of_further.
Qed.

Lemma filter_session_none (sid sid' : string) (rows : list evidence_row) :
  sid' <> sid ->
  (forall r, r ∈ rows -> evidence_session_id r = sid') ->
  List.filter (fun r => String.eqb (evidence_session_id r) sid) rows = [].
Proof.
  intros Hne. induction rows as [|r rows IH]; intros Hall; [reflexivity|].
  cbn [List.filter]. rewrite (Hall r (list_elem_of_here _ _)).
  destruct (String.eqb_spec sid' sid) as [E|_]; [contradiction|].
  apply IH. intros r' Hr'. apply Hall. now apply list_elem_of_further.
Qed.

Lemma codes_in_sequence_same (d d' : DB) :
  sessions d' = sessions d -> evidence d' = evidence d ->
  codes_in_sequence d -> codes_in_sequence d'.
Proof.
  intros Hs He Hinv sid i r Hi. unfold evidence_rows_of in Hi.
  rewrite He in Hi. destruct (Hinv sid i r Hi) as (row & dt & Hsel & Hrest).
  exists row, dt. split; [|exact Hrest].
  now rewrite (select_session_same sid d d' Hs).
Qed.

Section EvidenceInvariant.

Context {FS : Type} {file_system : FileSystem FS}
        {page_writer : PageWriter}.

Lemma ingest_paths_keeps_sequence (sid : string) (file_paths : list Path)
    (ev_type_choice : string)
    (captured_by_val device room desc : option string)
    (linked_event_id : option nat) (clock : nat -> datetime) (w : World) :
  codes_in_sequence (w_db w) ->
  codes_in_sequence
    (w_db (snd (ingest_paths sid file_paths ev_type_choice captured_by_val
                  device room desc linked_event_id clock w))).
Proof.
  intros Hinv.
  destruct (Sql.select_session sid (w_db w)) as [row|] eqn:Hsel.
  - destruct (strptime (started_at row)) as [dt|] eqn:Hdt.
    + destruct (ingest_paths_batch sid file_paths ev_type_choice
                  captured_by_val device room desc linked_event_id clock
                  row dt w Hdt Hsel)
        as (rows & w' & Hrun & Hev & Hsame & Hb).
      rewrite Hrun. cbn [snd]. destruct Hsame as (Hsess & _).
      assert (Hall : forall r, r ∈ rows -> evidence_session_id r = sid).
      { intros r Hr.
        destruct (recorded_batch_member _ _ _ _ _ _ _ _ _ Hb r Hr)
          as (p & c & k & _ & Hrec).
        exact (rec_session _ _ _ _ _ _ _ _ _ Hrec). }
      intros sid' i r Hi. unfold evidence_rows_of in Hi.
      rewrite Hev, List.filter_app in Hi.
      rewrite (select_session_same sid' (w_db w) (w_db w') Hsess).
      destruct (String.eqb_spec sid sid') as [<-|Hne].
      * rewrite (filter_session_all sid rows Hall) in Hi.
        apply lookup_app_Some in Hi as [Hi|[Hlen Hi]];
          [exact (Hinv sid i r Hi)|].
        destruct (recorded_batch_lookup _ _ _ _ _ _ _ _ _ Hb _ r Hi)
          as (p & _ & Hrec).
        exists row, dt. refine (conj Hsel (conj Hdt (conj _ _))).
        -- rewrite (rec_code _ _ _ _ _ _ _ _ _ Hrec). f_equal.
           unfold Sql.count_evidence.
           change (List.filter _ (evidence (w_db w)))
             with (evidence_rows_of sid (w_db w)).
           unfold evidence_rows_of in Hlen |- *. lia.
        -- exact (rec_stored_name _ _ _ _ _ _ _ _ _ Hrec).
      * rewrite (filter_session_none sid' sid rows Hne Hall), app_nil_r in Hi.
        exact (Hinv sid' i r Hi).
    + unfold ingest_paths. unfold bind at 1.
      destruct (get_session_folder_eq sid w) as (w0 & Hf & Hdb0). rewrite Hf.
      rewrite ingest_loop_raises
        with (e := ValueError "time data does not match format").
      * destruct (existsb _ _); cbn [snd w_db]; now rewrite Hdb0.
      * intros ty. apply (evidence_code_for_unread sid ty w0 row);
          [now rewrite Hdb0 | exact Hdt].
  - unfold ingest_paths. unfold bind at 1.
    destruct (get_session_folder_eq sid w) as (w0 & Hf & Hdb0). rewrite Hf.
    rewrite ingest_loop_raises with (e := TypeError).
    + destruct (existsb _ _); cbn [snd w_db]; now rewrite Hdb0.
    + intros ty. apply evidence_code_for_none. now rewrite Hdb0.
Qed.

End EvidenceInvariant.

Lemma append_nil_r (s : string) : s +:+ "" = s.
Proof.
  induction s as [|c s IH]; [reflexivity|].
  change (String c (s +:+ "") = String c s). now f_equal.
Qed.

Lemma rstrip_by_prefix (p : ascii -> bool) (a s : string) :
  chars_all (fun c => p c = false) a ->
  Py.rstrip_by p (a +:+ s) = a +:+ Py.rstrip_by p s.
Proof.
  induction a as [|c a IH]; intros Ha; [reflexivity|]. destruct Ha as [Hc Ha].
  change (Py.rstrip_by p (String c (a +:+ s))
          = String c (a +:+ Py.rstrip_by p s)).
  cbn [Py.rstrip_by]. rewrite (IH Ha), Hc.
  now destruct (a +:+ Py.rstrip_by p s).
Qed.

Lemma sub_runs_prefix (cls : ascii -> bool) (repl a s : string) :
  chars_all (fun c => cls c = false) a ->
  forall b : bool,
    exists s' : string, Py.sub_runs_from cls repl b (a +:+ s) = a +:+ s'.
Proof.
  induction a as [|c a IH]; intros Ha b; [now eexists|].
  destruct Ha as [Hc Ha]. destruct (IH Ha false) as [s' Hs'].
  exists s'.
  change (Py.sub_runs_from cls repl b (String c (a +:+ s))
          = String c (a +:+ s')).
  cbn [Py.sub_runs_from]. now rewrite Hc, Hs'.
Qed.

Lemma substring_prefix (a s : string) :
  forall n : nat,
    String.length a <= n ->
    String.substring 0 n (a +:+ s)
    = a +:+ String.substring 0 (n - String.length a) s.
Proof.
  induction a as [|c a IH]; intros n Hn.
  - now rewrite Nat.sub_0_r.
  - destruct n as [|n]; [cbn in Hn; lia|].
    change (String c (String.substring 0 n (a +:+ s))
            = String c (a +:+ String.substring 0 (n - String.length a) s)).
    f_equal. apply IH. cbn in Hn. lia.
Qed.

(** Sanitizing keeps a leading part made of safe characters. *)
Lemma safe_filename_prefix (a s : string) :
  a <> "" -> chars_all (fun c => safe_char c = true) a ->
  String.length a <= 180 ->
  exists s' : string, safe_filename (a +:+ s) = a +:+ s'.
Proof.
  intros Hne Ha Hlen. unfold safe_filename, Py.strip.
  assert (Hsp : chars_all (fun c => Py.isspace c = false) a).
  { eapply chars_all_impl; [|exact Ha]. intros c Hc.
    now apply safe_char_facts in Hc. }
  assert (Hal : chars_all
                  (fun c => negb (allowed_in_filename c) = false) a).
  { eapply chars_all_impl; [|exact Ha]. intros c Hc.
    apply safe_char_facts in Hc as (-> & _). reflexivity. }
  assert (Hl : Py.lstrip_by Py.isspace (a +:+ s) = a +:+ s).
  { destruct a as [|c a]; [contradiction|]. destruct Hsp as [Hc _].
    change (Py.lstrip_by Py.isspace (String c (a +:+ s))
            = String c (a +:+ s)).
    cbn [Py.lstrip_by]. now rewrite Hc. }
  rewrite Hl, (rstrip_by_prefix _ a s Hsp). unfold Py.re_sub_runs.
  destruct (sub_runs_prefix (fun c => negb (allowed_in_filename c)) "_" a
              (Py.rstrip_by Py.isspace s) Hal false) as [s1 ->].
  destruct (sub_runs_prefix Py.isspace "_" a s1 Hsp false) as [s2 ->].
  destruct (180 <? String.length (a +:+ s2)); [|now exists s2].
  unfold Py.slice_to. rewrite (substring_prefix a s2 180 Hlen). now eexists.
Qed.

Lemma digit_safe (c : ascii) : Py.isdigit c = true -> safe_char c = true.
Proof.
  unfold safe_char, Py.isword, Py.isalnum, Py.isdigit. now intros ->.
Qed.

Lemma strptime_valid (s : string) (dt : datetime) :
  strptime s = Some dt -> valid_datetime dt = true.
Proof.
  unfold strptime. destruct (_ && _); [|discriminate].
  repeat (destruct (Py.parse_digits _); [|discriminate]).
  match goal with
  | |- context [valid_datetime ?d] => destruct (valid_datetime d) eqn:E
  end; [|discriminate].
  now intros [= <-].
Qed.

Lemma strftime_Ymd_shape (dt : datetime) :
  valid_datetime dt = true ->
  chars_all (fun c => safe_char c = true) (strftime_Ymd dt)
  /\ String.length (strftime_Ymd dt) = 8.
Proof.
  intros Hv. split.
  - unfold strftime_Ymd. rewrite !chars_all_append.
    repeat split; (eapply chars_all_impl; [exact digit_safe|]);
      apply format_0d_digits.
  - destruct (valid_datetime_bounds dt Hv) as (Hy & Hmo & Hd & _).
    destruct (format_4_shape _ Hy) as (y1 & y2 & y3 & y4 & Ey & _).
    destruct (format_2_shape _ Hmo) as (m1 & m2 & Emo & _).
    destruct (format_2_shape _ Hd) as (d1 & d2 & Ed & _).
    unfold strftime_Ymd. now rewrite Ey, Emo, Ed.
Qed.

(** The stored name of a row starts as its code does, up to the type. *)
Lemma stored_name_keeps_counter (dt : datetime) (n : nat) (ty ext : string) :
  valid_datetime dt = true -> n < 100 * 100 ->
  exists s' : string,
    safe_filename (code_text (strftime_Ymd dt) n ty +:+ ext)
    = code_text (strftime_Ymd dt) n s'.
Proof.
  intros Hv Hn. destruct (strftime_Ymd_shape dt Hv) as (Hsafe & Hlen).
  set (a := strftime_Ymd dt +:+ "_" +:+ Py.format_0d 4 n +:+ "_").
  assert (Hcode : forall t, code_text (strftime_Ymd dt) n t = a +:+ t).
  { intros t. unfold code_text, a. now rewrite !append_assoc. }
  rewrite Hcode, append_assoc.
  destruct (safe_filename_prefix a (ty +:+ ext)) as [s' Hs'].
  - unfold a. destruct (strftime_Ymd dt); discriminate.
  - unfold a. rewrite !chars_all_append.
    refine (conj Hsafe (conj _ (conj _ _))).
    + split; [reflexivity | exact I].
    + eapply chars_all_impl; [exact digit_safe | apply format_0d_digits].
    + split; [reflexivity | exact I].
  - unfold a. rewrite !append_length, Hlen, (format_4_length n Hn). cbn. lia.
  - exists s'. now rewrite Hcode.
Qed.

Section EvidenceReachable.

Context {FS : Type} {file_system : FileSystem FS}
        {page_writer : PageWriter}.

Lemma watch_keeps_sequence (active : option string) (watch_on : bool)
    (form : intake_form) (clock : nat -> datetime) (watch_seen : list string)
    (w : World) :
  codes_in_sequence (w_db w) ->
  codes_in_sequence
    (w_db (snd (screen_dashboard_watch active watch_on form clock watch_seen
                  w))).
Proof.
  intros Hinv. unfold screen_dashboard_watch.
  destruct active as [sid|]; [|exact Hinv].
  rewrite fetch_eq.
  destruct (Sql.select_session sid (w_db w)); [|exact Hinv].
  destruct watch_on; [|exact Hinv].
  set (w1 := mkWorld (w_db w) (ensured (w_fs w))).
  assert (Hw1 : codes_in_sequence
                  (w_db (snd (watch_tick sid form clock watch_seen w1)))).
  { unfold watch_tick, bind. cbn [get_fs].
    destruct (watch_new_files _ _ _ _) as [new_files seen].
    destruct new_files as [|f new_files]; [exact Hinv|].
    match goal with
    | |- context [ingest_paths ?a ?b ?c ?d ?e ?f ?g ?h ?i w1] =>
        pose proof (ingest_paths_keeps_sequence a b c d e f g h i w1 Hinv)
          as Hk;
        destruct (ingest_paths a b c d e f g h i w1) as [[n|e'] w2]
    end; exact Hk. }
  destruct (watch_tick sid form clock watch_seen w1) as [[seen'|e] w2];
    exact Hw1.
Qed.

Lemma perform_keeps_sequence (a : action) (w : World) :
  codes_in_sequence (w_db w) -> codes_in_sequence (w_db (perform a w)).
Proof.
  intros Hinv. destruct a as [now l n | now sid | sid fp ch cb dv rm ds lk ck
                             | sid lp | act form ck seen]; cbn [perform].
  - destruct (Sql.select_session (strftime_session_id now) (w_db w))
      as [old|] eqn:Hsel.
    + now rewrite (create_session_taken now l n w old Hsel).
    + destruct (create_session_free now l n w Hsel)
        as (w' & -> & Hs & _ & _ & He & _).
      cbn [snd]. intros sid i r Hi. unfold evidence_rows_of in Hi.
      rewrite He in Hi. destruct (Hinv sid i r Hi) as (row & dt & Hrow & Hrest).
      exists row, dt. split; [|exact Hrest].
      exact (select_session_app sid (w_db w) (w_db w') _ row Hs Hrow).
  - rewrite end_session_eq. cbn [snd w_db].
    intros sid' i r Hi. unfold evidence_rows_of in Hi. cbn [evidence] in Hi.
    destruct (Hinv sid' i r Hi) as (row & dt & Hrow & Hdt & Hrest).
    exists (ended now sid row), dt. split; [|split; [|exact Hrest]].
    + now apply (select_session_ended now sid sid' (w_db w)).
    + now rewrite ended_started_at.
  - now apply ingest_paths_keeps_sequence.
  - now rewrite generate_pdf_report_db.
  - now apply watch_keeps_sequence.
Qed.

Lemma booted_no_evidence (fs : FS) : evidence (w_db (booted fs)) = [].
Proof. reflexivity. Qed.

Lemma reachable_in_sequence (fs : FS) (history : list action) :
  codes_in_sequence (w_db (perform_all history (booted fs))).
Proof.
  unfold perform_all. rewrite <- fold_left_rev_right.
  induction (rev history) as [|a l IH]; cbn [fold_right].
  - intros sid i r Hi. unfold evidence_rows_of in Hi.
    rewrite booted_no_evidence in Hi. discriminate Hi.
  - now apply perform_keeps_sequence.
Qed.

(** X2.  In every world the operations lead to, the evidence rows of a
    session are numbered in the order they were recorded: the code of row
    [i] carries the start date of its session and the number [i + 1], with
    no gap and no repeat, so no two rows of a session have the same code. *)
Theorem evidence_codes_distinct (fs : FS) (history : list action)
    (sid : string) :
  let d := w_db (perform_all history (booted fs)) in
  (forall (i : nat) (r : evidence_row),
     evidence_rows_of sid d !! i = Some r ->
     exists (row : session_row) (dt : datetime),
       Sql.select_session sid d = Some row
       /\ strptime (started_at row) = Some dt
       /\ evidence_code r
          = code_text (strftime_Ymd dt) (i + 1) (Py.upper (evidence_type r)))
  /\ NoDup (map evidence_code (evidence_rows_of sid d)).
Proof.
  intros d. pose proof (reachable_in_sequence fs history) as Hinv.
  fold d in Hinv. split.
  - intros i r Hi. destruct (Hinv sid i r Hi) as (row & dt & H1 & H2 & H3 & _).
    now exists row, dt.
  - apply NoDup_alt. intros i j x Hi Hj.
    rewrite list_lookup_fmap in Hi, Hj.
    destruct (evidence_rows_of sid d !! i) as [ri|] eqn:Ei; [|discriminate].
    destruct (evidence_rows_of sid d !! j) as [rj|] eqn:Ej; [|discriminate].
    cbn in Hi, Hj. injection Hi as Hi. injection Hj as Hj.
    destruct (Hinv sid i ri Ei) as (row & dt & Hrow & Hdt & Hci & _).
    destruct (Hinv sid j rj Ej) as (row' & dt' & Hrow' & Hdt' & Hcj & _).
    rewrite Hrow in Hrow'. injection Hrow' as <-.
    rewrite Hdt in Hdt'. injection Hdt' as <-.
    assert (Hn : i + 1 = j + 1); [|lia].
    apply (code_text_counter (strftime_Ymd dt) _ _
             (Py.upper (evidence_type ri)) (Py.upper (evidence_type rj))
             "" "").
    rewrite !append_nil_r. congruence.
Qed.

(** X3.  In every world the operations lead to, a session with fewer than
    ten thousand evidence rows has no two rows with the same stored name:
    the sanitizing keeps the date and the number at the head of the name. *)
Theorem stored_names_distinct (fs : FS) (history : list action)
    (sid : string) :
  let d := w_db (perform_all history (booted fs)) in
  Sql.count_evidence sid d < 100 * 100 ->
  NoDup (map stored_name (evidence_rows_of sid d)).
Proof.
  intros d Hcount. pose proof (reachable_in_sequence fs history) as Hinv.
  fold d in Hinv.
  assert (Hname : forall i r,
            evidence_rows_of sid d !! i = Some r ->
            exists (row : session_row) (dt : datetime) (s' : string),
              Sql.select_session sid d = Some row
              /\ strptime (started_at row) = Some dt
              /\ stored_name r = code_text (strftime_Ymd dt) (i + 1) s').
  { intros i r Hi.
    destruct (Hinv sid i r Hi) as (row & dt & Hrow & Hdt & Hc & Hs).
    assert (Hi' : i + 1 < 100 * 100).
    { apply lookup_lt_Some in Hi. unfold Sql.count_evidence in Hcount.
      unfold evidence_rows_of in Hi. lia. }
    destruct (stored_name_keeps_counter dt (i + 1)
                (Py.upper (evidence_type r))
                (Py.join "" (suffixes (original_name r)))
                (strptime_valid _ _ Hdt) Hi') as [s' Hs'].
    exists row, dt, s'. refine (conj Hrow (conj Hdt _)).
    now rewrite Hs, Hc. }
  apply NoDup_alt. intros i j x Hi Hj.
  rewrite list_lookup_fmap in Hi, Hj.
  destruct (evidence_rows_of sid d !! i) as [ri|] eqn:Ei; [|discriminate].
  destruct (evidence_rows_of sid d !! j) as [rj|] eqn:Ej; [|discriminate].
  cbn in Hi, Hj. injection Hi as Hi. injection Hj as Hj.
  destruct (Hname i ri Ei) as (row & dt & si & Hrow & Hdt & Hni).
  destruct (Hname j rj Ej) as (row' & dt' & sj & Hrow' & Hdt' & Hnj).
  rewrite Hrow in Hrow'. injection Hrow' as <-.
  rewrite Hdt in Hdt'. injection Hdt' as <-.
  assert (Hn : i + 1 = j + 1); [|lia].
  apply (code_text_counter (strftime_Ymd dt) _ _ si sj "" "").
  rewrite !append_nil_r. congruence.
Qed.

End EvidenceReachable.

Lemma stored_names_distinct_witness :
  NoDup (map stored_name
           (evidence_rows_of Demo.sid0
              (w_db (perform_all
                       [CreateSession Demo.now0 " Old Mill " "";
                        Ingest Demo.sid0 Demo.files0 "AUTO" None None None
                               None None Demo.clock0]
                       (booted MemFS.fs0))))).
Proof.
  apply (stored_names_distinct MemFS.fs0
           [CreateSession Demo.now0 " Old Mill " "";
            Ingest Demo.sid0 Demo.files0 "AUTO" None None None None None
                   Demo.clock0] Demo.sid0).
  apply Nat.ltb_lt. vm_compute. reflexivity.
Defined.

(** ** Timestamps are ordered as the moments they stand for *)










Lemma year_unpadded_table :
  forallb year_unpadded (seq 1000 (S MAXYEAR - 1000)) = true.
Proof. vm_compute. reflexivity. Qed.

(** From the year 1000 on the year has four digits, so padding it to four
    writes the same text as not padding it. *)
Lemma format_year_unpadded (dt : datetime) :
  valid_datetime dt = true -> 1000 <= year dt ->
  Py.format_0d 4 (year dt) = Py.str_of_nat (year dt).
Proof.
  intros Hv Hy. destruct (valid_datetime_bounds dt Hv) as (Hmax & _).
  pose proof year_unpadded_table as Ht. rewrite forallb_forall in Ht.
  apply String.eqb_eq. apply (Ht (year dt)). apply in_seq.
  unfold MAXYEAR in *. lia.
Qed.



(** ** Sanitizing twice *)

(** X5.  Sanitizing a name that is already sanitized changes nothing, and
    the names that sanitizing leaves alone are exactly those of at most 180
    characters that are all alphanumeric, underscore, hyphen or dot. *)
Theorem safe_filename_idempotent (name : string) :
  safe_filename (safe_filename name) = safe_filename name
  /\ (safe_filename name = name
      <-> chars_all (fun c => safe_char c = true) name
          /\ String.length name <= 180).
Proof.
  split.
  - apply safe_filename_id; [apply safe_filename_chars|].
    apply safe_filename_length.
  - split.
    + intros E. rewrite <- E.
      split; [apply safe_filename_chars | apply safe_filename_length].
    + intros [Hc Hl]. now apply safe_filename_id.
Qed.

(** ** The equipment catalogue of [init_db] *)

Section InitDb.

Context {FS : Type} {file_system : FileSystem FS}
        {page_writer : PageWriter}.

(** X6.  [init_db] never raises and touches the equipment table only.  On
    an empty table it writes the six default items, in the order of the
    list, with the ids 1 to 6; a table that has a row is left as it is, so
    running [init_db] again changes no table. *)
Theorem init_db_seeds_once (w : World) :
  let w' := snd (init_db w) in
  fst (init_db w) = Ok tt
  /\ same_but_equipment (w_db w) (w_db w')
  /\ (equipment (w_db w) = [] ->
      map (fun r => (equipment_name r, gear_id r)) (equipment (w_db w'))
      = DEFAULT_EQUIPMENT
      /\ map equipment_id (equipment (w_db w')) = seq 1 6)
  /\ (equipment (w_db w) <> [] -> w_db w' = w_db w)
  /\ w_db (snd (init_db w')) = w_db w'.
Proof.
  destruct w as [[ss ls es vs qs ql ts] fs].
  destruct qs as [|q qs]; cbv zeta;
    refine (conj eq_refl (conj _ (conj _ (conj _ _)))).
  - unfold same_but_equipment. vm_compute. repeat split.
  - intros _. split; vm_compute; reflexivity.
  - intros H. now contradiction H.
  - vm_compute. reflexivity.
  - unfold same_but_equipment. vm_compute. repeat split.
  - intros H. discriminate H.
  - intros _. reflexivity.
  - reflexivity.
Qed.

End InitDb.

Lemma init_db_seeds_once_witness :
  map gear_id (equipment (w_db Demo.w_init))
  = ["EMF-01"; "EMF-02"; "IR-01"; "VR-01"; "SB-01"; "TH-01"].
Proof.
  destruct (init_db_seeds_once (mkWorld empty_db MemFS.fs0))
    as (_ & _ & Hseed & _).
  destruct (Hseed eq_refl) as [Hnames _].
  change (map gear_id (equipment (w_db Demo.w_init)))
    with (map snd (map (fun r => (equipment_name r, gear_id r))
                       (equipment (w_db (snd (init_db (mkWorld empty_db
                                                         MemFS.fs0))))))).
  rewrite Hnames. reflexivity.
Defined.

(** ** The first code of a new session *)

Lemma select_session_new (sid : string) (d d' : DB) (r : session_row) :
  Sql.select_session sid d = None ->
  sessions d' = sessions d ++ [r] -> session_id r = sid ->
  Sql.select_session sid d' = Some r.
Proof.
  unfold Sql.select_session. intros Hnone -> Hid.
  induction (sessions d) as [|x rest IH].
  - cbn. now rewrite Hid, String.eqb_refl.
  - cbn [List.find app] in Hnone |- *.
    destruct (String.eqb (session_id x) sid); [discriminate Hnone|].
    now apply IH.
Qed.

Section FirstCode.

Context {FS : Type} {file_system : FileSystem FS}
        {page_writer : PageWriter}.

Lemma no_rows_without_session (d : DB) (sid : string) :
  codes_in_sequence d -> Sql.select_session sid d = None ->
  Sql.count_evidence sid d = 0.
Proof.
  intros Hinv Hnone. unfold Sql.count_evidence.
  change (List.filter _ (evidence d)) with (evidence_rows_of sid d).
  destruct (evidence_rows_of sid d) as [|r rows] eqn:E; [reflexivity|].
  destruct (Hinv sid 0 r) as (row & _ & Hrow & _); [now rewrite E|].
  rewrite Hnone in Hrow. discriminate Hrow.
Qed.

(** X7.  In a world the operations lead to, a session created at a moment
    whose identifier is free gets, for its first file, the code made of the
    date of that moment, the number 0001 and the type in capitals: the start
    time that [create_session] stores is read back by [evidence_code_for]. *)
Theorem first_code_of_new_session (fs : FS) (history : list action)
    (now : datetime) (location notes ty : string) :
  let w := perform_all history (booted fs) in
  let sid := strftime_session_id now in
  valid_datetime now = true ->
  Sql.select_session sid (w_db w) = None ->
  exists w1 w2 : World,
    create_session now location notes w = (Ok sid, w1)
    /\ evidence_code_for sid ty w1
       = (Ok (strftime_Ymd now +:+ "_0001_" +:+ Py.upper ty), w2).
Proof.
  intros w sid Hv Hnone.
  destruct (create_session_free now location notes w Hnone)
    as (w1 & Hrun & Hs & _ & _ & He & _).
  pose proof (select_session_new sid (w_db w) (w_db w1) _ Hnone Hs eq_refl)
    as Hsel.
  destruct (evidence_code_for_ok sid ty w1 _ now Hsel (strptime_fmt_ts now Hv))
    as (w2 & Hcode & _).
  exists w1, w2. split; [exact Hrun|]. rewrite Hcode. do 2 f_equal.
  assert (Hc : Sql.count_evidence sid (w_db w1) = 0).
  { unfold Sql.count_evidence. rewrite He.
    apply (no_rows_without_session (w_db w) sid); [|exact Hnone].
    apply reachable_in_sequence. }
  rewrite Hc. reflexivity.
Qed.

End FirstCode.

Lemma first_code_of_new_session_witness :
  exists w2 : World,
    evidence_code_for Demo.sid0 "video" Demo.w_session
    = (Ok "20240309_0001_VIDEO", w2).
Proof.
  destruct (first_code_of_new_session MemFS.fs0 [] Demo.now0 " Old Mill " ""
              "video") as (w1 & w2 & Hrun & Hcode);
    [reflexivity | reflexivity |].
  exists w2. unfold Demo.w_session.
  change Demo.w_init with (perform_all [] (booted MemFS.fs0)).
  rewrite Hrun. exact Hcode.
Defined.

(** ** Elapsed time *)

Lemma clamped_whole_seconds (span : Z) (us : nat) :
  us < 1000 * 1000 ->
  (let secs := (span * 1000000 + Z.of_nat us) ÷ 1000000 in
   if secs <? 0 then 0 else secs)%Z = Z.max 0 span.
Proof.
  intros Hus. cbv zeta.
  destruct (Z.leb_spec 0 span) as [Hs|Hs].
  - rewrite Z.quot_div_nonneg by lia.
    rewrite Z.div_add_l, Z.div_small by lia.
    destruct (Z.ltb_spec (span + 0) 0); lia.
  - set (delta := (span * 1000000 + Z.of_nat us)%Z).
    assert (Hd : (delta < 0)%Z) by (unfold delta; lia).
    replace delta with (- - delta)%Z by lia.
    rewrite Z.quot_opp_l by lia.
    rewrite Z.quot_div_nonneg by lia.
    pose proof (Z.div_pos (- delta) 1000000 ltac:(lia) ltac:(lia)).
    destruct (Z.ltb_spec (- (- delta / 1000000)) 0); lia.
Qed.

Lemma valid_datetime_spec (dt : datetime) :
  valid_datetime dt = true ->
  1 <= year dt /\ 1 <= month dt <= 12
  /\ 1 <= day dt <= days_in_month (year dt) (month dt)
  /\ hour dt < 24 /\ minute dt < 60 /\ second dt < 60.
Proof.
  unfold valid_datetime. rewrite !andb_true_iff.
  rewrite !Nat.leb_le, !Nat.ltb_lt. tauto.
Qed.

Lemma days_before_year_succ (y : nat) :
  1 <= y ->
  days_before_year (S y)
  = days_before_year y + 365 + (if is_leap y then 1 else 0).
Proof.
  intros Hy. unfold days_before_year, is_leap. cbv zeta.
  replace (S y - 1) with y by lia.
  pose proof (Nat.div_mod_eq y 4) as A4.
  pose proof (Nat.mod_upper_bound y 4 ltac:(lia)) as B4.
  pose proof (Nat.div_mod_eq (y - 1) 4) as A4'.
  pose proof (Nat.mod_upper_bound (y - 1) 4 ltac:(lia)) as B4'.
  pose proof (Nat.div_mod_eq y 100) as A100.
  pose proof (Nat.mod_upper_bound y 100 ltac:(lia)) as B100.
  pose proof (Nat.div_mod_eq (y - 1) 100) as A100'.
  pose proof (Nat.mod_upper_bound (y - 1) 100 ltac:(lia)) as B100'.
  pose proof (Nat.div_mod_eq y 400) as A400.
  pose proof (Nat.mod_upper_bound y 400 ltac:(lia)) as B400.
  pose proof (Nat.div_mod_eq (y - 1) 400) as A400'.
  pose proof (Nat.mod_upper_bound (y - 1) 400 ltac:(lia)) as B400'.
  assert (D4 : y / 4 = (y - 1) / 4 + (if y mod 4 =? 0 then 1 else 0)).
  { destruct (Nat.eqb_spec (y mod 4) 0); lia. }
  assert (D100 : y / 100 = (y - 1) / 100 + (if y mod 100 =? 0 then 1 else 0)).
  { destruct (Nat.eqb_spec (y mod 100) 0); lia. }
  assert (D400 : y / 400 = (y - 1) / 400 + (if y mod 400 =? 0 then 1 else 0)).
  { destruct (Nat.eqb_spec (y mod 400) 0); lia. }
  assert (M1 : y mod 100 = 0 -> y mod 4 = 0) by lia.
  assert (M2 : y mod 400 = 0 -> y mod 100 = 0) by lia.
  assert (L : (y - 1) / 100 <= (y - 1) / 4) by lia.
  rewrite D4, D100, D400.
  destruct (Nat.eqb_spec (y mod 4) 0) as [H4|H4];
    destruct (Nat.eqb_spec (y mod 100) 0) as [H100|H100];
    destruct (Nat.eqb_spec (y mod 400) 0) as [H400|H400];
    cbn [andb orb negb]; lia.
Qed.

Lemma days_before_year_mono (y y' : nat) :
  1 <= y -> y <= y' -> days_before_year y <= days_before_year y'.
Proof.
  intros Hy Hle. induction Hle as [|y' Hle IH]; [lia|].
  rewrite (days_before_year_succ y') by lia. lia.
Qed.

Lemma days_before_month_step (y m : nat) :
  1 <= m <= 11 ->
  days_before_month y m + days_in_month y m = days_before_month y (S m).
Proof.
  intros Hm. unfold days_before_month, days_in_month.
  do 12 (destruct m as [|m]; [destruct (is_leap y); cbn; lia|]). lia.
Qed.

Lemma days_before_month_mono (y m m' : nat) :
  1 <= m -> m <= m' -> m' <= 12 ->
  days_before_month y m <= days_before_month y m'.
Proof.
  intros Hm Hle. induction Hle as [|m' Hle IH]; [lia|]. intros H12.
  rewrite <- (days_before_month_step y m') by lia. lia.
Qed.

Lemma days_of_year_bound (y m d : nat) :
  1 <= m <= 12 -> d <= days_in_month y m ->
  days_before_month y m + d <= 365 + (if is_leap y then 1 else 0).
Proof.
  intros Hm Hd. revert Hd. unfold days_before_month, days_in_month.
  do 13 (destruct m as [|m]; [destruct (is_leap y); cbn; lia|]). lia.
Qed.

(** The number of the day grows with the date. *)
Lemma toordinal_compare (a b : datetime) :
  valid_datetime a = true -> valid_datetime b = true ->
  (toordinal a ?= toordinal b)
  = lex (year a ?= year b) (lex (month a ?= month b) (day a ?= day b)).
Proof.
  intros Ha Hb.
  apply valid_datetime_spec in Ha as (Hy & Hm & Hd & _).
  apply valid_datetime_spec in Hb as (Hy' & Hm' & Hd' & _).
  unfold toordinal. destruct a as [y m d ? ? ?], b as [y' m' d' ? ? ?].
  cbn [year month day] in *.
  assert (Hlt : forall y m d y' m' d',
            1 <= y -> 1 <= m <= 12 -> 1 <= d <= days_in_month y m ->
            1 <= m' <= 12 -> 1 <= d' <= days_in_month y' m' ->
            y < y' ->
            days_before_year y + days_before_month y m + d
            < days_before_year y' + days_before_month y' m' + d').
  { clear. intros y m d y' m' d' Hy Hm Hd Hm' Hd' Hlt.
    pose proof (days_of_year_bound y m d Hm ltac:(lia)) as H1.
    pose proof (days_before_year_succ y Hy) as H2.
    pose proof (days_before_year_mono (S y) y' ltac:(lia) ltac:(lia)) as H3.
    lia. }
  assert (Hmlt : forall y m d m' d',
            1 <= m <= 12 -> 1 <= d <= days_in_month y m ->
            1 <= m' <= 12 -> 1 <= d' -> m < m' ->
            days_before_month y m + d < days_before_month y m' + d').
  { clear. intros y m d m' d' Hm Hd Hm' Hd' Hlt.
    pose proof (days_before_month_step y m ltac:(lia)) as H1.
    pose proof (days_before_month_mono y (S m) m' ltac:(lia) ltac:(lia)
                  ltac:(lia)) as H2.
    lia. }
  destruct (Nat.compare_spec y y') as [Ey|Ey|Ey]; cbn [lex].
  - subst y'. destruct (Nat.compare_spec m m') as [Em|Em|Em]; cbn [lex].
    + subst m'. destruct (Nat.compare_spec d d') as [Ed|Ed|Ed].
      * apply Nat.compare_eq_iff. lia.
      * apply Nat.compare_lt_iff. lia.
      * apply Nat.compare_gt_iff. lia.
    + apply Nat.compare_lt_iff.
      pose proof (Hmlt y m d m' d' Hm Hd Hm' ltac:(lia) Em). lia.
    + apply Nat.compare_gt_iff.
      pose proof (Hmlt y m' d' m d Hm' Hd' Hm ltac:(lia) Em). lia.
  - apply Nat.compare_lt_iff. exact (Hlt y m d y' m' d' Hy Hm Hd Hm' Hd' Ey).
  - apply Nat.compare_gt_iff. exact (Hlt y' m' d' y m d Hy' Hm' Hd' Hm Hd Ey).
Qed.

Lemma seconds_of_day_compare (a b : datetime) :
  valid_datetime a = true -> valid_datetime b = true ->
  (seconds_of_day a ?= seconds_of_day b)
  = lex (hour a ?= hour b)
      (lex (minute a ?= minute b) (second a ?= second b)).
Proof.
  intros Ha Hb.
  apply valid_datetime_spec in Ha as (_ & _ & _ & Hh & Hmi & Hs).
  apply valid_datetime_spec in Hb as (_ & _ & _ & Hh' & Hmi' & Hs').
  unfold seconds_of_day.
  destruct (Nat.compare_spec (hour a) (hour b)) as [E|E|E]; cbn [lex].
  - destruct (Nat.compare_spec (minute a) (minute b)) as [E'|E'|E'];
      cbn [lex].
    + destruct (Nat.compare_spec (second a) (second b)) as [E''|E''|E''].
      * apply Nat.compare_eq_iff. lia.
      * apply Nat.compare_lt_iff. lia.
      * apply Nat.compare_gt_iff. lia.
    + apply Nat.compare_lt_iff. lia.
    + apply Nat.compare_gt_iff. lia.
  - apply Nat.compare_lt_iff. lia.
  - apply Nat.compare_gt_iff. lia.
Qed.

(** The span between two moments is positive, zero or negative as the
    first is after, at or before the second. *)
Lemma seconds_between_sign (a b : datetime) :
  valid_datetime a = true -> valid_datetime b = true ->
  (seconds_between a b ?= 0)%Z = datetime_compare a b.
Proof.
  intros Ha Hb. unfold datetime_compare.
  pose proof (toordinal_compare a b Ha Hb) as Ho.
  pose proof (seconds_of_day_compare a b Ha Hb) as Hs.
  assert (Hlex : forall c1 c2 c3 c4 c5 c6 : comparison,
            lex c1 (lex c2 (lex c3 (lex c4 (lex c5 c6))))
            = lex (lex c1 (lex c2 c3)) (lex c4 (lex c5 c6))).
  { intros [] [] [] [] [] []; reflexivity. }
  rewrite Hlex, <- Ho, <- Hs. clear Ho Hs Hlex.
  assert (Ba : seconds_of_day a < 24 * 3600).
  { apply valid_datetime_spec in Ha as (_ & _ & _ & Hh & Hmi & Hse).
    unfold seconds_of_day. lia. }
  assert (Bb : seconds_of_day b < 24 * 3600).
  { apply valid_datetime_spec in Hb as (_ & _ & _ & Hh & Hmi & Hse).
    unfold seconds_of_day. lia. }
  unfold seconds_between.
  destruct (Nat.compare_spec (toordinal a) (toordinal b)) as [E|E|E];
    cbn [lex].
  - destruct (Nat.compare_spec (seconds_of_day a) (seconds_of_day b))
      as [E'|E'|E'].
    + apply Z.compare_eq_iff. lia.
    + apply Z.compare_lt_iff. lia.
    + apply Z.compare_gt_iff. lia.
  - apply Z.compare_lt_iff. lia.
  - apply Z.compare_gt_iff. lia.
Qed.

(** X8.  For a start time as the program writes it, for a moment from the
    year 1000 on, and a span to now of less than 2^34 seconds (some 544
    years, within which the division in floating point of the source gives
    the whole seconds exactly), the elapsed time is written as hours,
    minutes and seconds with minutes and seconds below sixty; they add up
    to the whole seconds from the start to now, whatever the microseconds
    of now, and all three are zero when now is not after the start. *)
Theorem session_elapsed_str_decodes (now started : datetime)
    (microsecond : nat) :
  valid_datetime started = true -> 1000 <= year started ->
  valid_datetime now = true ->
  microsecond < 1000 * 1000 ->
  (seconds_between now started < 2 ^ 34)%Z ->
  Py.format_0d 4 (year started) = Py.str_of_nat (year started)
  /\ exists h m s : nat,
       session_elapsed_str now microsecond (fmt_ts started)
       = Ok (Py.format_0d 2 h +:+ ":" +:+ Py.format_0d 2 m +:+ ":"
             +:+ Py.format_0d 2 s)
       /\ m < 60 /\ s < 60
       /\ Z.of_nat (h * 3600 + m * 60 + s)
          = Z.max 0 (seconds_between now started)
       /\ (Z.of_nat (h * 3600 + m * 60 + s) < 2 ^ 34)%Z
       /\ (datetime_compare now started <> Gt -> h = 0 /\ m = 0 /\ s = 0).
Proof.
  intros Hvs Hyear Hv Hus Hspan.
  split; [now apply format_year_unpadded|].
  pose proof (strptime_fmt_ts started Hvs) as Hp.
  unfold session_elapsed_str. rewrite Hp.
  pose proof (clamped_whole_seconds (seconds_between now started) microsecond
                Hus) as Hc.
  cbv zeta in Hc |- *. rewrite Hc.
  pose proof (seconds_between_sign now started Hv Hvs) as Hsign.
  set (span := seconds_between now started) in *.
  set (secs := Z.max 0 span).
  assert (Hs : (0 <= secs)%Z) by (unfold secs; lia).
  eexists _, _, _. split; [reflexivity|].
  pose proof (Z.div_mod secs 3600 ltac:(lia)) as H1.
  pose proof (Z.mod_pos_bound secs 3600 ltac:(lia)) as H2.
  pose proof (Z.div_mod (secs mod 3600) 60 ltac:(lia)) as H3.
  pose proof (Z.mod_pos_bound (secs mod 3600) 60 ltac:(lia)) as H4.
  pose proof (Z.div_pos secs 3600 Hs ltac:(lia)) as H5.
  pose proof (Z.div_pos (secs mod 3600) 60 ltac:(lia) ltac:(lia)) as H6.
  assert (H7 : ((secs mod 3600) mod 60 = secs mod 60)%Z).
  { clear. Z.to_euclidean_division_equations. lia. }
  rewrite H7 in H3, H4.
  pose proof (Z.mod_pos_bound secs 60 ltac:(lia)) as H8.
  assert (Hsum : Z.of_nat (Z.to_nat (secs / 3600) * 3600
                           + Z.to_nat (secs mod 3600 / 60) * 60
                           + Z.to_nat (secs mod 60)) = secs) by lia.
  refine (conj _ (conj _ (conj Hsum (conj _ _)))); try lia.
  intros Hle.
  assert (Hz : secs = 0%Z).
  { unfold secs. destruct (Z.compare_spec span 0) as [E|E|E]; try lia.
    now rewrite <- Hsign in Hle. }
  rewrite Hz in *. cbn. repeat split; reflexivity.
Qed.

Lemma session_elapsed_str_decodes_witness :
  session_elapsed_str (Demo.clock0 7) 750 "2024-03-09 21:43:05"
  = Ok "02:17:02".
Proof.
  destruct (session_elapsed_str_decodes (Demo.clock0 7) Demo.now0 750)
    as (_ & h & m & s & Hrun & _).
  - reflexivity.
  - apply Nat.leb_le. vm_compute. reflexivity.
  - reflexivity.
  - apply Nat.ltb_lt. vm_compute. reflexivity.
  - vm_compute. reflexivity.
  - vm_compute. reflexivity.
Defined.

(** ** Wrapped paragraphs *)

Lemma eqb_empty_false (s : string) : s <> "" -> String.eqb s "" = false.
Proof. intros Hs. now apply String.eqb_neq. Qed.

Lemma split_ws_from_proper (s : string) :
  forall cur : string,
    chars_all (fun c => Py.isspace c = false) cur ->
    Forall proper_word (Py.split_ws_from cur s).
Proof.
  induction s as [|c s IH]; intros cur Hcur; cbn [Py.split_ws_from].
  - destruct (String.eqb_spec cur ""); [constructor|].
    constructor; [now split | constructor].
  - destruct (Py.isspace c) eqn:Hc.
    + destruct (String.eqb_spec cur "").
      * now apply IH.
      * constructor; [now split | now apply IH].
    + apply IH. apply chars_all_append. split; [exact Hcur|]. now split.
Qed.

Lemma split_ws_proper (s : string) : Forall proper_word (Py.split_ws s).
Proof. now apply split_ws_from_proper. Qed.

Lemma split_ws_from_word (w : string) :
  chars_all (fun c => Py.isspace c = false) w ->
  forall cur s : string,
    Py.split_ws_from cur (w +:+ s) = Py.split_ws_from (cur +:+ w) s.
Proof.
  induction w as [|c w IH]; intros Hw cur s.
  - now rewrite append_nil_r.
  - destruct Hw as [Hc Hw].
    change (Py.split_ws_from cur (String c (w +:+ s))
            = Py.split_ws_from (cur +:+ String c w) s).
    cbn [Py.split_ws_from]. rewrite Hc, (IH Hw), append_assoc. reflexivity.
Qed.

Lemma join_cons (w : string) (ws : list string) :
  ws <> [] -> Py.join " " (w :: ws) = w +:+ " " +:+ Py.join " " ws.
Proof. destruct ws; [contradiction | reflexivity]. Qed.

Lemma join_snoc (lw : list string) (w : string) :
  lw <> [] -> Py.join " " (lw ++ [w]) = Py.join " " lw +:+ " " +:+ w.
Proof.
  induction lw as [|x lw IH]; [contradiction|]. intros _.
  destruct lw as [|y lw]; [reflexivity|].
  change ((x :: y :: lw) ++ [w]) with (x :: ((y :: lw) ++ [w])).
  rewrite join_cons by (now destruct lw).
  rewrite IH by discriminate.
  rewrite (join_cons x (y :: lw)) by discriminate.
  now rewrite !append_assoc.
Qed.

Lemma split_ws_join (ws : list string) :
  Forall proper_word ws -> Py.split_ws (Py.join " " ws) = ws.
Proof.
  unfold Py.split_ws. induction 1 as [|w ws [Hne Hw] Hws IH]; [reflexivity|].
  destruct ws as [|w' ws].
  - change (Py.join " " [w]) with w.
    rewrite <- (append_nil_r w) at 1. rewrite (split_ws_from_word w Hw).
    cbn [Py.split_ws_from]. change ("" +:+ w) with w.
    now rewrite (eqb_empty_false w Hne).
  - rewrite join_cons by discriminate.
    rewrite (split_ws_from_word w Hw).
    change ("" +:+ w) with w.
    change (" " +:+ Py.join " " (w' :: ws))
      with (String " " (Py.join " " (w' :: ws))).
    cbn [Py.split_ws_from]. change (Py.isspace " ") with true. cbv iota.
    rewrite (eqb_empty_false w Hne). f_equal. exact IH.
Qed.

Lemma rstrip_append_fixed (p : ascii -> bool) (a b : string) :
  b <> "" -> Py.rstrip_by p b = b -> Py.rstrip_by p (a +:+ b) = a +:+ b.
Proof.
  intros Hb Hfix. induction a as [|c a IH]; [exact Hfix|].
  change (Py.rstrip_by p (String c (a +:+ b)) = String c (a +:+ b)).
  cbn [Py.rstrip_by]. rewrite IH.
  destruct (a +:+ b) eqn:E; [|reflexivity].
  destruct a; [cbn in E; contradiction | discriminate E].
Qed.

Lemma join_proper_head (w : string) (ws : list string) :
  proper_word w ->
  exists (c : ascii) (t : string),
    Py.join " " (w :: ws) = String c t /\ Py.isspace c = false.
Proof.
  intros [Hne Hw]. destruct w as [|c w]; [contradiction|].
  destruct Hw as [Hc _]. destruct ws as [|w' ws].
  - now exists c, w.
  - rewrite join_cons by discriminate. eexists c, _. split; [reflexivity|].
    exact Hc.
Qed.

(** What [wrap_words] tries next is the line with one more word. *)
Lemma strip_line_word (lw : list string) (w : string) :
  Forall proper_word lw -> proper_word w ->
  Py.strip (Py.join " " lw +:+ " " +:+ w) = Py.join " " (lw ++ [w]).
Proof.
  intros Hlw [Hne Hw]. unfold Py.strip. destruct lw as [|x lw].
  - change (Py.join " " [] +:+ " " +:+ w) with (String " " w).
    cbn [Py.lstrip_by]. change (Py.isspace " ") with true. cbv iota.
    rewrite (lstrip_none _ _ Hw). exact (rstrip_none _ _ Hw).
  - rewrite join_snoc by discriminate.
    destruct (join_proper_head x lw) as (c & t & E & Hc);
      [now inversion Hlw|].
    assert (Hl : Py.lstrip_by Py.isspace (Py.join " " (x :: lw) +:+ " " +:+ w)
                 = Py.join " " (x :: lw) +:+ " " +:+ w).
    { rewrite E.
      change (String c t +:+ " " +:+ w) with (String c (t +:+ " " +:+ w)).
      cbn [Py.lstrip_by]. now rewrite Hc. }
    rewrite Hl, <- append_assoc.
    rewrite rstrip_append_fixed; [reflexivity | exact Hne|].
    exact (rstrip_none _ _ Hw).
Qed.

Lemma join_proper_nonempty (w : string) (ws : list string) :
  proper_word w -> Py.join " " (w :: ws) <> "".
Proof.
  intros Hw. destruct (join_proper_head w ws Hw) as (c & t & -> & _).
  discriminate.
Qed.

Section WrappedText.

Context {page_writer : PageWriter}.

Lemma drawn_texts_app (ops1 ops2 : list canvas_op) :
  drawn_texts (ops1 ++ ops2) = drawn_texts ops1 ++ drawn_texts ops2.
Proof. apply omap_app. Qed.

Lemma draw_line_texts (indent dy : Z) (line : string) (c : pen) :
  drawn_texts (pen_ops (draw_line indent dy line c))
  = drawn_texts (pen_ops c) ++ [line].
Proof.
  unfold draw_line. destruct (pen_y c <? inches 110)%Z;
    cbn [move emit top_of_page pen_ops pen_y];
    rewrite !drawn_texts_app; cbn; now rewrite ?app_nil_r.
Qed.

Lemma wrap_words_texts (max_width indent : Z) (words : list string) :
  forall (line : string) (c : pen),
    drawn_texts (pen_ops (snd (wrap_words max_width indent words line c)))
    ++ (if String.eqb (fst (wrap_words max_width indent words line c)) ""
        then [] else [fst (wrap_words max_width indent words line c)])
    = drawn_texts (pen_ops c) ++ wrap_lines max_width words line.
Proof.
  induction words as [|w rest IH]; intros line c;
    cbn [wrap_words wrap_lines]; [reflexivity|].
  destruct (stringWidth _ _ _ <=? max_width)%Z; [apply IH|].
  rewrite IH, draw_line_texts, <- app_assoc. reflexivity.
Qed.

Lemma draw_wrapped_texts (text : string) (indent : Z) (c : pen) :
  drawn_texts (pen_ops (draw_wrapped text indent c))
  = drawn_texts (pen_ops c) ++ wrapped_texts text indent.
Proof.
  unfold draw_wrapped, wrapped_texts.
  pose proof (wrap_words_texts (width - x_margin * 2 - indent) indent
                (Py.split_ws text) "" c) as H.
  destruct (wrap_words _ indent (Py.split_ws text) "" c) as [line c'].
  cbn [fst snd] in H. rewrite <- H.
  destruct (String.eqb line ""); [now rewrite app_nil_r|].
  apply draw_line_texts.
Qed.

Lemma wrap_lines_words (max_width : Z) (words : list string) :
  forall lw : list string,
    Forall proper_word words -> Forall proper_word lw ->
    concat (map Py.split_ws (wrap_lines max_width words (Py.join " " lw)))
    = lw ++ words.
Proof.
  induction words as [|w rest IH]; intros lw Hws Hlw; cbn [wrap_lines].
  - rewrite app_nil_r. destruct lw as [|x lw]; [reflexivity|].
    rewrite eqb_empty_false
      by (apply join_proper_nonempty; now inversion Hlw).
    cbn [map concat]. rewrite app_nil_r. now apply split_ws_join.
  - inversion Hws as [|? ? Hw Hrest]; subst.
    rewrite (strip_line_word lw w Hlw Hw).
    destruct (stringWidth _ _ _ <=? max_width)%Z.
    + rewrite (IH (lw ++ [w]) Hrest); [now rewrite <- app_assoc|].
      apply Forall_app. split; [exact Hlw | now constructor].
    + cbn [map concat]. rewrite (split_ws_join lw Hlw).
      change w with (Py.join " " [w]) at 1.
      rewrite (IH [w] Hrest); [reflexivity | now constructor].
Qed.

Lemma wrap_lines_fit (max_width : Z) (all : list string)
    (words : list string) :
  forall line : string,
    (forall w, In w words -> In w all) ->
    line = "" \/ In line all \/ fits max_width line ->
    Forall (fun l => l = "" \/ In l all \/ fits max_width l)
           (wrap_lines max_width words line).
Proof.
  induction words as [|w rest IH]; intros line Hin Hline; cbn [wrap_lines].
  - destruct (String.eqb line ""); constructor; [exact Hline | constructor].
  - destruct (Z.leb_spec (stringWidth (Py.strip (line +:+ " " +:+ w))
                                      "Helvetica" 10) max_width) as [Hf|Hf].
    + apply IH; [|now right; right].
      intros w' Hw'. apply Hin. now right.
    + constructor; [exact Hline|]. apply IH.
      * intros w' Hw'. apply Hin. now right.
      * right. left. apply Hin. now left.
Qed.

(** X9.  Whatever the widths and wherever the pen is, [draw_wrapped] adds
    to the canvas lines that hold the words of the text, all of them, in
    their order: splitting the drawn lines gives the words back. *)
Theorem draw_wrapped_keeps_words (text : string) (indent : Z) (c : pen) :
  exists lines : list string,
    drawn_texts (pen_ops (draw_wrapped text indent c))
    = drawn_texts (pen_ops c) ++ lines
    /\ concat (map Py.split_ws lines) = Py.split_ws text.
Proof.
  exists (wrapped_texts text indent). split; [apply draw_wrapped_texts|].
  unfold wrapped_texts.
  exact (wrap_lines_words _ (Py.split_ws text) [] (split_ws_proper text)
           (List.Forall_nil _)).
Qed.

(** X10.  Every line [draw_wrapped] draws is within the width left of the
    margins and the indent, unless it is one word of the text by itself, or
    the empty line that is drawn when the first word is too wide. *)
Theorem draw_wrapped_lines_fit (text : string) (indent : Z) (c : pen) :
  exists lines : list string,
    drawn_texts (pen_ops (draw_wrapped text indent c))
    = drawn_texts (pen_ops c) ++ lines
    /\ Forall (fun l => l = "" \/ In l (Py.split_ws text)
                        \/ fits (width - x_margin * 2 - indent) l) lines.
Proof.
  exists (wrapped_texts text indent). split; [apply draw_wrapped_texts|].
  unfold wrapped_texts. apply wrap_lines_fit; [trivial | now left].
Qed.

End WrappedText.

(** ** The page *)

Lemma within_margins_refl (c : pen) :
  (pen_y c <= height - inches 75)%Z -> within_margins c c.
Proof.
  intros Hy. split; [exact Hy|]. exists []. now rewrite app_nil_r.
Qed.

Lemma within_margins_trans (c1 c2 c3 : pen) :
  within_margins c1 c2 -> within_margins c2 c3 -> within_margins c1 c3.
Proof.
  intros (_ & m1 & E1 & F1) (Hy & m2 & E2 & F2). split; [exact Hy|].
  exists (m1 ++ m2). split; [now rewrite E2, E1, app_assoc|].
  apply Forall_app. now split.
Qed.

Ltac page_numbers :=
  change (inches 110) with 7920%Z in *;
  change (inches 130) with 9360%Z in *;
  change (height - inches 75)%Z with 73800%Z in *;
  change (inches 18) with 1296%Z in *;
  change (inches 22) with 1584%Z in *;
  change (inches 30) with 2160%Z in *.

Section Page.

Context {page_writer : PageWriter}.

Lemma draw_line_within (indent dy : Z) (line : string) (c : pen) :
  (0 <= dy)%Z -> (pen_y c <= height - inches 75)%Z ->
  within_margins c (draw_line indent dy line c).
Proof.
  intros Hdy Hy. unfold draw_line, within_margins.
  destruct (Z.ltb_spec (pen_y c) (inches 110)) as [Hlow|Hlow];
    cbn [move emit top_of_page pen_ops pen_y].
  - split; [lia|]. eexists. rewrite <- !app_assoc. split; [reflexivity|].
    repeat constructor; page_numbers; lia.
  - split; [lia|]. eexists. split; [reflexivity|].
    repeat constructor; lia.
Qed.

Lemma section_title_within (title : string) (c : pen) :
  (pen_y c <= height - inches 75)%Z ->
  within_margins c (section_title title c).
Proof.
  intros Hy. unfold section_title, within_margins.
  destruct (Z.ltb_spec (pen_y c) (inches 130)) as [Hlow|Hlow];
    cbn [move emit top_of_page pen_ops pen_y].
  - split; [page_numbers; lia|]. eexists. rewrite <- !app_assoc.
    split; [reflexivity|]. repeat constructor; page_numbers; lia.
  - split; [page_numbers; lia|]. eexists. rewrite <- !app_assoc.
    split; [reflexivity|]. repeat constructor; page_numbers; lia.
Qed.

Lemma wrap_words_within (max_width indent : Z) (words : list string) :
  forall (line : string) (c : pen),
    (pen_y c <= height - inches 75)%Z ->
    within_margins c (snd (wrap_words max_width indent words line c)).
Proof.
  induction words as [|w rest IH]; intros line c Hy; cbn [wrap_words].
  - now apply within_margins_refl.
  - destruct (stringWidth _ _ _ <=? max_width)%Z; [now apply IH|].
    pose proof (draw_line_within indent (inches 18) line c
                  ltac:(page_numbers; lia) Hy) as H1.
    eapply within_margins_trans; [exact H1|]. apply IH. apply H1.
Qed.

Lemma draw_wrapped_within (text : string) (indent : Z) (c : pen) :
  (pen_y c <= height - inches 75)%Z ->
  within_margins c (draw_wrapped text indent c).
Proof.
  intros Hy. unfold draw_wrapped.
  pose proof (wrap_words_within (width - x_margin * 2 - indent) indent
                (Py.split_ws text) "" c Hy) as H.
  destruct (wrap_words _ indent (Py.split_ws text) "" c) as [line c'].
  cbn [snd] in H. destruct (String.eqb line ""); [exact H|].
  eapply within_margins_trans; [exact H|].
  apply draw_line_within; [page_numbers; lia | apply H].
Qed.

Lemma draw_all_within {A : Type} (f : A -> pen -> pen) (rows : list A) :
  (forall r c, (pen_y c <= height - inches 75)%Z -> within_margins c (f r c)) ->
  forall c : pen,
    (pen_y c <= height - inches 75)%Z -> within_margins c (draw_all f rows c).
Proof.
  intros Hf. unfold draw_all.
  induction rows as [|r rows IH]; intros c Hy; cbn [fold_left].
  - now apply within_margins_refl.
  - eapply within_margins_trans; [exact (Hf r c Hy)|].
    apply IH. apply (Hf r c Hy).
Qed.

Lemma draw_timeline_entry_eq (t : report_entry) (c : pen) :
  draw_timeline_entry t c = draw_wrapped (timeline_line t) 0 c.
Proof. now destruct t as [[ts kind] text]. Qed.

Lemma draw_timeline_entry_within (t : report_entry) (c : pen) :
  (pen_y c <= height - inches 75)%Z ->
  within_margins c (draw_timeline_entry t c).
Proof. rewrite draw_timeline_entry_eq. apply draw_wrapped_within. Qed.

Lemma draw_evidence_within (ev : evidence_row) (c : pen) :
  (pen_y c <= height - inches 75)%Z -> within_margins c (draw_evidence ev c).
Proof.
  intros Hy. unfold draw_evidence.
  match goal with
  | |- context [draw_wrapped ?t 0 c] =>
      pose proof (draw_wrapped_within t 0 c Hy) as H1
  end.
  destruct (omap _ _) as [|m meta]; [exact H1|].
  eapply within_margins_trans; [exact H1|].
  apply draw_wrapped_within. apply H1.
Qed.

Lemma draw_equipment_within (row : equipment_log_row) (c : pen) :
  (pen_y c <= height - inches 75)%Z ->
  within_margins c (draw_equipment row c).
Proof. apply draw_wrapped_within. Qed.

Lemma draw_tracker_within (t : tracker_row) (c : pen) :
  (pen_y c <= height - inches 75)%Z -> within_margins c (draw_tracker t c).
Proof. apply draw_wrapped_within. Qed.

Lemma page_ok_step (c c' : pen) :
  page_ok c -> within_margins c c' -> page_ok c'.
Proof.
  intros [_ Hops] (Hy & more & E & Hmore). split; [exact Hy|].
  rewrite E. apply Forall_app. now split.
Qed.

Lemma section_title_ok (title : string) (c : pen) :
  page_ok c -> page_ok (section_title title c).
Proof.
  intros Hc. apply (page_ok_step c _ Hc). apply section_title_within. apply Hc.
Qed.

Lemma draw_wrapped_ok (text : string) (indent : Z) (c : pen) :
  page_ok c -> page_ok (draw_wrapped text indent c).
Proof.
  intros Hc. apply (page_ok_step c _ Hc). apply draw_wrapped_within. apply Hc.
Qed.

Lemma draw_all_ok {A : Type} (f : A -> pen -> pen) (rows : list A) (c : pen) :
  (forall r c, (pen_y c <= height - inches 75)%Z -> within_margins c (f r c)) ->
  page_ok c -> page_ok (draw_all f rows c).
Proof.
  intros Hf Hc. apply (page_ok_step c _ Hc). apply draw_all_within; [exact Hf|].
  apply Hc.
Qed.

(** X11.  Whatever the session holds, every string of the report is drawn
    between 1.1 inch above the bottom edge and 0.75 inch below the top edge
    of its page: the pen is moved to a new page before it gets lower. *)
Theorem report_within_margins (sid : string) (session : session_row)
    (logs : list log_row) (events : list event_row)
    (evidence : list evidence_row) (equip : list equipment_log_row)
    (tracker : list tracker_row) (logo : option Path) :
  Forall in_margins
         (render_report sid session logs events evidence equip tracker logo).
Proof.
  unfold render_report. cbv zeta.
  match goal with
  | |- Forall in_margins (pen_ops (emit Save ?c)) =>
      assert (Hc : page_ok c);
        [|cbn [emit pen_ops]; apply Forall_app; split;
          [apply Hc | repeat constructor]]
  end.
  repeat match goal with
         | |- page_ok (section_title _ _) => apply section_title_ok
         | |- page_ok (draw_wrapped _ _ _) => apply draw_wrapped_ok
         | |- page_ok (draw_all draw_timeline_entry _ _) =>
             apply draw_all_ok; [exact draw_timeline_entry_within|]
         | |- page_ok (draw_all draw_evidence _ _) =>
             apply draw_all_ok; [exact draw_evidence_within|]
         | |- page_ok (draw_all draw_equipment _ _) =>
             apply draw_all_ok; [exact draw_equipment_within|]
         | |- page_ok (draw_all draw_tracker _ _) =>
             apply draw_all_ok; [exact draw_tracker_within|]
         | |- page_ok (match ?l with [] => _ | _ :: _ => _ end) => destruct l
         end;
  destruct logo;
    (split;
     [vm_compute; intros H; discriminate H
     |unfold move, emit; cbn [pen_ops pen_y app];
      repeat (apply Forall_cons; split); try apply List.Forall_nil;
      try exact I; unfold in_margins; vm_compute;
      split; intros H; discriminate H]).
Qed.

End Page.

(** ** The timeline in the report *)

Section ReportTexts.

Context {page_writer : PageWriter}.

Lemma wrapped_texts_words (text : string) (indent : Z) :
  concat (map Py.split_ws (wrapped_texts text indent)) = Py.split_ws text.
Proof.
  unfold wrapped_texts.
  exact (wrap_lines_words _ (Py.split_ws text) [] (split_ws_proper text)
           (List.Forall_nil _)).
Qed.

Lemma section_title_texts (title : string) (c : pen) :
  drawn_texts (pen_ops (section_title title c))
  = drawn_texts (pen_ops c) ++ [title].
Proof.
  unfold section_title. destruct (pen_y c <? inches 130)%Z;
    cbn [move emit top_of_page pen_ops pen_y];
    rewrite !drawn_texts_app; cbn; now rewrite ?app_nil_r.
Qed.

Lemma draw_timeline_texts (timeline : list report_entry) :
  forall c : pen,
    drawn_texts (pen_ops (draw_all draw_timeline_entry timeline c))
    = drawn_texts (pen_ops c)
      ++ flat_map (fun t => wrapped_texts (timeline_line t) 0) timeline.
Proof.
  unfold draw_all. induction timeline as [|t rest IH]; intros c;
    cbn [fold_left flat_map]; [now rewrite app_nil_r|].
  rewrite IH, draw_timeline_entry_eq, draw_wrapped_texts, <- app_assoc.
  reflexivity.
Qed.

Lemma texts_extend_refl (c : pen) : texts_extend c c.
Proof. exists []. now rewrite app_nil_r. Qed.

Lemma texts_extend_trans (c1 c2 c3 : pen) :
  texts_extend c1 c2 -> texts_extend c2 c3 -> texts_extend c1 c3.
Proof.
  intros [m1 E1] [m2 E2]. exists (m1 ++ m2). now rewrite E2, E1, app_assoc.
Qed.

Lemma section_title_extends (a : pen) (title : string) (c : pen) :
  texts_extend a c -> texts_extend a (section_title title c).
Proof.
  intros H. apply (texts_extend_trans a c _ H). eexists.
  apply section_title_texts.
Qed.

Lemma draw_wrapped_extends (a : pen) (text : string) (indent : Z) (c : pen) :
  texts_extend a c -> texts_extend a (draw_wrapped text indent c).
Proof.
  intros H. apply (texts_extend_trans a c _ H). eexists.
  apply draw_wrapped_texts.
Qed.

Lemma draw_all_extends {A : Type} (f : A -> pen -> pen) (rows : list A)
    (a : pen) :
  (forall r c, texts_extend a c -> texts_extend a (f r c)) ->
  forall c : pen, texts_extend a c -> texts_extend a (draw_all f rows c).
Proof.
  intros Hf. unfold draw_all. induction rows as [|r rows IH]; intros c Hc;
    cbn [fold_left]; [exact Hc|].
  apply IH. now apply Hf.
Qed.

Lemma draw_evidence_extends (a : pen) (ev : evidence_row) (c : pen) :
  texts_extend a c -> texts_extend a (draw_evidence ev c).
Proof.
  intros H. unfold draw_evidence. destruct (omap _ _).
  - now apply draw_wrapped_extends.
  - now do 2 apply draw_wrapped_extends.
Qed.

Lemma flat_map_words (timeline : list report_entry) :
  concat (map Py.split_ws
            (flat_map (fun t => wrapped_texts (timeline_line t) 0) timeline))
  = flat_map (fun t => Py.split_ws (timeline_line t)) timeline.
Proof.
  induction timeline as [|t rest IH]; [reflexivity|]. cbn [flat_map].
  rewrite map_app, concat_app, IH, wrapped_texts_words. reflexivity.
Qed.

(** X12.  Whatever the session holds, the report starts with its title and
    the four lines of the session, then has the title of the timeline, then
    the entries of the timeline, oldest first, each wrapped into lines that
    hold all its words in order, and then the title of the evidence list. *)
Theorem report_shows_timeline (sid : string) (session : session_row)
    (logs : list log_row) (events : list event_row)
    (evidence : list evidence_row) (equip : list equipment_log_row)
    (tracker : list tracker_row) (logo : option Path) :
  let body :=
    flat_map (fun t => wrapped_texts (timeline_line t) 0)
             (report_timeline events logs) in
  (exists rest : list string,
     drawn_texts
       (render_report sid session logs events evidence equip tracker logo)
     = ["Investigation Report Draft";
        "Session ID: " +:+ sid;
        "Started: " +:+ started_at session;
        "Ended: " +:+ or_dash (ended_at session);
        "Location: " +:+ or_dash (location session);
        "Timeline (Events + Notes)"]
       ++ body ++ "Evidence List" :: rest)
  /\ concat (map Py.split_ws body)
     = flat_map (fun t => Py.split_ws (timeline_line t))
                (report_timeline events logs).
Proof.
  intros body. split; [|apply flat_map_words].
  unfold render_report. cbv zeta.
  match goal with
  | |- context [section_title "Timeline (Events + Notes)" ?c] =>
      set (header := c)
  end.
  set (a := section_title "Evidence List" _).
  match goal with
  | |- context [pen_ops (emit Save ?c)] => assert (Hext : texts_extend a c)
  end.
  { repeat match goal with
           | |- texts_extend ?x ?x => apply texts_extend_refl
           | |- texts_extend _ (section_title _ _) =>
               apply section_title_extends
           | |- texts_extend _ (draw_wrapped _ _ _) =>
               apply draw_wrapped_extends
           | |- texts_extend _ (draw_all draw_evidence _ _) =>
               apply draw_all_extends; [intros; now apply draw_evidence_extends|]
           | |- texts_extend _ (draw_all _ _ _) =>
               apply draw_all_extends;
                 [intros; now apply draw_wrapped_extends|]
           | |- texts_extend _ (match ?l with [] => _ | _ :: _ => _ end) =>
               destruct l
           end. }
  destruct Hext as [rest Hrest]. exists rest.
  cbn [emit pen_ops]. rewrite drawn_texts_app, Hrest. cbn [drawn_texts omap].
  unfold a. rewrite section_title_texts, draw_timeline_texts,
    section_title_texts.
  assert (Hh : drawn_texts (pen_ops header)
               = ["Investigation Report Draft";
                  "Session ID: " +:+ sid;
                  "Started: " +:+ started_at session;
                  "Ended: " +:+ or_dash (ended_at session);
                  "Location: " +:+ or_dash (location session)]).
  { unfold header. now destruct logo. }
  rewrite Hh. fold body. rewrite app_nil_r, <- !app_assoc. reflexivity.
Qed.

End ReportTexts.

(** ** The timeline of the dashboard *)

Lemma order_by_desc_limit_all {A : Type} (key : A -> string) (n : nat)
    (rows : list A) :
  length rows <= n -> Sql.order_by_desc_limit key n rows ≡ₚ rows.
Proof.
  intros Hn. unfold Sql.order_by_desc_limit.
  rewrite firstn_all2.
  - now rewrite rev_perm, sort_by_perm, rev_perm.
  - rewrite length_rev, (Permutation_length (sort_by_perm key (rev rows))),
      length_rev. exact Hn.
Qed.

Lemma elem_of_firstn {A : Type} (n : nat) (l : list A) (x : A) :
  x ∈ firstn n l -> x ∈ l.
Proof.
  intros H. apply elem_of_take in H as (i & Hi & _).
  apply list_elem_of_lookup. now exists i.
Qed.

Lemma order_by_desc_limit_elem {A : Type} (key : A -> string) (n : nat)
    (rows : list A) (x : A) :
  x ∈ Sql.order_by_desc_limit key n rows -> x ∈ rows.
Proof.
  unfold Sql.order_by_desc_limit. intros Hx.
  apply elem_of_firstn in Hx.
  now rewrite rev_perm, sort_by_perm, rev_perm in Hx.
Qed.

Section DashboardTimeline.

Context {FS : Type} {file_system : FileSystem FS}
        {page_writer : PageWriter}.

(** X13.  The timeline of the dashboard lists at most 150 entries, newest
    first, all of them events and notes of the session in the store, and
    reading it changes no table.  When the session has at most 100 events
    and at most 200 notes, the entries listed are the newest of the session:
    together with the entries left out they are all its entries, and none
    left out is newer than one listed. *)
Theorem dashboard_timeline_newest (w : World) (sid : string) :
  exists (shown : list dashboard_entry) (w' : World),
    screen_dashboard_timeline sid w = (Ok shown, w')
    /\ w_db w' = w_db w
    /\ length shown <= 150
    /\ StronglySorted (key_ge (fun t => snd (fst t))) shown
    /\ (forall t, t ∈ shown -> t ∈ session_entries sid (w_db w))
    /\ (length (session_events sid (w_db w)) <= 100 ->
        length (session_logs sid (w_db w)) <= 200 ->
        exists hidden : list dashboard_entry,
          shown ++ hidden ≡ₚ session_entries sid (w_db w)
          /\ forall t u, t ∈ shown -> u ∈ hidden ->
               str_le (snd (fst u)) (snd (fst t))).
Proof.
  unfold screen_dashboard_timeline, bind. rewrite !fetch_eq. cbn [w_db].
  eexists _, _. split; [reflexivity|]. split; [reflexivity|].
  set (d := w_db w).
  set (es := Sql.recent_events_of sid 100 d).
  set (ls := Sql.recent_logs_of sid 200 d).
  pose proof (py_sort_descending (fun t : dashboard_entry => snd (fst t))
                (map event_entry es ++ map log_entry ls)) as Hsorted.
  change (py_sort _ true _) with (dashboard_timeline es ls) in Hsorted.
  rewrite <- (firstn_skipn 150 (dashboard_timeline es ls)) in Hsorted.
  apply StronglySorted_app in Hsorted as (Hcross & Hs1 & _).
  refine (conj _ (conj Hs1 (conj _ _))).
  - unfold dashboard_shown. rewrite length_firstn. lia.
  - intros t Ht. unfold dashboard_shown in Ht.
    apply elem_of_firstn in Ht.
    unfold dashboard_timeline in Ht. rewrite py_sort_perm in Ht.
    unfold session_entries. apply elem_of_app in Ht as [Ht|Ht];
      apply elem_of_app; [left|right];
      apply list_elem_of_fmap in Ht as (r & -> & Hr);
      apply list_elem_of_fmap; exists r; (split; [reflexivity|]);
      exact (order_by_desc_limit_elem _ _ _ _ Hr).
  - intros He Hl. exists (skipn 150 (dashboard_timeline es ls)). split.
    + unfold dashboard_shown. rewrite firstn_skipn.
      unfold dashboard_timeline. rewrite py_sort_perm.
      unfold session_entries, es, ls, Sql.recent_events_of,
        Sql.recent_logs_of.
      apply Permutation_app; apply Permutation_map;
        now apply order_by_desc_limit_all.
    + intros t u Ht Hu. exact (Hcross t u Ht Hu).
Qed.

End DashboardTimeline.

(** ** The report of a session that is in the store *)

Section ReportFound.

Context {FS : Type} {file_system : FileSystem FS}
        {page_writer : PageWriter}.

(** X14.  For a session that is in the store [generate_pdf_report] does
    not raise: it saves one canvas as [Report_<id>.pdf] in the reports
    folder of the session, returns that path and changes no table.  The
    canvas is drawn from the rows of that session only; its timeline is made
    of all the events and notes of the session and of nothing else, sorted
    by their timestamps. *)
Theorem generate_pdf_report_found (w : World) (sid : string)
    (row : session_row) (logo_path : option Path) :
  Sql.select_session sid (w_db w) = Some row ->
  let d := w_db w in
  let path := SESSIONS_DIR // sid // "reports" // ("Report_" +:+ sid +:+ ".pdf") in
  let timeline := report_timeline (Sql.events_of sid d) (Sql.logs_of sid d) in
  (exists (fs1 : FS) (logo : option Path),
     generate_pdf_report sid logo_path w
     = (Ok path,
        mkWorld d
          (fs_save_canvas path
             (render_report sid row (Sql.logs_of sid d) (Sql.events_of sid d)
                (Sql.evidence_of sid d) (Sql.equipment_log_of sid d)
                (Sql.tracker_of sid d) logo)
             fs1))
     /\ (logo = None \/ logo = logo_path))
  /\ timeline ≡ₚ map report_event_entry (session_events sid d)
                 ++ map report_log_entry (session_logs sid d)
  /\ StronglySorted (key_le (fun t => fst (fst t))) timeline.
Proof.
  intros Hsel d path timeline. split; [|split].
  - unfold generate_pdf_report, bind. rewrite fetch_eq, Hsel.
    rewrite !fetch_eq. cbn [w_db w_fs].
    destruct (get_session_folder_eq sid
                (mkWorld (w_db w)
                   (ensured (ensured (ensured (ensured (ensured
                      (ensured (w_fs w)))))))))
      as (w0 & Hf & Hdb0).
    rewrite Hf. cbn [get_fs update_fs ret].
    destruct w0 as [d0 fs0]. cbn [w_db w_fs] in *. subst d0.
    eexists fs0, _. split; [reflexivity|].
    destruct logo_path as [lp|]; [|now left].
    destruct (fs_exists fs0 lp && fs_image_ok fs0 lp); [now right | now left].
  - unfold timeline, report_timeline. rewrite py_sort_perm.
    unfold Sql.events_of, Sql.logs_of, Sql.order_by_asc.
    apply Permutation_app; apply Permutation_map; apply sort_by_perm.
  - apply py_sort_ascending.
Qed.

End ReportFound.

Lemma generate_pdf_report_found_witness :
  exists w' : World,
    generate_pdf_report Demo.sid0 None Demo.w_session
    = (Ok (SESSIONS_DIR // Demo.sid0 // "reports"
           // "Report_20240309_214305.pdf"), w').
Proof.
  destruct (generate_pdf_report_found Demo.w_session Demo.sid0 Demo.row0 None)
    as ((fs1 & logo & Hrun & _) & _); [reflexivity|].
  eexists. exact Hrun.
Defined.

(** ** The tracker *)

Lemma is_team_key (sid label : string) (r : tracker_row) :
  is_team sid label r = true <-> tracker_key r = (sid, label).
Proof.
  unfold is_team, tracker_key. rewrite andb_true_iff, !String.eqb_eq.
  split; [now intros [-> ->] | now intros [= -> ->]].
Qed.

Lemma nodup_map_inj {A B : Type} (f : A -> B) (l : list A) (x y : A) :
  NoDup (map f l) -> In x l -> In y l -> f x = f y -> x = y.
Proof.
  induction l as [|a l IH]; intros Hnd Hx Hy E; [contradiction|].
  cbn [map] in Hnd. apply NoDup_cons in Hnd as [Ha Hnd].
  destruct Hx as [->|Hx], Hy as [->|Hy]; [reflexivity| | |now apply IH].
  - exfalso. apply Ha. rewrite E. apply list_elem_of_In. now apply in_map.
  - exfalso. apply Ha. rewrite <- E. apply list_elem_of_In. now apply in_map.
Qed.

Lemma filter_none {A : Type} (p : A -> bool) (l : list A) :
  (forall x, In x l -> p x = false) -> List.filter p l = [].
Proof.
  induction l as [|a l IH]; intros H; [reflexivity|]. cbn [List.filter].
  rewrite (H a (or_introl eq_refl)). apply IH. intros x Hx. apply H. now right.
Qed.

Lemma find_team_filter (sid label : string) (l : list tracker_row)
    (r0 : tracker_row) :
  NoDup (map tracker_key l) ->
  List.find (is_team sid label) l = Some r0 ->
  List.filter (is_team sid label) l = [r0].
Proof.
  induction l as [|a l IH]; intros Hnd Hf; [discriminate Hf|].
  cbn [map] in Hnd. apply NoDup_cons in Hnd as [Ha Hnd].
  cbn [List.find List.filter] in *.
  destruct (is_team sid label a) eqn:Ht.
  - injection Hf as <-. f_equal. apply filter_none. intros x Hx.
    destruct (is_team sid label x) eqn:Hx'; [|reflexivity].
    exfalso. apply Ha. apply is_team_key in Ht, Hx'. rewrite Ht, <- Hx'.
    apply list_elem_of_In. now apply in_map.
  - now apply IH.
Qed.

Lemma find_team_none (sid label : string) (l : list tracker_row) :
  List.find (is_team sid label) l = None ->
  List.filter (is_team sid label) l = [].
Proof.
  intros Hf. apply filter_none. intros x Hx.
  exact (List.find_none _ _ Hf x Hx).
Qed.

Section UpdatedTeam.

Variables (loc : string) (radio : option string) (support : bool) (id : nat).

Lemma updated_team_key (r : tracker_row) :
  tracker_key (updated_team loc radio support id r) = tracker_key r.
Proof. unfold updated_team. now destruct (tracker_id r =? id). Qed.

Lemma updated_team_id (r : tracker_row) :
  tracker_id (updated_team loc radio support id r) = tracker_id r.
Proof. unfold updated_team. now destruct (tracker_id r =? id). Qed.

Lemma updated_team_is_team (sid label : string) (r : tracker_row) :
  is_team sid label (updated_team loc radio support id r)
  = is_team sid label r.
Proof. unfold updated_team. now destruct (tracker_id r =? id). Qed.

Lemma updated_team_keys (l : list tracker_row) :
  map tracker_key (map (updated_team loc radio support id) l)
  = map tracker_key l.
Proof. rewrite map_map. apply map_ext. apply updated_team_key. Qed.

Lemma updated_team_ids (l : list tracker_row) :
  map tracker_id (map (updated_team loc radio support id) l)
  = map tracker_id l.
Proof. rewrite map_map. apply map_ext. apply updated_team_id. Qed.

End UpdatedTeam.

Lemma updated_team_filter (loc : string) (radio : option string)
    (support : bool) (sid label : string) (l : list tracker_row)
    (r0 : tracker_row) :
  NoDup (map tracker_key l) -> NoDup (map tracker_id l) ->
  List.find (is_team sid label) l = Some r0 ->
  let l' := map (updated_team loc radio support (tracker_id r0)) l in
  List.filter (is_team sid label) l'
  = [mkTracker (tracker_id r0) sid label loc radio support]
  /\ List.filter (fun r => negb (is_team sid label r)) l'
     = List.filter (fun r => negb (is_team sid label r)) l.
Proof.
  intros Hk Hi Hf l'. pose proof (List.find_some _ _ Hf) as [Hin Ht].
  unfold l'. rewrite !filter_map_swap. split.
  - rewrite (List.filter_ext _ (is_team sid label))
      by (intros r; apply updated_team_is_team).
    rewrite (find_team_filter sid label l r0 Hk Hf). cbn [map].
    unfold updated_team. rewrite Nat.eqb_refl.
    apply is_team_key in Ht. unfold tracker_key in Ht.
    injection Ht as -> ->. reflexivity.
  - rewrite (List.filter_ext _ (fun r => negb (is_team sid label r)))
      by (intros r; now rewrite updated_team_is_team).
    rewrite <- (map_id (List.filter _ l)) at 2.
    apply map_ext_in. intros r Hr. apply filter_In in Hr as [Hr Hn].
    unfold updated_team. destruct (Nat.eqb_spec (tracker_id r) (tracker_id r0))
      as [E|_]; [|reflexivity].
    rewrite (nodup_map_inj tracker_id l r r0 Hi Hr Hin E), Ht in Hn.
    discriminate Hn.
Qed.

Lemma max_id_bound (seq : nat) (l : list tracker_row) :
  Forall (fun r => tracker_id r <= seq) l ->
  fold_right Nat.max 0 (map tracker_id l) <= seq.
Proof.
  induction 1 as [|r l Hr _ IH]; cbn [map fold_right]; lia.
Qed.

Lemma same_but_tracker_trans (d1 d2 d3 : DB) :
  same_but_tracker d1 d2 -> same_but_tracker d2 d3 -> same_but_tracker d1 d3.
Proof.
  unfold same_but_tracker.
  intros (E1 & E2 & E3 & E4 & E5 & E6) (F1 & F2 & F3 & F4 & F5 & F6).
  repeat split; congruence.
Qed.

Section Tracker.

Context {FS : Type} {file_system : FileSystem FS}
        {page_writer : PageWriter}.

Lemma save_team_status_blank (sid label loc radio : string) (support : bool)
    (seq : nat) (w : World) :
  Py.strip label = "" \/ Py.strip loc = "" ->
  save_team_status sid label loc radio support seq w = (Ok (false, seq), w).
Proof.
  intros H. unfold save_team_status.
  destruct H as [-> | ->]; [reflexivity|].
  now rewrite orb_true_r.
Qed.

(** What the button does to the world, when it does not warn. *)
Lemma save_team_status_run (sid label loc radio : string) (support : bool)
    (seq : nat) (w : World) :
  Py.strip label <> "" -> Py.strip loc <> "" ->
  let rows := tracker (w_db w) in
  let existing := List.find (is_team sid (Py.strip label)) rows in
  exists w' : World,
    save_team_status sid label loc radio support seq w
    = (Ok (true,
           match existing with
           | Some _ => seq
           | None => SqlTracker.next_tracker_id seq (w_db w)
           end), w')
    /\ same_but_tracker (w_db w) (w_db w')
    /\ tracker (w_db w')
       = match existing with
         | Some r0 =>
             map (updated_team (Py.strip loc) (Py.or_none (Py.strip radio))
                               support (tracker_id r0)) rows
         | None =>
             rows ++ [mkTracker (SqlTracker.next_tracker_id seq (w_db w)) sid
                                (Py.strip label) (Py.strip loc)
                                (Py.or_none (Py.strip radio)) support]
         end.
Proof.
  intros Hlabel Hloc rows existing. unfold save_team_status.
  rewrite (eqb_empty_false _ Hlabel), (eqb_empty_false _ Hloc). cbn [orb].
  unfold bind at 1. rewrite fetch_eq. cbn [w_db].
  unfold SqlTracker.select_tracker_id.
  change (fun r => String.eqb (tracker_session_id r) sid
                   && String.eqb (team_label r) (Py.strip label))
    with (is_team sid (Py.strip label)).
  fold rows. fold existing. destruct existing as [r0|]; cbn [option_map];
    unfold bind;
    match goal with
    | |- context [execute ?stmt ?w0] =>
        rewrite (execute_ok stmt w0 _ eq_refl)
    end;
    cbn [ret w_db w_fs]; eexists; (split; [reflexivity|]);
    cbn [w_db tracker]; (split; [repeat split | reflexivity]).
Qed.

Lemma upsert_keeps_keyed (sid label loc : string) (radio : option string)
    (support : bool) (seq : nat) (d : DB) :
  tracker_keyed seq d ->
  let rows := tracker d in
  forall d' : DB,
    tracker d'
    = match List.find (is_team sid label) rows with
      | Some r0 =>
          map (updated_team loc radio support (tracker_id r0)) rows
      | None =>
          rows ++ [mkTracker (SqlTracker.next_tracker_id seq d) sid label loc
                             radio support]
      end ->
    tracker_keyed
      match List.find (is_team sid label) rows with
      | Some _ => seq
      | None => SqlTracker.next_tracker_id seq d
      end d'.
Proof.
  intros (Hk & Hi & Hle) rows d' Hrows. unfold tracker_keyed. rewrite Hrows.
  subst rows. destruct (List.find (is_team sid label) (tracker d))
    as [r0|] eqn:Hf.
  - rewrite updated_team_keys, updated_team_ids.
    refine (conj Hk (conj Hi _)). apply List.Forall_map.
    eapply List.Forall_impl; [|exact Hle]. intros r Hr.
    now rewrite updated_team_id.
  - pose proof (max_id_bound seq _ Hle) as Hmax.
    assert (Hnew : SqlTracker.next_tracker_id seq d = S seq).
    { unfold SqlTracker.next_tracker_id. lia. }
    rewrite Hnew, !map_app. cbn [map tracker_key tracker_id
                                 tracker_session_id team_label].
    refine (conj _ (conj _ _)).
    + apply NoDup_app. refine (conj Hk (conj _ (NoDup_singleton _))).
      intros k Hk1 Hk2. apply list_elem_of_singleton in Hk2. subst k.
      apply list_elem_of_fmap in Hk1 as (r & Hr1 & Hr2).
      apply list_elem_of_In in Hr2.
      pose proof (List.find_none _ _ Hf r Hr2) as Hn.
      unfold tracker_key at 1 in Hr1.
      cbn [tracker_session_id team_label] in Hr1.
      symmetry in Hr1. apply is_team_key in Hr1. congruence.
    + apply NoDup_app. refine (conj Hi (conj _ (NoDup_singleton _))).
      intros k Hk1 Hk2. apply list_elem_of_singleton in Hk2. subst k.
      apply list_elem_of_fmap in Hk1 as (r & Hr1 & Hr2).
      rewrite List.Forall_forall in Hle. apply list_elem_of_In in Hr2.
      specialize (Hle r Hr2). cbn beta in Hle. lia.
    + apply Forall_app. split.
      * eapply List.Forall_impl; [|exact Hle]. intros r Hr. cbn beta in *.
        lia.
      * constructor; [cbn; lia | constructor].
Qed.

Lemma remove_team_spec (id seq : nat) (w : World) :
  tracker_keyed seq (w_db w) ->
  exists w' : World,
    remove_team id w = (Ok tt, w')
    /\ tracker_keyed seq (w_db w')
    /\ same_but_tracker (w_db w) (w_db w')
    /\ tracker (w_db w')
       = List.filter (fun r => negb (tracker_id r =? id)) (tracker (w_db w)).
Proof.
  intros (Hk & Hi & Hle). unfold remove_team.
  rewrite (execute_ok (SqlTracker.delete_tracker id) w _ eq_refl).
  eexists. split; [reflexivity|].
  cbn [w_db tracker]. refine (conj _ (conj _ eq_refl)); [|repeat split].
  assert (Hsub : forall (B : Type) (f : tracker_row -> B) (p : tracker_row -> bool)
                        (l : list tracker_row),
            map f (List.filter p l) `sublist_of` map f l).
  { intros B f p l. induction l as [|a l IH]; [constructor|].
    cbn [List.filter map]. destruct (p a); cbn [map];
      [now apply sublist_skip | now apply sublist_cons]. }
  refine (conj _ (conj _ _)).
  - exact (sublist_NoDup _ _ Hk (Hsub _ _ _ _)).
  - exact (sublist_NoDup _ _ Hi (Hsub _ _ _ _)).
  - rewrite List.Forall_forall in Hle |- *. intros r Hr.
    apply filter_In in Hr as [Hr _]. now apply Hle.
Qed.

Lemma tracker_step_keyed (a : tracker_action) (seq : nat) (w : World) :
  tracker_keyed seq (w_db w) ->
  tracker_keyed (fst (tracker_step a (seq, w)))
                (w_db (snd (tracker_step a (seq, w))))
  /\ same_but_tracker (w_db w) (w_db (snd (tracker_step a (seq, w)))).
Proof.
  intros Hinv. destruct a as [sid label loc radio support | id];
    cbn [tracker_step fst snd].
  - destruct (String.eqb_spec (Py.strip label) "") as [El|El];
      [|destruct (String.eqb_spec (Py.strip loc) "") as [Eo|Eo]].
    + rewrite save_team_status_blank by now left.
      cbn [fst snd]. split; [exact Hinv | repeat split].
    + rewrite save_team_status_blank by now right.
      cbn [fst snd]. split; [exact Hinv | repeat split].
    + destruct (save_team_status_run sid label loc radio support seq w El Eo)
        as (w' & -> & Hsame & Hrows).
      cbn [fst snd]. split; [|exact Hsame].
      exact (upsert_keeps_keyed sid (Py.strip label) (Py.strip loc)
               (Py.or_none (Py.strip radio)) support seq (w_db w) Hinv
               (w_db w') Hrows).
  - destruct (remove_team_spec id seq w Hinv) as (w' & -> & Hk & Hsame & _).
    cbn [snd]. now split.
Qed.

(** X15.  [Save Team Status] with a label and a location that are not
    blank: afterwards the session has exactly one row for the team of that
    label, with the location, the radio call and the flag given; the rows
    of the other teams are as before; the table grows by one row when the
    team had none, and not at all when it had one.  The table keeps one row
    at most for a team of a session. *)
Theorem save_team_status_upsert (sid label loc radio : string)
    (support : bool) (seq : nat) (w : World) :
  tracker_keyed seq (w_db w) ->
  Py.strip label <> "" -> Py.strip loc <> "" ->
  exists (seq' : nat) (w' : World) (id : nat),
    save_team_status sid label loc radio support seq w = (Ok (true, seq'), w')
    /\ tracker_keyed seq' (w_db w')
    /\ seq <= seq'
    /\ same_but_tracker (w_db w) (w_db w')
    /\ List.filter (is_team sid (Py.strip label)) (tracker (w_db w'))
       = [mkTracker id sid (Py.strip label) (Py.strip loc)
                    (Py.or_none (Py.strip radio)) support]
    /\ List.filter (fun r => negb (is_team sid (Py.strip label) r))
                   (tracker (w_db w'))
       = List.filter (fun r => negb (is_team sid (Py.strip label) r))
                     (tracker (w_db w))
    /\ length (tracker (w_db w'))
       = length (tracker (w_db w))
         + match SqlTracker.select_tracker_id sid (Py.strip label) (w_db w)
           with
           | Some _ => 0
           | None => 1
           end.
Proof.
  intros Hinv Hlabel Hloc.
  destruct (save_team_status_run sid label loc radio support seq w Hlabel
              Hloc) as (w' & Hrun & Hsame & Hrows).
  pose proof (upsert_keeps_keyed sid (Py.strip label) (Py.strip loc)
                (Py.or_none (Py.strip radio)) support seq (w_db w) Hinv
                (w_db w') Hrows) as Hkeyed.
  destruct Hinv as (Hk & Hi & Hle).
  unfold SqlTracker.select_tracker_id.
  change (fun r => String.eqb (tracker_session_id r) sid
                   && String.eqb (team_label r) (Py.strip label))
    with (is_team sid (Py.strip label)).
  cbv zeta in Hrun, Hrows, Hkeyed.
  destruct (List.find (is_team sid (Py.strip label)) (tracker (w_db w)))
    as [r0|] eqn:Hf; cbn [option_map].
  - destruct (updated_team_filter (Py.strip loc) (Py.or_none (Py.strip radio))
                support sid (Py.strip label) (tracker (w_db w)) r0 Hk Hi Hf)
      as [Hteam Hothers].
    exists seq, w', (tracker_id r0). rewrite Hrows.
    refine (conj Hrun (conj Hkeyed (conj (le_n _) (conj Hsame
              (conj Hteam (conj Hothers _)))))).
    rewrite length_map. lia.
  - exists (SqlTracker.next_tracker_id seq (w_db w)), w',
      (SqlTracker.next_tracker_id seq (w_db w)). rewrite Hrows.
    refine (conj Hrun (conj Hkeyed (conj _ (conj Hsame (conj _ (conj _ _)))))).
    + unfold SqlTracker.next_tracker_id. lia.
    + rewrite List.filter_app, (find_team_none _ _ _ Hf).
      cbn [List.filter app]. unfold is_team.
      cbn [tracker_session_id team_label]. now rewrite !String.eqb_refl.
    + rewrite List.filter_app. cbn [List.filter]. unfold is_team at 2.
      cbn [tracker_session_id team_label].
      rewrite !String.eqb_refl. cbn [andb negb]. now rewrite app_nil_r.
    + rewrite length_app. reflexivity.
Qed.

(** X16.  Whatever is saved and removed on the tracker tab, starting from
    a table with one row at most for a team of a session, the table keeps
    one row at most for a team of a session, its ids stay distinct, and the
    other tables are not touched.  A save with a blank label or a blank
    location changes nothing. *)
Theorem tracker_one_row_per_team (history : list tracker_action) (seq : nat)
    (w : World) :
  tracker_keyed seq (w_db w) ->
  let st := tracker_run history (seq, w) in
  NoDup (map tracker_key (tracker (w_db (snd st))))
  /\ NoDup (map tracker_id (tracker (w_db (snd st))))
  /\ same_but_tracker (w_db w) (w_db (snd st))
  /\ forall sid label loc radio support seq0 w0,
       Py.strip label = "" \/ Py.strip loc = "" ->
       tracker_step (SaveTeam sid label loc radio support) (seq0, w0)
       = (seq0, w0).
Proof.
  intros Hinv st.
  assert (Hrun : tracker_keyed (fst st) (w_db (snd st))
                 /\ same_but_tracker (w_db w) (w_db (snd st))).
  { subst st. unfold tracker_run. revert seq w Hinv.
    induction history as [|a rest IH]; intros seq w Hinv; cbn [fold_left].
    - cbn [fst snd]. split; [exact Hinv | repeat split].
    - destruct (tracker_step_keyed a seq w Hinv) as [Hk Hsame].
      destruct (tracker_step a (seq, w)) as [seq1 w1] eqn:E.
      cbn [fst snd] in Hk, Hsame.
      destruct (IH seq1 w1 Hk) as [Hk' Hsame']. split; [exact Hk'|].
      exact (same_but_tracker_trans _ _ _ Hsame Hsame'). }
  destruct Hrun as [(Hk & Hi & _) Hsame].
  refine (conj Hk (conj Hi (conj Hsame _))).
  intros sid label loc radio support seq0 w0 Hblank.
  cbn [tracker_step fst snd]. now rewrite save_team_status_blank.
Qed.

End Tracker.

Lemma save_team_status_upsert_witness :
  exists (seq' : nat) (w' : World),
    save_team_status Demo.sid0 " Team A " "Attic" "" true 0 Demo.w_session
    = (Ok (true, seq'), w')
    /\ length (tracker (w_db w')) = 1.
Proof.
  destruct (save_team_status_upsert Demo.sid0 " Team A " "Attic" "" true 0
              Demo.w_session)
    as (seq' & w' & id & Hrun & _ & _ & _ & _ & _ & Hlen).
  - unfold tracker_keyed. vm_compute. repeat split; constructor.
  - vm_compute. discriminate.
  - vm_compute. discriminate.
  - exists seq', w'. split; [exact Hrun|]. rewrite Hlen.
    vm_compute. reflexivity.
Defined.

Lemma tracker_one_row_per_team_witness :
  NoDup (map tracker_key
           (tracker (w_db (snd (tracker_run
                                  [SaveTeam Demo.sid0 "Team A" "Attic" "" false;
                                   SaveTeam Demo.sid0 " Team A" "Cellar"
                                            "21:43 all clear" true;
                                   SaveTeam Demo.sid0 "Team B" "Hall" "" false;
                                   RemoveTeam 2]
                                  (0, Demo.w_session)))))).
Proof.
  destruct (tracker_one_row_per_team
              [SaveTeam Demo.sid0 "Team A" "Attic" "" false;
               SaveTeam Demo.sid0 " Team A" "Cellar" "21:43 all clear" true;
               SaveTeam Demo.sid0 "Team B" "Hall" "" false;
               RemoveTeam 2]
              0 Demo.w_session) as (H & _); [|exact H].
  unfold tracker_keyed. vm_compute. repeat split; constructor.
Defined.

(** ** The suffix of a file name *)

Lemma rfind_after_dot (stem e : string) :
  Py.rfind "." e = None ->
  Py.rfind "." (stem +:+ "." +:+ e) = Some (String.length stem).
Proof.
  intros He. induction stem as [|c stem IH].
  - change ("" +:+ "." +:+ e) with (String "." e). cbn [Py.rfind].
    now rewrite He.
  - change (String c stem +:+ "." +:+ e) with (String c (stem +:+ "." +:+ e)).
    cbn [Py.rfind String.length]. now rewrite IH.
Qed.

Lemma rfind_last_dot (s : string) :
  Py.endswith_char "." s = true ->
  Py.rfind "." s = Some (String.length s - 1).
Proof.
  induction s as [|c s IH]; [discriminate|]. cbn [Py.endswith_char].
  destruct s as [|d s].
  - intros Hc. cbn [Py.rfind]. now rewrite Hc.
  - intros Hs. cbn [Py.rfind String.length] in IH |- *.
    cbn [Py.rfind] in IH. rewrite (IH Hs). f_equal. lia.
Qed.

Lemma substring_skip (a s : string) (n : nat) :
  String.substring (String.length a) n (a +:+ s) = String.substring 0 n s.
Proof. induction a as [|c a IH]; [reflexivity | exact IH]. Qed.

Lemma slice_from_append (a s : string) :
  Py.slice_from (String.length a) (a +:+ s) = s.
Proof.
  unfold Py.slice_from. rewrite substring_skip, append_length.
  apply substring_whole. lia.
Qed.

(** X17.  The suffix that the type detection looks at: a name without a
    dot, a name that ends in a dot and a name whose only dot is its first
    character have none, so their type is OTHER; in any other name it is
    the text from the last dot on, whatever dots come before, so the type
    of [archive.tar.mp3] is that of [.mp3]. *)
Theorem suffix_is_last_extension :
  (forall name : string,
     Py.rfind "." name = None ->
     suffix name = "" /\ detect_type_from_name name = "OTHER")
  /\ (forall name : string,
        Py.endswith_char "." name = true ->
        suffix name = "" /\ detect_type_from_name name = "OTHER")
  /\ (forall rest : string,
        Py.rfind "." rest = None ->
        suffix ("." +:+ rest) = ""
        /\ detect_type_from_name ("." +:+ rest) = "OTHER")
  /\ (forall stem ext : string,
        stem <> "" -> ext <> "" -> Py.rfind "." ext = None ->
        suffix (stem +:+ "." +:+ ext) = "." +:+ ext
        /\ detect_type_from_name (stem +:+ "." +:+ ext)
           = dict_get EXT_TYPE (Py.lower ("." +:+ ext)) "OTHER").
Proof.
  assert (Hother : forall name, suffix name = "" ->
            suffix name = "" /\ detect_type_from_name name = "OTHER").
  { intros name H. split; [exact H|]. unfold detect_type_from_name.
    now rewrite H. }
  refine (conj _ (conj _ (conj _ _))).
  - intros name H. apply Hother. unfold suffix. now rewrite H.
  - intros name H. apply Hother. unfold suffix.
    rewrite (rfind_last_dot name H), Nat.ltb_irrefl.
    now rewrite andb_false_r.
  - intros rest H. apply Hother. unfold suffix.
    change ("." +:+ rest) with ("" +:+ "." +:+ rest).
    now rewrite (rfind_after_dot "" rest H).
  - intros stem ext Hs He H.
    assert (Hsuf : suffix (stem +:+ "." +:+ ext) = "." +:+ ext).
    { unfold suffix. rewrite (rfind_after_dot stem ext H).
      rewrite slice_from_append.
      assert (H1 : (0 <? String.length stem) = true).
      { apply Nat.ltb_lt. destruct stem; [contradiction | cbn; lia]. }
      assert (H2 : (String.length stem
                    <? String.length (stem +:+ "." +:+ ext) - 1) = true).
      { apply Nat.ltb_lt. rewrite append_length.
        change (String.length ("." +:+ ext)) with (S (String.length ext)).
        destruct ext; [contradiction | cbn; lia]. }
      now rewrite H1, H2. }
    split; [exact Hsuf|]. unfold detect_type_from_name. now rewrite Hsuf.
Qed.

(** ** The scan of a folder *)

Lemma lower_empty (s : string) : Py.lower s = "" -> s = "".
Proof. now destruct s. Qed.

Lemma rfind_get (ch : ascii) (s : string) :
  forall i : nat, Py.rfind ch s = Some i -> String.get i s = Some ch.
Proof.
  induction s as [|c s IH]; intros i; [discriminate|]. cbn [Py.rfind].
  destruct (Py.rfind ch s) as [j|].
  - intros [= <-]. cbn [String.get]. now apply IH.
  - destruct (Ascii.eqb_spec c ch) as [->|_]; [|discriminate].
    now intros [= <-].
Qed.

Lemma substring_head (s : string) :
  forall (i n : nat) (c : ascii),
    String.get i s = Some c ->
    exists t : string, String.substring i (S n) s = String c t.
Proof.
  induction s as [|d s IH]; intros i n c; [now destruct i|].
  destruct i as [|i]; cbn [String.get String.substring].
  - intros [= ->]. now eexists.
  - apply IH.
Qed.

(** A suffix is empty or starts with a dot. *)
Lemma suffix_shape (name : string) :
  suffix name = "" \/ exists t : string, suffix name = String "." t.
Proof.
  unfold suffix. destruct (Py.rfind "." name) as [i|] eqn:Hi; [|now left].
  destruct ((0 <? i) && (i <? String.length name - 1)) eqn:Hc; [|now left].
  right. apply andb_true_iff in Hc as [_ Hc]. apply Nat.ltb_lt in Hc.
  unfold Py.slice_from.
  replace (String.length name - i) with (S (String.length name - i - 1))
    by lia.
  apply substring_head. now apply rfind_get.
Qed.

Lemma filter_all {A : Type} (p : A -> bool) (l : list A) :
  (forall x, In x l -> p x = true) -> List.filter p l = l.
Proof.
  induction l as [|a l IH]; intros H; [reflexivity|]. cbn [List.filter].
  rewrite (H a (or_introl eq_refl)). f_equal. apply IH. intros x Hx.
  apply H. now right.
Qed.

Section ScanFolder.

Context {FS : Type} {file_system : FileSystem FS}
        {page_writer : PageWriter}.

Lemma scan_folder_filter (recursive : bool) (ignore_set : gset string)
    (fs : FS) (p : Path) :
  fs_exists fs p = true -> fs_is_dir fs p = true ->
  scan_folder recursive ignore_set fs p
  = List.filter
      (fun x => bool_decide (Py.lower (suffix (path_name x)) ∉ ignore_set))
      (listed_files recursive fs p).
Proof.
  intros He Hd. unfold scan_folder, listed_files. rewrite He, Hd.
  cbn [negb orb]. destruct (decide (ignore_set = ∅)) as [->|_]; [|reflexivity].
  symmetry. apply filter_all. intros x _. apply bool_decide_eq_true.
  apply not_elem_of_empty.
Qed.

(** X18.  The scan of a path that is missing or not a folder finds
    nothing.  Otherwise it finds, in the order of the listing, the regular
    files whose suffix in lower case is not in the set to ignore.  An entry
    of that set that does not start with a dot ignores no file, and the set
    read from the text box never holds the empty extension, so files without
    a suffix are never ignored. *)
Theorem scan_folder_ignores (recursive : bool) (ignore_set : gset string)
    (fs : FS) (p : Path) :
  (fs_exists fs p = false \/ fs_is_dir fs p = false ->
   scan_folder recursive ignore_set fs p = [])
  /\ (fs_exists fs p = true -> fs_is_dir fs p = true ->
      (forall x : Path,
         x ∈ scan_folder recursive ignore_set fs p
         <-> x ∈ listed_files recursive fs p
             /\ Py.lower (suffix (path_name x)) ∉ ignore_set)
      /\ scan_folder recursive ignore_set fs p
         `sublist_of` listed_files recursive fs p
      /\ forall e : string,
           e <> "" -> (forall t : string, e <> String "." t) ->
           scan_folder recursive ({[e]} ∪ ignore_set) fs p
           = scan_folder recursive ignore_set fs p)
  /\ forall ignore_ext : string, "" ∉ parse_ignore_set ignore_ext.
Proof.
  refine (conj _ (conj _ _)).
  - intros [H|H]; unfold scan_folder; rewrite H; [reflexivity|].
    now rewrite orb_true_r.
  - intros He Hd. rewrite !(scan_folder_filter _ _ _ _ He Hd).
    refine (conj _ (conj _ _)).
    + intros x. split.
      * intros H. apply list_elem_of_In, filter_In in H as [H1 H2].
        apply bool_decide_eq_true in H2.
        split; [now apply list_elem_of_In | exact H2].
      * intros [H1 H2]. apply list_elem_of_In, filter_In.
        split; [now apply list_elem_of_In | now apply bool_decide_eq_true].
    + induction (listed_files recursive fs p) as [|a l IH]; [constructor|].
      cbn [List.filter]. destruct (bool_decide _);
        [now apply sublist_skip | now apply sublist_cons].
    + intros e Hne Hdot.
      rewrite (scan_folder_filter recursive ({[e]} ∪ ignore_set) fs p He Hd).
      apply List.filter_ext. intros x.
      apply bool_decide_ext. rewrite not_elem_of_union, not_elem_of_singleton.
      split; [tauto|]. intros H. split; [|exact H]. intros E.
      destruct (suffix_shape (path_name x)) as [Hs|[t Hs]];
        rewrite Hs in E; cbn in E.
      * now apply Hne.
      * now apply (Hdot (Py.lower t)).
  - intros ignore_ext. unfold parse_ignore_set.
    rewrite elem_of_list_to_set, list_elem_of_fmap.
    intros (e & He & Hin). apply list_elem_of_In, filter_In in Hin as [_ Hin].
    symmetry in He. apply lower_empty in He. rewrite He in Hin.
    discriminate Hin.
Qed.

End ScanFolder.

(** ** Events and notes on the timelines *)

Lemma sorted_head {A : Type} (key : A -> string) (l : list A) (x : A)
    (rest : list A) :
  StronglySorted (key_ge key) l -> l ≡ₚ x :: rest ->
  (forall y, In y rest -> String.ltb (key y) (key x) = true) ->
  exists tl : list A, l = x :: tl /\ tl ≡ₚ rest.
Proof.
  intros Hs Hp Hlt. destruct l as [|h tl].
  - now apply Permutation_nil_cons in Hp.
  - assert (Hh : h = x).
    { assert (Hin : In h (x :: rest)).
      { apply (Permutation_in h Hp). now left. }
      destruct Hin as [E|Hin]; [now symmetry|].
      assert (Hx : In x (h :: tl)).
      { apply (Permutation_in x (Permutation_sym Hp)). now left. }
      destruct Hx as [E|Hx]; [exact E|]. exfalso.
      apply StronglySorted_inv in Hs as [_ Hall].
      rewrite List.Forall_forall in Hall. specialize (Hall x Hx).
      unfold key_ge in Hall.
      pose proof (ltb_true_le _ _ (Hlt h Hin)) as Hle.
      pose proof (str_le_antisym _ _ Hall Hle) as E.
      pose proof (Hlt h Hin) as Hlt'. rewrite E, ltb_irrefl in Hlt'.
      discriminate Hlt'. }
    subst h. exists tl. split; [reflexivity|].
    now apply Permutation_cons_inv in Hp.
Qed.

Lemma order_by_desc_limit_newest {A : Type} (key : A -> string) (n : nat)
    (rows : list A) (x : A) :
  (forall y, In y rows -> String.ltb (key y) (key x) = true) ->
  exists tl : list A,
    Sql.order_by_desc_limit key (S n) (rows ++ [x]) = x :: tl
    /\ forall y, In y tl -> In y rows.
Proof.
  intros Hlt. unfold Sql.order_by_desc_limit.
  destruct (sorted_head key (rev (sort_by key (rev (rows ++ [x])))) x rows)
    as (tl & E & Hp).
  - exact (py_sort_descending key (rows ++ [x])).
  - rewrite rev_perm, sort_by_perm, rev_perm.
    apply Permutation_sym, Permutation_cons_append.
  - exact Hlt.
  - rewrite E. cbn [firstn]. eexists. split; [reflexivity|].
    intros y Hy. apply (Permutation_in y Hp).
    apply list_elem_of_In. apply list_elem_of_In in Hy.
    now apply elem_of_firstn in Hy.
Qed.

Lemma order_by_desc_limit_in {A : Type} (key : A -> string) (n : nat)
    (rows : list A) (y : A) :
  In y (Sql.order_by_desc_limit key n rows) -> In y rows.
Proof.
  intros H. apply list_elem_of_In. apply list_elem_of_In in H.
  now apply order_by_desc_limit_elem in H.
Qed.

Lemma dashboard_shown_top (es : list event_row) (ls : list log_row)
    (x : dashboard_entry) (rest : list dashboard_entry) :
  map event_entry es ++ map log_entry ls ≡ₚ x :: rest ->
  (forall y, In y rest -> String.ltb (snd (fst y)) (snd (fst x)) = true) ->
  exists tl : list dashboard_entry, dashboard_shown es ls = x :: tl.
Proof.
  intros Hp Hlt.
  destruct (sorted_head (fun t : dashboard_entry => snd (fst t))
              (dashboard_timeline es ls) x rest) as (tl & E & _).
  - apply py_sort_descending.
  - unfold dashboard_timeline. now rewrite py_sort_perm.
  - exact Hlt.
  - unfold dashboard_shown. rewrite E. now eexists.
Qed.

Section EventsAndNotes.

Context {FS : Type} {file_system : FileSystem FS}
        {page_writer : PageWriter}.

(** X19.  [Mark Event] with a blank title changes nothing.  With a title,
    it adds one event of the session, with the title, the room and the
    camera label stripped, and touches no other table; when every event
    and note of the session is older, the new event is the first entry of
    the timeline of the dashboard, and the timeline of the report is the
    one before with the new event added. *)
Theorem mark_event_on_top (w : World) (sid : string) (now : datetime)
    (ev_author ev_title ev_room ev_cam : string) (ev_sev : nat)
    (ev_tags : list string) :
  (Py.strip ev_title = "" ->
   mark_event sid now ev_author ev_title ev_room ev_cam ev_sev ev_tags w
   = (Ok false, w))
  /\ (Py.strip ev_title <> "" ->
      exists (w1 : World) (id : nat),
        let row :=
          mkEvent id sid (fmt_ts now) ev_author (Py.strip ev_title) ev_sev
                  ev_tags (Py.or_none (Py.strip ev_room))
                  (Py.or_none (Py.strip ev_cam)) in
        mark_event sid now ev_author ev_title ev_room ev_cam ev_sev ev_tags w
        = (Ok true, w1)
        /\ events (w_db w1) = events (w_db w) ++ [row]
        /\ logs (w_db w1) = logs (w_db w)
        /\ same_but_timeline (w_db w) (w_db w1)
        /\ report_timeline (Sql.events_of sid (w_db w1))
                           (Sql.logs_of sid (w_db w1))
           ≡ₚ report_event_entry row
              :: report_timeline (Sql.events_of sid (w_db w))
                                 (Sql.logs_of sid (w_db w))
        /\ (all_before sid (fmt_ts now) (w_db w) ->
            exists (rest : list dashboard_entry) (w2 : World),
              screen_dashboard_timeline sid w1
              = (Ok (event_entry row :: rest), w2))).
Proof.
  split.
  - intros H. unfold mark_event. now rewrite H.
  - intros Hne. unfold mark_event. rewrite (eqb_empty_false _ Hne).
    unfold bind.
    match goal with
    | |- context [execute ?stmt ?w0] =>
        rewrite (execute_ok stmt w0 _ eq_refl)
    end.
    cbn [ret]. eexists _, _. cbv zeta. split; [reflexivity|].
    cbn [w_db events logs]. split; [reflexivity|]. split; [reflexivity|].
    split; [repeat split|].
    set (row := mkEvent _ sid (fmt_ts now) ev_author (Py.strip ev_title)
                        ev_sev ev_tags _ _).
    set (d1 := mkDB _ _ (events (w_db w) ++ [row]) _ _ _ _).
    assert (Hse : List.filter (fun r => String.eqb (event_session_id r) sid)
                              (events d1)
                  = session_events sid (w_db w) ++ [row]).
    { unfold d1, session_events. cbn [events].
      rewrite List.filter_app. cbn [List.filter row event_session_id].
      unfold row at 1. cbn [event_session_id]. now rewrite String.eqb_refl. }
    split.
    + unfold report_timeline. rewrite !py_sort_perm.
      unfold Sql.events_of, Sql.logs_of, Sql.order_by_asc.
      rewrite !sort_by_perm, Hse. cbn [logs d1].
      change (List.filter _ (events (w_db w)))
        with (session_events sid (w_db w)).
      rewrite map_app. cbn [map].
      rewrite <- app_assoc. cbn [app]. symmetry. apply Permutation_middle.
    + intros [Hev Hlg]. unfold screen_dashboard_timeline, bind.
      rewrite !fetch_eq. cbn [w_db ret].
      unfold Sql.recent_events_of, Sql.recent_logs_of. rewrite Hse.
      cbn [logs d1].
      destruct (order_by_desc_limit_newest event_created_at 99
                  (session_events sid (w_db w)) row Hev) as (tl & -> & Htl).
      destruct (dashboard_shown_top (row :: tl)
                  (Sql.order_by_desc_limit log_created_at 200
                     (List.filter
                        (fun r => String.eqb (log_session_id r) sid)
                        (logs (w_db w))))
                  (event_entry row)
                  (map event_entry tl
                   ++ map log_entry
                        (Sql.order_by_desc_limit log_created_at 200
                           (List.filter
                              (fun r => String.eqb (log_session_id r) sid)
                              (logs (w_db w))))))
        as (rest & ->).
      * reflexivity.
      * intros y Hy. apply in_app_or in Hy as [Hy|Hy];
          apply in_map_iff in Hy as (r & <- & Hr).
        -- exact (Hev r (Htl r Hr)).
        -- apply Hlg. exact (order_by_desc_limit_in _ _ _ _ Hr).
      * now eexists _, _.
Qed.

(** X20.  [Save Note] with a blank text changes nothing.  With a text, it
    adds one note of the session, with the text stripped and the mode QUICK
    or NARRATIVE, and touches no other table; when every event and note of
    the session is older, the new note is the first entry of the timeline
    of the dashboard, and the timeline of the report is the one before with
    the new note added. *)
Theorem save_note_on_top (w : World) (sid : string) (now : datetime)
    (quick : bool) (note_author : string) (note_tags : list string)
    (note_text : string) (linked_event_id : option nat) :
  (Py.strip note_text = "" ->
   save_note sid now quick note_author note_tags note_text linked_event_id w
   = (Ok false, w))
  /\ (Py.strip note_text <> "" ->
      exists (w1 : World) (id : nat),
        let row :=
          mkLog id sid (fmt_ts now) (if quick then "QUICK" else "NARRATIVE")
                note_author note_tags (Py.strip note_text) linked_event_id in
        save_note sid now quick note_author note_tags note_text
                  linked_event_id w
        = (Ok true, w1)
        /\ logs (w_db w1) = logs (w_db w) ++ [row]
        /\ events (w_db w1) = events (w_db w)
        /\ same_but_timeline (w_db w) (w_db w1)
        /\ report_timeline (Sql.events_of sid (w_db w1))
                           (Sql.logs_of sid (w_db w1))
           ≡ₚ report_log_entry row
              :: report_timeline (Sql.events_of sid (w_db w))
                                 (Sql.logs_of sid (w_db w))
        /\ (all_before sid (fmt_ts now) (w_db w) ->
            exists (rest : list dashboard_entry) (w2 : World),
              screen_dashboard_timeline sid w1
              = (Ok (log_entry row :: rest), w2))).
Proof.
  split.
  - intros H. unfold save_note. rewrite H. now rewrite orb_true_r.
  - intros Hne. unfold save_note. rewrite (eqb_empty_false _ Hne).
    assert (Hne' : note_text <> "") by (intros ->; now apply Hne).
    rewrite (eqb_empty_false _ Hne'). cbn [orb]. unfold bind.
    match goal with
    | |- context [execute ?stmt ?w0] =>
        rewrite (execute_ok stmt w0 _ eq_refl)
    end.
    cbn [ret]. eexists _, _. cbv zeta. split; [reflexivity|].
    cbn [w_db events logs]. split; [reflexivity|]. split; [reflexivity|].
    split; [repeat split|].
    set (row := mkLog _ sid (fmt_ts now) _ note_author note_tags
                      (Py.strip note_text) linked_event_id).
    set (d1 := mkDB _ (logs (w_db w) ++ [row]) _ _ _ _ _).
    assert (Hsl : List.filter (fun r => String.eqb (log_session_id r) sid)
                              (logs d1)
                  = session_logs sid (w_db w) ++ [row]).
    { unfold d1, session_logs. cbn [logs].
      rewrite List.filter_app. cbn [List.filter].
      unfold row at 1. cbn [log_session_id]. now rewrite String.eqb_refl. }
    split.
    + unfold report_timeline. rewrite !py_sort_perm.
      unfold Sql.events_of, Sql.logs_of, Sql.order_by_asc.
      rewrite !sort_by_perm, Hsl. cbn [events d1].
      change (List.filter _ (logs (w_db w)))
        with (session_logs sid (w_db w)).
      rewrite map_app. cbn [map]. rewrite app_assoc.
      symmetry. apply Permutation_cons_append.
    + intros [Hev Hlg]. unfold screen_dashboard_timeline, bind.
      rewrite !fetch_eq. cbn [w_db ret].
      unfold Sql.recent_events_of, Sql.recent_logs_of. rewrite Hsl.
      cbn [events d1].
      destruct (order_by_desc_limit_newest log_created_at 199
                  (session_logs sid (w_db w)) row Hlg) as (tl & -> & Htl).
      destruct (dashboard_shown_top
                  (Sql.order_by_desc_limit event_created_at 100
                     (List.filter
                        (fun r => String.eqb (event_session_id r) sid)
                        (events (w_db w))))
                  (row :: tl) (log_entry row)
                  (map event_entry
                     (Sql.order_by_desc_limit event_created_at 100
                        (List.filter
                           (fun r => String.eqb (event_session_id r) sid)
                           (events (w_db w))))
                   ++ map log_entry tl))
        as (rest & ->).
      * cbn [map]. symmetry. apply Permutation_middle.
      * intros y Hy. apply in_app_or in Hy as [Hy|Hy];
          apply in_map_iff in Hy as (r & <- & Hr).
        -- apply Hev. exact (order_by_desc_limit_in _ _ _ _ Hr).
        -- exact (Hlg r (Htl r Hr)).
      * now eexists _, _.
Qed.

End EventsAndNotes.

(** ** The time of an entry of the dashboard *)

(** X21.  For a timestamp the program wrote for a moment from the year
    1000 on, where the year has its four digits without padding, the time
    shown with an entry of the dashboard is read without an error, and it
    is the hours and the minutes as they stand in the timestamp, characters
    11 to 15 of its 19. *)
Theorem entry_time_of_timestamp (dt : datetime) :
  valid_datetime dt = true -> 1000 <= year dt ->
  Py.format_0d 4 (year dt) = Py.str_of_nat (year dt)
  /\ entry_time (fmt_ts dt) = Ok (String.substring 11 5 (fmt_ts dt))
  /\ String.length (fmt_ts dt) = 19.
Proof.
  intros Hv Hyear. split; [now apply format_year_unpadded|].
  unfold entry_time. rewrite (strptime_fmt_ts dt Hv).
  destruct (valid_datetime_bounds dt Hv) as (Hy & Hmo & Hd & Hh & Hmi & Hs).
  destruct (format_4_shape _ Hy) as (y1 & y2 & y3 & y4 & Ey & _).
  destruct (format_2_shape _ Hmo) as (m1 & m2 & Emo & _).
  destruct (format_2_shape _ Hd) as (d1 & d2 & Ed & _).
  destruct (format_2_shape _ Hh) as (h1 & h2 & Eh & _).
  destruct (format_2_shape _ Hmi) as (i1 & i2 & Emi & _).
  destruct (format_2_shape _ Hs) as (s1 & s2 & Es & _).
  unfold fmt_time, fmt_ts. rewrite Ey, Emo, Ed, Eh, Emi, Es.
  split; reflexivity.
Qed.

Lemma entry_time_of_timestamp_witness :
  entry_time "2024-03-09 21:43:05" = Ok "21:43".
Proof.
  destruct (entry_time_of_timestamp Demo.now0) as (_ & H & _).
  - reflexivity.
  - apply Nat.leb_le. vm_compute. reflexivity.
  - exact H.
Defined.
